(* ===== verification/_CoqProject ===== *)
-Q . S2P
Prelude.v
NdArray.v
Ufunc.v
Float.v
Dtype.v
Argmax.v
Loader.v
Collaborator.v
Imports.v
Main.v
Print.v
Script.v
