(* ===== verification/Prelude.v ===== *)
(** * Verification of the CIFAR-10 experiment driver of nn_mkl_introduction

    ** The program

    The Python side of the repository is one script,
    [src/python/experiments/cifar_nn/main.py].  Its [main()] (lines 10-31)
    - builds the dataset path with [os.path.join] (line 11);
    - loads the four CIFAR-10 arrays with [data_loading.cifar10] (line 12);
    - reshapes both image sets to [(N, 3, 32, 32)], with the literal sample
      counts 50000 and 10000 (lines 13-14);
    - hands the data to the C++ extension [cifar_nn_py]: [Dataset],
      [SimpleNet], [train] for 10 epochs, [net.forward] (lines 16-23),
      printing the dataset, the network and the shape of the scores;
    - takes [np.argmax(res, axis=1)] (line 25), scores the predictions with
      [test_labels - res], [np.where] and [np.sum(..) / shape[0]]
      (lines 27-29), and prints the accuracy (line 31).
    Before [main()] is defined, lines 1-7 import [data_loading], [sys],
    [os] and [numpy], append the extension's build directory to [sys.path]
    and import [cifar_nn_py].  Lines 34-35 run [main()] when the file is
    executed as the program.

    ** The development, file by file

    - [Prelude] (this file): the result monad [result] ([Ok]/[Err], the
      Python exception of a call), the program monad [prog] (a result and
      the lines printed before it: a raised exception keeps the lines
      already printed), [rows] (the row view of a flat buffer),
      [os_path_join] (posixpath's [join], line 11), the w-bit signed wrap
      [wrap_signed] of numpy's int64 arithmetic, the tactics and hint
      databases the other files share.
    - [NdArray] (Module [NdArray]): the numpy array as a shape and its
      C-order data; [reshape] with numpy's ValueError on a size mismatch
      (lines 13-14); C-order index arithmetic [ravel]/[unravel]; [item].
    - [Ufunc] (Module [Ufunc]): broadcasting of shapes of any rank,
      the binary ufunc [binop], the int64 [subtract] (line 27), [where_eq0]
      (line 28), [sum], [shape0] and the float64 [true_divide] with its
      NaN and infinities (line 29), which keeps the exact quotient.
    - [Float] (Module [Float]): the float64 arithmetic of line 29 and the
      text of line 31 on the Standard Library's executable binary64
      specification [SpecFloat] (prec 53, emax 1024): numpy's int64 to
      float64 cast [of_int64], its division [np_true_divide], the float
      nearest an exact value [f64_round], Python's [repr] of a float
      [float_repr] (shortest round-trip digits, positional or exponent
      layout) and the reader [read_float] of its texts.
    - [Argmax] (Module [Argmax]): numpy's argmax scan (running maximum,
      replaced when [!(x <= mp)], stopping at the first NaN) over an
      abstract order, and [argmax_axis1] (line 25) for arrays of any rank.
    - [Loader] (Module [Loader]): [data_loading.cifar10], which is not under
      [src/] and is modelled from the specification: shards of fixed-size
      records read from a file system given as a finite map, the training
      shards concatenated in order, the errors for a missing or truncated
      shard.
    - [Collaborator] (Module [Collaborator]): the interface of the C++
      extension as the class [CifarNN] with its contract [CifarNNLaws]
      ([forward] returns one row of scores per sample); [Mock] is an
      instance that shows the contract is satisfiable.
    - [Main] (Module [Main]): [main_with], the whole body of [main()] as one
      [prog], each step in the order of the code, with the literal sizes and
      the epoch count as the record [consts]; [main] is [main_with] at the
      literals of the code; [accuracy_of] is lines 27-29.
    - [Dtype] (Module [Dtype]): numpy's dtypes, [np.promote_types], the
      dtype of [np.sum] and a typing judgement [typed] for the expressions
      of lines 25-29; it justifies the int64 and float64 model of [Ufunc].
    - [Imports] (Module [Imports]): lines 1-7 in CPython's import system:
      [posixpath.normpath]/[abspath], [FileFinder] and [PathFinder] search,
      dotted imports with the [sys.modules] cache, [from ... import],
      [sys.path.append]; the module-level statements as a function
      [exec_stmts] and as a step relation [step] on configurations.
    - [Script] (Module [Script]): the module body of [main.py]: lines 1-7,
      then [main()] when [__name__ == "__main__"] (lines 34-35).
    - [Print] (Module [Print]): the text of each printed line
      ([line_text]): Python's repr of a tuple of ints for the shape (line
      24), with a parser for it, and [Float.float_repr] of numpy's float
      for the accuracy (line 31).

    ** What is proved

    - Refinement: a successful run prints the accuracy the specification
      defines: the fraction of test samples whose label is the first class
      of maximal score ([Main.main_with_refines_spec],
      [Main.score_refines_spec]); numpy's argmax scan computes the first
      maximum ([Argmax.argmax_scores_first_max]).
    - Bounds: the printed accuracy lies in [0, 1] for every network meeting
      the contract; the int64 subtraction is zero exactly when the operands
      agree modulo 2^64.
    - Loading: a run gets past the loader exactly when every shard exists
      and holds whole records, and a load error names a missing or truncated
      shard ([Main.main_with_loads_iff], [Main.main_with_LoadError]);
      shards written record by record load back as their records
      ([Loader.cifar10_roundtrip]); after the reshape of line 14, element
      [[s, c, h, w]] is the byte of the shard at the C-order offset
      ([Loader.cifar10_test_layout], [NdArray.reshape_4d_index]).
    - Output and errors: a completed run prints exactly four lines, the
      third the shape [(n_test, K)] of the scores; a failed run prints at
      most three lines and never an accuracy; an exception of the extension
      propagates unchanged; a training split of any size other than 50000,
      or a test split of any size other than 10000, stops at the reshape
      of line 13 or 14 with nothing printed.  The refinement is stated for
      the run's own values: [Main.scored_run] names the test labels, the
      scores and the predictions a run computes, which the inputs
      determine ([Main.scored_run_det]).
    - numpy arithmetic: [np.sum] of the 0/1 mask cannot wrap at 64 bits;
      the int64 difference is zero exactly when the operands agree modulo
      2^64; broadcasting is symmetric.
    - Paths: line 11 builds [./../../resources/cifar10]; [os.path.join]
      restarts at an absolute component.
    - Imports and the module body: the statements of lines 1-7 always run
      to an end (the step relation is well founded), [exec_stmts] computes
      exactly the configuration the step relation reaches, and every
      reachable configuration keeps [sys.modules] closed under parents; the
      path search returns the first directory that holds the module, so the
      entry appended at line 6 never shadows an earlier one and is used
      only when no earlier entry provides [cifar_nn_py]; without the package
      [python] on the initial [sys.path] the program stops at line 1 and
      prints nothing; imported under another name it never runs [main()];
      a run that completes prints the dataset, the network, the shape
      [(n_test, K)] and an accuracy in [0, 1].
    - Printing: the line [print(res.shape)] writes parses back to the
      shape ([Print.repr_shape_roundtrip]).
    - float64: numpy's cast of an integer below 2^53 is exact, and x/0 is
      NaN or an infinity as [Ufunc.true_divide] says; for all operands
      below 2^53 the float division of the converted integers is the exact
      quotient rounded once ([Float.np_true_divide_refines], proved from
      the invariance of [SpecFloat]'s division core under shifts of the
      mantissas); on every quotient [c / 10^j] ([j ≤ 4], so on the 10000
      test samples of the code) the result lies in [0, 1] within relative
      error 2^-53, prints as the decimal [c / 10^j] with at most [j]
      decimals ([0.5], [0.9123], [1.0]) and reads back as the same float;
      a run that completes with [10^j] test samples prints last that text
      for [c] the number of its correct predictions
      ([Script.run_main_py_accuracy_text]).
    - Types: the difference of line 27 is int64 exactly for boolean and
      integer labels other than uint64, and for non-negative labels it
      never wraps; the typing judgement also gives the accuracy the dtype
      float64 ([Dtype.accuracy_expr_typed], the division rule [div_dtype]
      following NEP 50).
    - Divergences the model exhibits: a single prediction is broadcast
      against all labels instead of a length error; line 29 has no guard
      against zero samples (0/0 is NaN), a case [main()] does not reach
      because the reshape of line 14 raises first; a NaN score wins the
      argmax; a network that always favours one class scores the share of
      labels of that class, so in the specification's scenario the code
      prints 0.5, not the 0.25 the specification states
      ([Main.main_with_constant_class]).

    ** Bounds and fuel

    Every recursion is structural (on lists or shapes): no fuel is needed
    and every operation is total.  Integers are [Z] with numpy's int64
    wrap written out; array dimensions are [nat] with the hypothesis, stated
    where it matters, that a count is below 2^63 as numpy requires.  Scores
    are exact rationals or NaN: float rounding is not modelled (see below).
    Concrete checks use small shapes ([Loader.Sample], [Main.Scenario]) and a
    small checkout of the repository ([Imports.Layout]); the literals 50000
    and 10000 are never computed with, only compared.  Termination of the
    module-level statements is proved with the measure [Imports.measure]
    (the statements left to run).  [Float.shortest] tries 1 to 17
    significant digits, the fuel 17 being the number of digits that
    always identify a binary64 float.  The float properties of line 29
    are decided by evaluating them on each of the 11111 pairs [(j, c)]
    with [j ≤ 4] and [0 ≤ c ≤ 10^j] ([Float.fracs]); the test split of
    the code has 10000 = 10^4 samples, and any other size stops at the
    reshape ([Main.main_literal_test_count_fails]).

    ** Not modelled

    - The C++ extension [cifar_nn_py] (built outside [src/]): only its
      interface and contract; training and the network's arithmetic are
      abstract, and every theorem about [main] holds for every instance.
    - Running the code of an imported module (loading [numpy],
      [data_loading] or the extension cannot fail in the model), symbolic
      links (paths are normalised lexically, as [posixpath.abspath] does),
      the attributes a package's [__init__] defines, and the import lock.
    - dtypes the program never meets: float16, complex, object and
      datetime; the default integer is the 64-bit one of Linux and macOS.
    - The text of the extension's objects ([__repr__] of the dataset and
      the network), which the extension defines: [Print.line_text] takes
      it as given.
    - IEEE-754 arithmetic of the scores, which the extension computes:
      a score is a rational or NaN.  The division of line 29 is modelled
      in IEEE-754 ([Float]); its error bound and its printed text on
      general operands (beyond the quotients [c / 10^j] the program can
      reach) are not proved, as that needs the correctness of
      [SpecFloat]'s rounding, which the Standard Library does not state.
    - Python's [float()] beyond the texts [repr] writes (spaces,
      underscores, [infinity]) and numpy's own scalar printing options:
      [print] of a float64 scalar writes [repr] of the float.
    - The body of [data_loading], which is modelled from the specification
      only. *)

From stdpp Require Import base list gmap strings.
From Stdlib Require Import ZArith Lia Ascii.

(** ** Results: values of a computation that may raise a Python exception *)

Inductive result (E A : Type) : Type :=
  | Ok (a : A)
  | Err (e : E).
Arguments Ok {E A} a.
Arguments Err {E A} e.

#[export] Instance result_ret E : MRet (result E) := λ A a, Ok a.
#[export] Instance result_bind E : MBind (result E) :=
  λ A B f r, match r with Ok a => f a | Err e => Err e end.
#[export] Instance result_fmap E : FMap (result E) :=
  λ A B f r, match r with Ok a => Ok (f a) | Err e => Err e end.

Definition is_ok {E A} (r : result E A) : bool :=
  match r with Ok _ => true | Err _ => false end.

(** Re-tag the exception of a failed computation. *)
Definition map_err {E E' A} (f : E → E') (r : result E A) : result E' A :=
  match r with Ok a => Ok a | Err e => Err (f e) end.

Declare Scope cifar_scope.
Delimit Scope cifar_scope with cifar.
Notation "'raise' e" := (Err e) (at level 10, e at level 9) : cifar_scope.
Open Scope cifar_scope.

Section result_lemmas.
Context {E A B : Type}.

Lemma bind_Ok (a : A) (f : A → result E B) : (Ok a ≫= f) = f a.
Proof. reflexivity. Qed.

Lemma bind_Err (e : E) (f : A → result E B) : ((raise e : result E A) ≫= f) = raise e.
Proof. reflexivity. Qed.

Lemma bind_Ok_inv (r : result E A) (f : A → result E B) (b : B) :
  (r ≫= f) = Ok b → ∃ a, r = Ok a ∧ f a = Ok b.
Proof. destruct r; simpl; [eauto | discriminate]. Qed.

Lemma bind_Err_inv (r : result E A) (f : A → result E B) (e : E) :
  (r ≫= f) = Err e → r = Err e ∨ ∃ a, r = Ok a ∧ f a = Err e.
Proof. destruct r; simpl; [eauto | intros [= ->]; auto]. Qed.
End result_lemmas.

(** ** Programs with standard output: a writer monad over [result] *)

(** A run of straight-line Python code that prints: the lines printed, in
    order, and how it ended. An exception stops the run; what was printed
    before it stays printed. *)
Record prog (O E A : Type) : Type := Prog { prog_out : list O; prog_res : result E A }.
Arguments Prog {O E A} _ _.
Arguments prog_out {O E A} _.
Arguments prog_res {O E A} _.

#[export] Instance prog_ret O E : MRet (prog O E) := λ A a, Prog [] (Ok a).
#[export] Instance prog_bind O E : MBind (prog O E) :=
  λ A B f p,
    match prog_res p with
    | Ok a => let q := f a in Prog (prog_out p ++ prog_out q) (prog_res q)
    | Err e => Prog (prog_out p) (Err e)
    end.

(** [print(x)]: one line on standard output. *)
Definition emit {O E} (o : O) : prog O E unit := Prog [o] (Ok tt).
(** A computation without output, lifted into a program. *)
Definition lift {O E A} (r : result E A) : prog O E A := Prog [] r.
(** The same program, its exception wrapped by [f]. *)
Definition prog_map_err {O E E' A} (f : E → E') (p : prog O E A) : prog O E' A :=
  Prog (prog_out p) (map_err f (prog_res p)).

Section prog_lemmas.
Context {O E A B : Type}.

Lemma prog_bind_Ok (os : list O) (a : A) (f : A → prog O E B) :
  (Prog os (Ok a) ≫= f) = Prog (os ++ prog_out (f a)) (prog_res (f a)).
Proof. reflexivity. Qed.

Lemma prog_bind_Err (os : list O) (e : E) (f : A → prog O E B) :
  (Prog os (Err e) ≫= f) = Prog os (Err e).
Proof. reflexivity. Qed.

Lemma lift_Ok_bind (a : A) (f : A → prog O E B) : (lift (Ok a) ≫= f) = f a.
Proof. unfold lift. cbn. by destruct (f a). Qed.

Lemma lift_Err_bind (e : E) (f : A → prog O E B) : (lift (Err e) ≫= f) = Prog [] (Err e).
Proof. reflexivity. Qed.

Lemma emit_bind (o : O) (f : unit → prog O E B) :
  (emit o ≫= f) = Prog (o :: prog_out (f tt)) (prog_res (f tt)).
Proof. reflexivity. Qed.

Lemma prog_out_bind_prefix (p : prog O E A) (f : A → prog O E B) :
  prefix (prog_out p) (prog_out (p ≫= f)).
Proof.
  destruct p as [os [a|e]]; simpl; [by eexists | done].
Qed.
End prog_lemmas.

(** ** Lists cut into rows of equal length *)

(** [rows k n l]: the first [k] consecutive slices [l[i*n:(i+1)*n]] of [l],
    which is what numpy's [l.reshape(k, n)] exposes row by row. *)
Fixpoint rows {A} (k n : nat) (l : list A) : list (list A) :=
  match k with
  | 0 => []
  | S k' => take n l :: rows k' n (drop n l)
  end.

(** The number of elements of an array of the given shape. *)
Definition shape_size (s : list nat) : nat := foldr Nat.mul 1 s.

(** ** Paths *)

(** Python's [os.path.join] (posixpath): a component that starts with '/'
    restarts the path; otherwise a '/' separates the parts unless the path
    so far is empty or already ends with '/'. *)
Definition starts_with_slash (s : string) : bool :=
  match s with
  | String c _ => Ascii.eqb c "/"%char
  | EmptyString => false
  end.

Definition ends_with_slash (s : string) : bool :=
  match String.get (String.length s - 1) s with
  | Some c => Ascii.eqb c "/"%char
  | None => false
  end.

Definition path_join2 (a b : string) : string :=
  if starts_with_slash b then b
  else if String.eqb a "" || ends_with_slash a then String.append a b
  else String.append a (String.append "/" b).

Definition os_path_join (a : string) (ps : list string) : string := foldl path_join2 a ps.

(** [str.split(sep)] on the characters of a string: the pieces between
    the separators, an empty piece where two separators meet or at an end. *)
Fixpoint split_on (sep : ascii) (l : list ascii) : list (list ascii) :=
  match l with
  | [] => [[]]
  | c :: l' =>
      let r := split_on sep l' in
      if Ascii.eqb c sep then [] :: r
      else match r with
           | w :: r' => (c :: w) :: r'
           | [] => [[c]]
           end
  end.

(** ** Machine integers *)

(** Two's complement wrap-around of a signed [w]-bit integer. *)
Definition wrap_signed (w : Z) (z : Z) : Z :=
  ((z + 2 ^ (w - 1)) mod 2 ^ w - 2 ^ (w - 1))%Z.

(** ** Automation *)

Create HintDb cifar discriminated.
Create Rewrite HintDb len.

Ltac invc H := inversion H; subst; clear H.

(** Split a [Forall] over a concrete list into one goal per element. *)
Ltac solve_Forall :=
  repeat (apply Forall_nil_2 || apply Forall_cons_2 || apply List.Forall2_nil ||
          apply List.Forall2_cons).

(** Close a goal about concrete values by evaluation. *)
Ltac concrete :=
  solve [reflexivity | simpl; lia | vm_compute; reflexivity | vm_compute; lia].

(** Split every [r ≫= f = Ok b] hypothesis into its two steps. *)
Ltac simpl_result :=
  repeat match goal with
  | H : (_ ≫= _) = Ok _ |- _ =>
      let a := fresh "a" in let Ha := fresh "Ha" in
      apply bind_Ok_inv in H as (a & Ha & H)
  | H : Ok _ = Ok _ |- _ => injection H as H
  | H : Err _ = Ok _ |- _ => discriminate H
  | H : Ok _ = Err _ |- _ => discriminate H
  end; subst.

Section rows_lemmas.
Context {A : Type}.

Lemma length_rows (k n : nat) (l : list A) : length (rows k n l) = k.
Proof. revert l; induction k; simpl; auto. Qed.

Lemma lookup_rows (k n i : nat) (l : list A) :
  i < k → rows k n l !! i = Some (take n (drop (i * n) l)).
Proof.
  revert i l; induction k as [|k IH]; intros i l Hi; [lia|].
  destruct i as [|i]; simpl; [by rewrite drop_0|].
  rewrite IH by lia. by rewrite drop_drop.
Qed.

Lemma rows_length_each (k n : nat) (l : list A) :
  k * n ≤ length l → Forall (λ r, length r = n) (rows k n l).
Proof.
  revert l; induction k as [|k IH]; intros l Hl; simpl; constructor.
  - rewrite length_take. lia.
  - apply IH. rewrite length_drop. lia.
Qed.

Lemma rows_Forall (P : A → Prop) (k n : nat) (l : list A) :
  Forall P l → Forall (Forall P) (rows k n l).
Proof.
  revert l; induction k as [|k IH]; intros l Hl; simpl; constructor.
  - by apply Forall_take.
  - by apply IH, Forall_drop.
Qed.

Lemma join_rows (k n : nat) (l : list A) :
  length l = k * n → mjoin (rows k n l) = l.
Proof.
  revert l; induction k as [|k IH]; intros l Hl; simpl.
  - destruct l; simpl in *; [done | lia].
  - rewrite IH by (rewrite length_drop; lia). apply take_drop.
Qed.

(** Cutting the concatenation of [k] rows of length [n] gives the rows back. *)
Lemma rows_join (n : nat) (ls : list (list A)) :
  Forall (λ r, length r = n) ls → rows (length ls) n (mjoin ls) = ls.
Proof.
  induction 1 as [|r ls Hr _ IH]; simpl; [done|].
  rewrite take_app_length' by done. rewrite drop_app_length' by done.
  by rewrite IH.
Qed.

Lemma length_join_rows (n : nat) (ls : list (list A)) :
  Forall (λ r, length r = n) ls → length (mjoin ls) = length ls * n.
Proof.
  intros H. rewrite length_join. rewrite (sum_list_fmap_same n); [lia|done].
Qed.

(** Element [j] of row [i] sits at flat offset [i * n + j]. *)
Lemma lookup_join_rows (n i j : nat) (ls : list (list A)) :
  Forall (λ r, length r = n) ls → j < n →
  mjoin ls !! (i * n + j) = ls !! i ≫= (λ r, r !! j).
Proof.
  intros H Hj. revert i; induction H as [|r ls Hr _ IH]; intros i; simpl.
  - destruct i; done.
  - destruct i as [|i]; simpl.
    + rewrite lookup_app_l by lia. done.
    + rewrite lookup_app_r by lia. rewrite <- IH. f_equal. lia.
Qed.
End rows_lemmas.

(** Element-wise combination of two lists of length [n], read by index. *)
Lemma fmap_seq_zip_with {A B C} `{Inhabited A, Inhabited B} (f : A → B → C)
    (la : list A) (lb : list B) (n : nat) :
  length la = n → length lb = n →
  (λ i, f (la !!! i) (lb !!! i)) <$> seq 0 n = zip_with f la lb.
Proof.
  intros Ha Hb. apply list_eq; intros i.
  rewrite list_lookup_fmap, lookup_zip_with.
  destruct (decide (i < n)).
  - rewrite lookup_seq_lt by done; simpl.
    rewrite (list_lookup_lookup_total_lt la i), (list_lookup_lookup_total_lt lb i) by lia.
    done.
  - rewrite lookup_seq_ge by lia. rewrite (lookup_ge_None_2 la i) by lia. done.
Qed.

(** Reading [k] consecutive elements by index is slicing. *)
Lemma fmap_seq_lookup_total {A} `{Inhabited A} (l : list A) (o k : nat) :
  o + k ≤ length l → (λ j, l !!! (o + j)) <$> seq 0 k = take k (drop o l).
Proof.
  intros Hk. apply list_eq; intros i. rewrite list_lookup_fmap.
  destruct (decide (i < k)).
  - rewrite lookup_seq_lt by done; simpl.
    rewrite lookup_take_lt, lookup_drop by done.
    by rewrite (list_lookup_lookup_total_lt l (o + i)) by lia.
  - rewrite lookup_seq_ge, lookup_take_ge by lia. done.
Qed.

Lemma fmap_seq_rows {A B} (h : list A → B) (k n : nat) (l : list A) :
  (λ i, h (take k (drop (i * k) l))) <$> seq 0 n = h <$> rows n k l.
Proof.
  apply list_eq; intros i. rewrite !list_lookup_fmap.
  destruct (decide (i < n)).
  - by rewrite lookup_seq_lt, lookup_rows.
  - rewrite lookup_seq_ge, lookup_ge_None_2; [done|rewrite length_rows|]; lia.
Qed.

Lemma fmap_mjoin {A B} (f : A → B) (ls : list (list A)) :
  f <$> mjoin ls = mjoin (fmap f <$> ls).
Proof. induction ls as [|l ls IH]; simpl; [done|]. by rewrite fmap_app, IH. Qed.

Lemma Forall_head_default {A} (P : A → Prop) (d : A) (l : list A) :
  Forall P l → P d → P (default d (head l)).
Proof. destruct l; simpl; [done|]. by intros [? _]%Forall_cons. Qed.

(** The channel-planar offset of pixel [(c, h, w)] lies inside the image. *)
Lemma offset3_lt (C H W c h w : nat) :
  c < C → h < H → w < W → c * (H * W) + h * W + w < C * H * W.
Proof.
  intros Hc Hh Hw. assert (h * W + w < H * W) by nia.
  assert (c * (H * W) + H * W ≤ C * (H * W)) by nia. nia.
Qed.

Lemma uint8_lt_pow63 : (256 < 2 ^ 63)%Z.
Proof. reflexivity. Qed.

Lemma wrap_signed_small (w z : Z) :
  (0 < w)%Z → (- 2 ^ (w - 1) ≤ z < 2 ^ (w - 1))%Z → wrap_signed w z = z.
Proof.
  intros Hw Hz. unfold wrap_signed.
  assert (2 ^ w = 2 * 2 ^ (w - 1))%Z as Hpow.
  { rewrite <- Z.pow_succ_r by lia. f_equal. lia. }
  rewrite Z.mod_small by lia. lia.
Qed.

#[export] Hint Rewrite @length_rows @length_take @length_drop @length_app
  @length_fmap @length_replicate @length_insert : len.
Ltac len := autorewrite with len in *; try lia.

(** ** Splitting *)

Lemma split_on_no_sep (sep : ascii) (a : list ascii) :
  sep ∉ a → split_on sep a = [a].
Proof.
  induction a as [|c a IH]; intros Hn; [done|]. simpl.
  rewrite IH by set_solver. destruct (Ascii.eqb_spec c sep); [set_solver|done].
Qed.

Lemma split_on_app (sep : ascii) (a b : list ascii) :
  sep ∉ a → split_on sep (a ++ sep :: b) = a :: split_on sep b.
Proof.
  induction a as [|c a IH]; intros Hn; simpl.
  - by rewrite Ascii.eqb_refl.
  - rewrite IH by set_solver. destruct (Ascii.eqb_spec c sep); [set_solver|done].
Qed.

(** ** os.path.join *)

Lemma path_join2_abs (a b : string) : starts_with_slash b = true → path_join2 a b = b.
Proof. intros Hb. unfold path_join2. by rewrite Hb. Qed.

(** [os.path.join] restarts at an absolute component: everything
    joined before a component starting with '/' is discarded. *)
Theorem os_path_join_restart (a b : string) (ps qs : list string) :
  starts_with_slash b = true → os_path_join a (ps ++ b :: qs) = os_path_join b qs.
Proof. intros Hb. unfold os_path_join. by rewrite foldl_app; simpl; rewrite path_join2_abs. Qed.

Lemma os_path_join_restart_witness :
  os_path_join "." (["data"] ++ "/srv/cifar10" :: ["test_batch.bin"]) =
    os_path_join "/srv/cifar10" ["test_batch.bin"].
Proof. apply os_path_join_restart. reflexivity. Defined.
