(* ===== verification/NdArray.v ===== *)
(** * numpy arrays: shape, C-order layout, [reshape] and indexing

    The arrays of [main.py] are numpy [ndarray]s: a shape and the elements
    in row-major (C) order.  This file models the array itself, the
    exceptions numpy raises in [main.py]'s calls, the [reshape] of lines
    13-14 and the element access [a[s, c, h, w]] that the model collaborator
    performs on the reshaped tensor. *)

From stdpp Require Import base list.
From Stdlib Require Import ZArith Lia.
From S2P Require Import Prelude.

(** The exceptions numpy raises in the calls [main.py] makes. *)
Inductive np_error : Type :=
  | ReshapeError (size : nat) (newshape : list nat)
      (** ValueError: cannot reshape array of size ... into shape ... *)
  | BroadcastError (s1 s2 : list nat)
      (** ValueError: operands could not be broadcast together *)
  | EmptyArgmaxError
      (** ValueError: attempt to get argmax of an empty sequence *)
  | AxisError (axis ndim : nat)
      (** numpy.exceptions.AxisError: axis out of bounds *)
  | IndexError.

Module NdArray.

Record ndarray (A : Type) : Type := mk { shape : list nat; data : list A }.
Arguments mk {A} _ _.
Arguments shape {A} _.
Arguments data {A} _.

(** [a.size] *)
Definition size {A} (a : ndarray A) : nat := shape_size (shape a).
(** [a.ndim] *)
Definition ndim {A} (a : ndarray A) : nat := length (shape a).

(** Every numpy array holds exactly as many elements as its shape says. *)
Definition wf {A} (a : ndarray A) : Prop := length (data a) = size a.

(** Row-major offset of a multi-index. *)
Fixpoint ravel (s idx : list nat) : nat :=
  match s, idx with
  | _ :: s', i :: idx' => i * shape_size s' + ravel s' idx'
  | _, _ => 0
  end.

(** Multi-index of a row-major offset ([np.unravel_index]). *)
Fixpoint unravel (s : list nat) (f : nat) : list nat :=
  match s with
  | [] => []
  | _ :: s' => f / shape_size s' :: unravel s' (f mod shape_size s')
  end.

(** A multi-index with one in-range coordinate per axis. *)
Fixpoint in_bounds (s idx : list nat) : bool :=
  match s, idx with
  | [], [] => true
  | d :: s', i :: idx' => (i <? d) && in_bounds s' idx'
  | _, _ => false
  end.

(** [a[i0, ..., ik]] with one non-negative index per axis; [None] is the
    IndexError numpy raises out of range. *)
Definition item {A} (a : ndarray A) (idx : list nat) : option A :=
  if in_bounds (shape a) idx then data a !! ravel (shape a) idx else None.

(** [a.reshape(newshape)]: the same elements in the same order under a new
    shape, or ValueError when the element counts differ. *)
Definition reshape {A} (a : ndarray A) (newshape : list nat) : result np_error (ndarray A) :=
  if decide (shape_size newshape = size a) then Ok (mk newshape (data a))
  else raise (ReshapeError (size a) newshape).

(** Element-wise conversion, keeping the shape ([a.astype(...)]). *)
Definition map {A B} (f : A → B) (a : ndarray A) : ndarray B := mk (shape a) (f <$> data a).

(** A one-axis array holding the list [l] ([np.array(l)]). *)
Definition of_list {A} (l : list A) : ndarray A := mk [length l] l.

(** ** Layout lemmas *)

Lemma ravel_lt (s idx : list nat) :
  in_bounds s idx = true → ravel s idx < shape_size s.
Proof.
  revert idx; induction s as [|d s IH]; intros [|i idx] Hb; simpl in *;
    try (done || lia).
  apply andb_prop in Hb as [Hi Hr%IH]. apply Nat.ltb_lt in Hi. nia.
Qed.

Lemma unravel_in_bounds (s : list nat) (f : nat) :
  f < shape_size s → in_bounds s (unravel s f) = true.
Proof.
  revert f; induction s as [|d s IH]; intros f Hf; simpl in *; [done|].
  assert (shape_size s ≠ 0) by (intros E; rewrite E in Hf; lia).
  apply andb_true_intro; split.
  - apply Nat.ltb_lt, Nat.Div0.div_lt_upper_bound. lia.
  - apply IH, Nat.mod_upper_bound. done.
Qed.

Lemma ravel_unravel (s : list nat) (f : nat) :
  f < shape_size s → ravel s (unravel s f) = f.
Proof.
  revert f; induction s as [|d s IH]; intros f Hf; simpl in *; [lia|].
  assert (shape_size s ≠ 0) by (intros E; rewrite E in Hf; lia).
  rewrite IH by (apply Nat.mod_upper_bound; done).
  rewrite (Nat.div_mod_eq f (shape_size s)) at 3. lia.
Qed.

(** C-order flattening of an in-bounds index, as numpy's reshape lays
    out elements, is inverted by unflattening. *)
Lemma unravel_ravel (s idx : list nat) :
  in_bounds s idx = true → unravel s (ravel s idx) = idx.
Proof.
  revert idx; induction s as [|d s IH]; intros [|i idx] Hb; simpl in *; try done.
  apply andb_prop in Hb as [_ Hr]. pose proof (ravel_lt _ _ Hr) as Hlt.
  rewrite <- (Nat.div_unique (i * shape_size s + ravel s idx) (shape_size s) i (ravel s idx))
    by lia.
  rewrite <- (Nat.mod_unique (i * shape_size s + ravel s idx) (shape_size s) i (ravel s idx))
    by lia.
  by rewrite IH.
Qed.

(** The offset of [t[s, c, h, w]] in a [(N, C, H, W)] array. *)
Lemma ravel_4d (N C H W s c h w : nat) :
  ravel [N; C; H; W] [s; c; h; w] = s * (C * H * W) + c * (H * W) + h * W + w.
Proof. unfold shape_size; simpl. lia. Qed.

Lemma in_bounds_4d (N C H W s c h w : nat) :
  in_bounds [N; C; H; W] [s; c; h; w] = true ↔ s < N ∧ c < C ∧ h < H ∧ w < W.
Proof.
  simpl. rewrite !andb_true_iff, !Nat.ltb_lt. tauto.
Qed.

Lemma map_of_list {A B} (f : A → B) (l : list A) : map f (of_list l) = of_list (f <$> l).
Proof. unfold map, of_list; simpl. by rewrite length_fmap. Qed.

(** A well-formed one-axis array is the array of its elements. *)
Lemma of_list_data {A} (a : ndarray A) (n : nat) :
  wf a → shape a = [n] → a = of_list (data a).
Proof.
  unfold wf, size, shape_size, of_list. destruct a as [s d]; simpl. intros Hwf ->.
  simpl in Hwf. f_equal. f_equal. lia.
Qed.

(** ** [reshape] *)

Section reshape_lemmas.
Context {A : Type}.

Lemma reshape_Ok_iff (a b : ndarray A) (s : list nat) :
  reshape a s = Ok b ↔ shape_size s = size a ∧ b = mk s (data a).
Proof.
  unfold reshape. case_decide; split.
  - by intros [= <-].
  - by intros [_ ->].
  - done.
  - by intros [? _].
Qed.

Lemma reshape_Err_iff (a : ndarray A) (s : list nat) (e : np_error) :
  reshape a s = Err e ↔ shape_size s ≠ size a ∧ e = ReshapeError (size a) s.
Proof.
  unfold reshape. case_decide; split.
  - done.
  - by intros [? _].
  - by intros [= <-].
  - by intros [_ ->].
Qed.

Lemma reshape_wf (a b : ndarray A) (s : list nat) :
  wf a → reshape a s = Ok b → wf b.
Proof.
  unfold wf. intros Hwf [Hs ->]%reshape_Ok_iff. unfold size in *; simpl. lia.
Qed.

Lemma reshape_data (a b : ndarray A) (s : list nat) :
  reshape a s = Ok b → data b = data a ∧ shape b = s.
Proof. intros [_ ->]%reshape_Ok_iff. done. Qed.

(** Reshaping back to the original shape restores the original array. *)
Lemma reshape_reshape_back (a b : ndarray A) (s : list nat) :
  reshape a s = Ok b → reshape b (shape a) = Ok a.
Proof.
  intros [Hs ->]%reshape_Ok_iff. apply reshape_Ok_iff.
  unfold size in *; simpl. destruct a; simpl in *. split; [lia|done].
Qed.

(** Element [idx] of a reshaped array is the element of the original's
    flat buffer at the row-major offset of [idx]. *)
Lemma item_reshape (a b : ndarray A) (s idx : list nat) :
  reshape a s = Ok b → in_bounds s idx = true →
  item b idx = data a !! ravel s idx.
Proof.
  intros [_ ->]%reshape_Ok_iff Hb. unfold item; simpl. by rewrite Hb.
Qed.

Lemma item_wf_is_Some (a : ndarray A) (idx : list nat) :
  wf a → in_bounds (shape a) idx = true → is_Some (item a idx).
Proof.
  unfold wf, item, size. intros Hwf Hb. rewrite Hb.
  apply lookup_lt_is_Some_2. rewrite Hwf. by apply ravel_lt.
Qed.

(** C10: The layout of lines 13-14: element [[s, c, h, w]] of a buffer
    reshaped to [(N, C, H, W)] is the element at flat offset
    [s*C*H*W + c*H*W + h*W + w]. *)
Theorem reshape_4d_index (a t : ndarray A) (N C H W s c h w : nat) :
  reshape a [N; C; H; W] = Ok t → s < N → c < C → h < H → w < W →
  item t [s; c; h; w] = data a !! (s * (C * H * W) + c * (H * W) + h * W + w).
Proof.
  intros Hr Hs Hc Hh Hw. rewrite (item_reshape _ _ _ _ Hr).
  - by rewrite ravel_4d.
  - apply in_bounds_4d. lia.
Qed.
End reshape_lemmas.

(** ** Instances *)

Lemma reshape_4d_index_witness :
  item (mk [2; 3; 1; 2] (seq 0 12)) [1; 2; 0; 1] =
    seq 0 12 !! (1 * (3 * 1 * 2) + 2 * (1 * 2) + 0 * 2 + 1).
Proof. apply (reshape_4d_index (mk [12] (seq 0 12)) _ 2 3 1 2); [reflexivity|lia..]. Defined.

Lemma reshape_reshape_back_witness :
  reshape (mk [2; 3; 1; 2] (seq 0 12)) [12] = Ok (mk [12] (seq 0 12)).
Proof. apply (reshape_reshape_back (mk [12] (seq 0 12)) _ [2; 3; 1; 2]). reflexivity. Defined.

Lemma unravel_ravel_witness : unravel [2; 3; 4] (ravel [2; 3; 4] [1; 2; 3]) = [1; 2; 3].
Proof. apply unravel_ravel. reflexivity. Defined.

End NdArray.
