(* ===== verification/Ufunc.v ===== *)
(** * numpy element-wise operations and reductions used by [main.py]

    Lines 27-29 of [main.py] score the predictions with three numpy calls:
    [test_labels - res] (a binary ufunc, with numpy's broadcasting of the
    two shapes), [np.where(diff == 0, 1, 0)] and [np.sum(sim) / sim.shape[0]]
    (a reduction and a true division).  This file models broadcasting for
    arrays of any rank, the int64 arithmetic of the subtraction and the
    float64 result of the division, including its NaN. *)

From stdpp Require Import base list.
From Stdlib Require Import ZArith QArith Lia.
From S2P Require Import Prelude NdArray.
Local Open Scope nat_scope.

Module Ufunc.
Import NdArray.

(** ** Broadcasting *)

(** Two axis lengths broadcast when equal or when one of them is 1. *)
Definition bcast_dim (d1 d2 : nat) : option nat :=
  if decide (d1 = d2) then Some d1
  else if decide (d1 = 1) then Some d2
  else if decide (d2 = 1) then Some d1
  else None.

(** Shapes are matched from their last axis; the shorter one is padded
    with leading axes of length 1. The arguments are reversed shapes. *)
Fixpoint bcast_rev (r1 r2 : list nat) : option (list nat) :=
  match r1, r2 with
  | [], _ => Some r2
  | _, [] => Some r1
  | d1 :: r1', d2 :: r2' =>
      d ← bcast_dim d1 d2; r ← bcast_rev r1' r2'; Some (d :: r)
  end.

Definition broadcast_shapes (s1 s2 : list nat) : option (list nat) :=
  reverse <$> bcast_rev (reverse s1) (reverse s2).

(** The multi-index into an operand of shape [s] that supplies element
    [idx] of the broadcast result: the trailing [length s] coordinates,
    with 0 on the operand's axes of length 1. *)
Definition bcast_index (s idx : list nat) : list nat :=
  zip_with (λ d i, if decide (d = 1) then 0 else i) s (drop (length idx - length s) idx).

(** A binary ufunc [f(a, b)] with broadcasting. *)
Definition binop {A B C} `{Inhabited A, Inhabited B} (f : A → B → C)
    (a : ndarray A) (b : ndarray B) : result np_error (ndarray C) :=
  match broadcast_shapes (shape a) (shape b) with
  | Some s =>
      Ok (mk s ((λ k,
            let idx := unravel s k in
            f (data a !!! ravel (shape a) (bcast_index (shape a) idx))
              (data b !!! ravel (shape b) (bcast_index (shape b) idx)))
          <$> seq 0 (shape_size s)))
  | None => raise (BroadcastError (shape a) (shape b))
  end.

(** ** The dtypes of line 27 *)

(** [test_labels - res]: the labels are uint8 (bytes of the shard), the
    predictions are int64 (the index type numpy's argmax returns); numpy
    promotes the pair to int64, so the difference wraps at 64 bits. *)
Definition sub_int64 (x y : Z) : Z := wrap_signed 64 (x - y).

Definition subtract (a b : ndarray Z) : result np_error (ndarray Z) :=
  binop sub_int64 a b.

(** [np.where(d == 0, 1, 0)] *)
Definition where_eq0 (d : ndarray Z) : ndarray Z :=
  mk (shape d) ((λ z, if decide (z = 0%Z) then 1%Z else 0%Z) <$> data d).

(** [np.sum(a)] on int64 elements: the sum, wrapped at 64 bits. *)
Definition sum (a : ndarray Z) : Z := wrap_signed 64 (foldr Z.add 0%Z (data a)).

(** [a.shape[0]]: IndexError on a zero-dimensional array. *)
Definition shape0 {A} (a : ndarray A) : result np_error nat :=
  match shape a with
  | d :: _ => Ok d
  | [] => raise IndexError
  end.

(** ** float64 results *)

(** A float64 value, kept as the exact rational it stands for, or one of
    the IEEE special values the division of line 29 can produce. *)
Inductive f64 : Type :=
  | F64 (q : Q)
  | F64_nan
  | F64_inf (positive : bool).

(** [np.int64(x) / n] with [n] a Python int: true division into float64;
    0/0 is NaN and x/0 an infinity of x's sign (numpy warns, it does not
    raise). *)
Definition true_divide (x : Z) (n : nat) : f64 :=
  match n with
  | 0 => if decide (x = 0%Z) then F64_nan else F64_inf (bool_decide (0 < x)%Z)
  | _ => F64 (inject_Z x / inject_Z (Z.of_nat n))
  end.

(** ** Broadcasting of one-axis arrays *)

Lemma bcast_dim_Some (d1 d2 d : nat) :
  bcast_dim d1 d2 = Some d ↔
    (d1 = d2 ∧ d = d1) ∨ (d1 ≠ d2 ∧ d1 = 1 ∧ d = d2) ∨ (d1 ≠ d2 ∧ d1 ≠ 1 ∧ d2 = 1 ∧ d = d1).
Proof. unfold bcast_dim. repeat case_decide; naive_solver. Qed.

Lemma bcast_dim_None (d1 d2 : nat) :
  bcast_dim d1 d2 = None ↔ d1 ≠ d2 ∧ d1 ≠ 1 ∧ d2 ≠ 1.
Proof. unfold bcast_dim. repeat case_decide; naive_solver. Qed.

Lemma broadcast_shapes_1d (n m : nat) :
  broadcast_shapes [n] [m] = (λ d, [d]) <$> bcast_dim n m.
Proof. unfold broadcast_shapes; simpl. by destruct (bcast_dim n m). Qed.

Section binop_1d.
Context {A B C : Type} `{Inhabited A, Inhabited B} (f : A → B → C).

(** A binary ufunc on two one-axis arrays: element [i] of the result
    combines element [i] of each operand, or its only element when the
    operand has length 1. *)
Lemma binop_1d (la : list A) (lb : list B) (k : nat) :
  bcast_dim (length la) (length lb) = Some k →
  binop f (of_list la) (of_list lb) =
    Ok (of_list ((λ i, f (la !!! (if decide (length la = 1) then 0 else i))
                         (lb !!! (if decide (length lb = 1) then 0 else i)))
                 <$> seq 0 k)).
Proof.
  intros Hk. unfold binop, of_list; simpl.
  rewrite broadcast_shapes_1d, Hk; cbn -[Nat.div Nat.modulo].
  rewrite length_fmap, length_seq, Nat.mul_1_r. do 2 f_equal.
  apply list_fmap_ext; intros i j _; cbn -[Nat.div Nat.modulo].
  rewrite Nat.div_1_r, !Nat.mul_1_r, !Nat.add_0_r. done.
Qed.

Lemma binop_1d_Err (la : list A) (lb : list B) :
  bcast_dim (length la) (length lb) = None →
  binop f (of_list la) (of_list lb) =
    raise (BroadcastError [length la] [length lb]).
Proof.
  intros Hk. unfold binop, of_list; simpl. by rewrite broadcast_shapes_1d, Hk.
Qed.

Lemma binop_1d_same (la : list A) (lb : list B) :
  length la = length lb →
  binop f (of_list la) (of_list lb) = Ok (of_list (zip_with f la lb)).
Proof.
  intros Hl. rewrite (binop_1d la lb (length la)).
  2: { apply bcast_dim_Some. by left. }
  do 2 f_equal. rewrite <- (fmap_seq_zip_with f la lb (length la)) by done.
  apply list_fmap_ext; intros i j Hj%lookup_seq; simpl.
  repeat case_decide; f_equal; f_equal; lia.
Qed.

Lemma binop_1d_scalar_r (la : list A) (y : B) :
  binop f (of_list la) (of_list [y]) = Ok (of_list ((λ x, f x y) <$> la)).
Proof.
  destruct (decide (length la = 1)) as [E|E].
  - rewrite binop_1d_same by done. destruct la as [|x [|]]; simpl in *; try lia. done.
  - rewrite (binop_1d la [y] (length la)).
    2: { apply bcast_dim_Some. simpl. lia. }
    do 2 f_equal. apply list_eq; intros i.
    rewrite !list_lookup_fmap. destruct (decide (i < length la)).
    + rewrite lookup_seq_lt by done; simpl.
      rewrite decide_False by done.
      rewrite (list_lookup_lookup_total_lt la i) by lia. done.
    + rewrite lookup_seq_ge, lookup_ge_None_2 by lia. done.
Qed.
End binop_1d.

(** ** The int64 difference as an equality test *)

Lemma sub_int64_eq0 (x y : Z) :
  (0 ≤ x < 2 ^ 63)%Z → (0 ≤ y < 2 ^ 63)%Z → sub_int64 x y = 0%Z ↔ x = y.
Proof.
  intros Hx Hy. unfold sub_int64. rewrite wrap_signed_small by (simpl; lia). lia.
Qed.

(** ** Sums of 0/1 masks *)

Lemma foldr_add_mask_bounds (l : list Z) :
  Forall (λ z, z = 0%Z ∨ z = 1%Z) l →
  (0 ≤ foldr Z.add 0 l ≤ Z.of_nat (length l))%Z.
Proof. induction 1 as [|z l Hz _ IH]; simpl; lia. Qed.

Lemma where_eq0_mask (d : ndarray Z) :
  Forall (λ z, z = 0%Z ∨ z = 1%Z) (data (where_eq0 d)).
Proof.
  unfold where_eq0; simpl. apply Forall_fmap, Forall_forall; intros z _; simpl.
  case_decide; auto.
Qed.

Lemma true_divide_pos (x : Z) (n : nat) :
  n ≠ 0 → true_divide x n = F64 (inject_Z x / inject_Z (Z.of_nat n)).
Proof. destruct n; [done|reflexivity]. Qed.

(** ** Properties of the elementwise operations *)

Lemma bcast_dim_comm (d1 d2 : nat) : bcast_dim d1 d2 = bcast_dim d2 d1.
Proof. unfold bcast_dim. repeat case_decide; subst; done || lia. Qed.

Lemma bcast_rev_comm (r1 r2 : list nat) : bcast_rev r1 r2 = bcast_rev r2 r1.
Proof.
  revert r2; induction r1 as [|d1 r1 IH]; intros [|d2 r2]; simpl; try done.
  by rewrite bcast_dim_comm, IH.
Qed.

(** Broadcasting does not depend on the order of the operands. *)
Theorem broadcast_shapes_comm (s1 s2 : list nat) :
  broadcast_shapes s1 s2 = broadcast_shapes s2 s1.
Proof. unfold broadcast_shapes. by rewrite bcast_rev_comm. Qed.

(** The int64 difference is zero exactly when the operands agree modulo
    [2^64]. *)
Theorem sub_int64_zero_iff (x y : Z) :
  sub_int64 x y = 0%Z ↔ ((x - y) mod 2 ^ 64 = 0)%Z.
Proof.
  unfold sub_int64, wrap_signed. change (64 - 1)%Z with 63%Z.
  assert (2 ^ 64 = 2 * 2 ^ 63)%Z as E by reflexivity.
  assert (0 < 2 ^ 63)%Z as Hp by reflexivity.
  pose proof (Z.div_mod (x - y + 2 ^ 63) (2 ^ 64) ltac:(lia)) as Hd.
  pose proof (Z.mod_pos_bound (x - y + 2 ^ 63) (2 ^ 64) ltac:(lia)) as Hb.
  split.
  - intros Hz. apply Z.mod_divide; [lia|].
    exists ((x - y + 2 ^ 63) / 2 ^ 64)%Z. lia.
  - intros Hz. apply Z.mod_divide in Hz as [q Hq]; [|lia].
    rewrite <- (Z.mod_unique (x - y + 2 ^ 63) (2 ^ 64) q (2 ^ 63))%Z; lia.
Qed.

(** ** Ratios of counts *)

Lemma Q_ratio_bounds (m n : nat) :
  m ≤ n → 0 < n → (0 <= inject_Z (Z.of_nat m) / inject_Z (Z.of_nat n) <= 1)%Q.
Proof.
  intros Hm Hn. assert (0 < inject_Z (Z.of_nat n))%Q as Hpos.
  { change 0%Q with (inject_Z 0). rewrite <- Zlt_Qlt. lia. }
  split.
  - apply Qle_shift_div_l; [done|]. rewrite Qmult_0_l.
    change 0%Q with (inject_Z 0). rewrite <- Zle_Qle. lia.
  - apply Qle_shift_div_r; [done|]. rewrite Qmult_1_l. rewrite <- Zle_Qle. lia.
Qed.

Lemma Q_ratio_one (n : nat) : 0 < n → inject_Z (Z.of_nat n) / inject_Z (Z.of_nat n) == 1%Q.
Proof.
  intros Hn. apply Qmult_inv_r. change 0%Q with (inject_Z 0).
  rewrite inject_Z_injective. lia.
Qed.

Lemma Q_ratio_zero (n : nat) : inject_Z 0 / inject_Z (Z.of_nat n) == 0%Q.
Proof. apply Qmult_0_l. Qed.

(** [np.sum(np.where(diff == 0, 1, 0))] cannot overflow int64: for
    fewer than [2^63] elements it is the number of zeros of [diff], between
    0 and the number of elements. *)
Theorem sum_where_eq0_bounds (d : ndarray Z) :
  (Z.of_nat (length (data d)) < 2 ^ 63)%Z →
  sum (where_eq0 d) = foldr Z.add 0%Z (data (where_eq0 d)) ∧
  (0 ≤ sum (where_eq0 d) ≤ Z.of_nat (length (data d)))%Z.
Proof.
  intros Hn. pose proof (foldr_add_mask_bounds _ (where_eq0_mask d)) as Hb.
  unfold where_eq0 in *; simpl in *. rewrite length_fmap in Hb.
  unfold sum; simpl. rewrite wrap_signed_small by (cbn; lia). lia.
Qed.

Lemma sum_where_eq0_bounds_witness :
  sum (where_eq0 (mk [4]%nat [0; 5; 0; -1]%Z)) = foldr Z.add 0%Z (data (where_eq0 (mk [4]%nat [0; 5; 0; -1]%Z))) ∧
  (0 ≤ sum (where_eq0 (mk [4]%nat [0; 5; 0; -1]%Z)) ≤ Z.of_nat (length (data (mk [4]%nat [0; 5; 0; -1]%Z))))%Z.
Proof. apply sum_where_eq0_bounds. simpl. lia. Defined.

End Ufunc.
