(* ===== verification/Float.v ===== *)
(** * float64 arithmetic of line 29 and the text of line 31

    [np.sum(sim) / sim.shape[0]] (line 29) divides an [int64] scalar by a
    Python [int]: numpy converts both operands to [float64] and divides
    them under IEEE-754 round-to-nearest-even; [print(accuracy)] (line 31)
    writes the shortest decimal text that reads back as the same float
    ([repr] of a float).  The binary64 format, its rounding and its
    division are the Standard Library's executable specification
    [SpecFloat] (taken from Flocq) with [prec = 53] and [emax = 1024].
    [Ufunc.true_divide] keeps the exact quotient; this file relates the two
    and gives the text of the printed accuracy. *)

From stdpp Require Import base list strings.
From Stdlib Require Import ZArith QArith Qpower Qabs SpecFloat Ascii DecimalString DecimalPos Lia.
From S2P Require Import Prelude NdArray Ufunc.

Module Float.
Import Ufunc.
Local Open Scope Z_scope.

(** ** binary64 *)

Definition prec : Z := 53.
Definition emax : Z := 1024.

#[export] Instance spec_float_eq_dec : EqDecision spec_float.
Proof. solve_decision. Defined.

(** The rational a finite or zero float stands for. *)
Definition sf_Q (f : spec_float) : option Q :=
  match f with
  | S754_zero _ => Some 0%Q
  | S754_finite s m e => Some ((if s then -1 else 1) * inject_Z (Zpos m) * Qpower (2 # 1) e)%Q
  | _ => None
  end.

(** The float nearest [a / b] (ties to even), for [a, b > 0]: the
    division of [SpecFloat] on the operands [a * 2^0] and [b * 2^0]. *)
Definition round_frac (a b : Z) : spec_float :=
  match a, b with
  | Zpos a', Zpos b' => SFdiv prec emax (S754_finite false a' 0) (S754_finite false b' 0)
  | Z0, Zpos _ => S754_zero false
  | _, _ => S754_nan
  end.

(** The float nearest a rational. *)
Definition round_Q (q : Q) : spec_float :=
  match Qnum q with
  | Zneg a => SFopp (round_frac (Zpos a) (Zpos (Qden q)))
  | a => round_frac a (Zpos (Qden q))
  end.

(** ** Line 29 *)

(** [np.float64(z)] of an [int64] [z]: the float nearest [z]. *)
Definition of_int64 (z : Z) : spec_float := binary_normalize prec emax z 0 false.

(** [np.int64(x) / n] with [n] a Python [int]: numpy takes [n] as an
    [int64] (NEP 50), converts both operands to [float64] and divides. *)
Definition np_true_divide (x : Z) (n : nat) : spec_float :=
  SFdiv prec emax (of_int64 x) (of_int64 (Z.of_nat n)).

(** The float a value of the exact model stands for. *)
Definition f64_round (v : f64) : spec_float :=
  match v with
  | F64 q => round_Q q
  | F64_nan => S754_nan
  | F64_inf pos => S754_infinity (negb pos)
  end.

(** ** The text of a float: [repr] (line 31) *)

(** The decimal digits of a positive integer. *)
Definition digits_Z (z : Z) : list ascii :=
  match z with
  | Zpos p => String.list_ascii_of_string (NilZero.string_of_uint (Pos.to_uint p))
  | _ => ["0"%char]
  end.

(** [a / b ≥ 10^k] *)
Definition ge_pow10 (a b k : Z) : bool :=
  if 0 <=? k then b * 10 ^ k <=? a else b <=? a * 10 ^ (- k).

(** The decimal exponent [E] of [a / b > 0]: [10^E ≤ a / b < 10^(E+1)]. *)
Definition dec_exp (a b : Z) : Z :=
  let c := Z.of_nat (length (digits_Z a)) - Z.of_nat (length (digits_Z b)) in
  if ge_pow10 a b c then c else c - 1.

(** [floor(a / b / 10^s)] *)
Definition scaled_floor (a b s : Z) : Z :=
  if 0 <=? s then a / (b * 10 ^ s) else a * 10 ^ (- s) / b.

(** [float(D * 10^s)]: reading a decimal rounds it to the nearest float. *)
Definition read_dec (D s : Z) : spec_float :=
  if 0 <=? s then round_frac (D * 10 ^ s) 1 else round_frac D (10 ^ (- s)).

(** Where [a / b] lies against the midpoint of [lo * 10^s] and
    [(lo + 1) * 10^s]. *)
Definition cmp_mid (a b lo s : Z) : comparison :=
  if 0 <=? s then Z.compare (2 * a) ((2 * lo + 1) * 10 ^ s * b)
  else Z.compare (2 * a * 10 ^ (- s)) ((2 * lo + 1) * b).

(** The [k]-digit decimals around [x = a / b], of decimal exponent [E],
    that read back as [x]; the nearer one when both do (the even one on a
    tie). *)
Definition digits_at (x : spec_float) (a b E k : Z) : option (Z * Z) :=
  let s := E - k + 1 in
  let lo := scaled_floor a b s in
  match bool_decide (read_dec lo s = x), bool_decide (read_dec (lo + 1) s = x) with
  | true, true =>
      match cmp_mid a b lo s with
      | Lt => Some (lo, s)
      | Gt => Some (lo + 1, s)
      | Eq => if Z.even lo then Some (lo, s) else Some (lo + 1, s)
      end
  | true, false => Some (lo, s)
  | false, true => Some (lo + 1, s)
  | false, false => None
  end.

(** The shortest decimal [D * 10^s] that reads back as [x], trying [k],
    [k + 1], ... significant digits; 17 always suffice for a binary64
    float. *)
Fixpoint shortest_from (x : spec_float) (a b E k : Z) (fuel : nat) : option (Z * Z) :=
  match fuel with
  | O => None
  | S fuel' =>
      match digits_at x a b E k with
      | Some r => Some r
      | None => shortest_from x a b E (k + 1) fuel'
      end
  end.

(** [m * 2^e] as a fraction [a / b]. *)
Definition frac_of (m : positive) (e : Z) : Z * Z :=
  if 0 <=? e then (Zpos m * 2 ^ e, 1) else (Zpos m, 2 ^ (- e)).

Definition shortest (x : spec_float) (m : positive) (e : Z) : option (Z * Z) :=
  let '(a, b) := frac_of m e in shortest_from x a b (dec_exp a b) 1 17.

(** The number of leading ['0'] characters. *)
Fixpoint lead_zeros (ds : list ascii) : nat :=
  match ds with
  | c :: ds' => if Ascii.eqb c "0" then S (lead_zeros ds') else O
  | [] => O
  end.

(** The digits of [D] without its trailing zeros, and how many were
    dropped. *)
Definition strip_zeros (ds : list ascii) : list ascii * nat :=
  let r := reverse ds in
  let z := lead_zeros r in
  (reverse (drop z r), z).

Definition zeros (n : nat) : list ascii := replicate n "0"%char.

(** Python's layout of the digits [ds] of a value [0.ds * 10^decpt]:
    positional when [-4 < decpt ≤ 16], with [.0] after a whole number;
    otherwise [d.ddde±XX]. *)
Definition layout_digits (ds : list ascii) (decpt : Z) : list ascii :=
  let n := Z.of_nat (length ds) in
  if (decpt <=? -4) || (16 <? decpt) then
    let ex := decpt - 1 in
    let ed := digits_Z (Z.abs ex) in
    take 1 ds ++ (if bool_decide (length ds ≤ 1)%nat then [] else "."%char :: drop 1 ds) ++
      ["e"%char; if ex <? 0 then "-"%char else "+"%char] ++
      zeros (2 - length ed) ++ ed
  else if decpt <=? 0 then ["0"%char; "."%char] ++ zeros (Z.to_nat (- decpt)) ++ ds
  else if decpt <? n then take (Z.to_nat decpt) ds ++ "."%char :: drop (Z.to_nat decpt) ds
  else ds ++ zeros (Z.to_nat (decpt - n)) ++ ["."%char; "0"%char].

(** [repr(x)] of a float, which [print] writes for a [float64] scalar. *)
Definition float_repr (x : spec_float) : string :=
  match x with
  | S754_nan => "nan"
  | S754_infinity s => if s then "-inf" else "inf"
  | S754_zero s => if s then "-0.0" else "0.0"
  | S754_finite s m e =>
      String.string_of_list_ascii
        ((if s then ["-"%char] else []) ++
         match shortest (S754_finite false m e) m e with
         | Some (D, sc) =>
             let '(ds, z) := strip_zeros (digits_Z D) in
             layout_digits ds (Z.of_nat (length ds) + (sc + Z.of_nat z))
         | None => []
         end)
  end.

(** ** Reading a float back: [float(text)] *)

Definition digit_val (c : ascii) : option Z :=
  let n := Z.of_nat (nat_of_ascii c) - 48 in
  if (0 <=? n) && (n <=? 9) then Some n else None.

(** The integer a non-empty string of decimal digits denotes. *)
Definition read_uint (l : list ascii) : option Z :=
  if bool_decide (l = []) then None
  else foldl (λ acc c, acc' ← acc; d ← digit_val c; Some (acc' * 10 + d)) (Some 0) l.

(** [I.F] or [I] scaled by [10^ex]. *)
Definition read_mant (m : list ascii) (ex : Z) : option spec_float :=
  match split_on "." m with
  | [i] => D ← read_uint i; Some (read_dec D ex)
  | [i; f] => D ← read_uint (i ++ f); Some (read_dec D (ex - Z.of_nat (length f)))
  | _ => None
  end.

Definition read_exp (l : list ascii) : option Z :=
  match l with
  | "-"%char :: l' => Z.opp <$> read_uint l'
  | "+"%char :: l' => read_uint l'
  | _ => read_uint l
  end.

Definition read_unsigned (l : list ascii) : option spec_float :=
  if bool_decide (l = String.list_ascii_of_string "nan") then Some S754_nan
  else if bool_decide (l = String.list_ascii_of_string "inf") then Some (S754_infinity false)
  else match split_on "e" l with
       | [m] => read_mant m 0
       | [m; ex] => e ← read_exp ex; read_mant m e
       | _ => None
       end.

(** [float(t)] for the texts [repr] writes. *)
Definition read_float (t : string) : option spec_float :=
  match String.list_ascii_of_string t with
  | "-"%char :: l => SFopp <$> read_unsigned l
  | l => read_unsigned l
  end.

(** ** The quotients of line 29

    Line 29 divides the number [c] of correct predictions by the number
    [n] of test samples, [0 ≤ c ≤ n].  In [main.py], [n] is 10000 (line 14;
    any other size stops at the reshape, [Main.main_literal_test_count_fails]).
    The properties below hold for every [n = 10^j] with [j ≤ 4], 10000
    included, and are decided by evaluating them on each of the 11111
    pairs [(j, c)]. *)

Fixpoint zseq (z : Z) (n : nat) : list Z :=
  match n with
  | O => []
  | S n' => z :: zseq (z + 1) n'
  end.

(** The pairs [(j, c)] with [j ≤ 4] and [0 ≤ c ≤ 10^j]. *)
Definition fracs : list (nat * Z) :=
  mjoin ((λ j, (λ c, (j, c)) <$> zseq 0 (Z.to_nat (10 ^ Z.of_nat j + 1))) <$> seq 0 5).

(** The text of [c / 10^j] with at most [j] decimals, as a person writes
    it: [0.0], [0.0123], [0.5], [1.0]. *)
Definition dec_text (j : nat) (c : Z) : string :=
  if c =? 0 then "0.0" else if c =? 10 ^ Z.of_nat j then "1.0"
  else String.string_of_list_ascii
         (["0"%char; "."%char] ++ (strip_zeros (zeros (j - length (digits_Z c)) ++ digits_Z c)).1).

(** ** Properties *)

Lemma elem_of_zseq z n c : c ∈ zseq z n ↔ z ≤ c < z + Z.of_nat n.
Proof.
  revert z. induction n as [|n IH]; intros z; simpl; [rewrite elem_of_nil; lia|].
  rewrite elem_of_cons, IH. lia.
Qed.

Lemma fracs_forall (P : nat → Z → bool) :
  forallb (λ jc, P jc.1 jc.2) fracs = true →
  ∀ j c, (j ≤ 4)%nat → 0 ≤ c ≤ 10 ^ Z.of_nat j → P j c = true.
Proof.
  intros HP j c Hj Hc. apply (proj1 (forallb_forall _ fracs) HP (j, c)).
  apply list_elem_of_In, list_elem_of_join. exists ((λ c, (j, c)) <$> zseq 0 (Z.to_nat (10 ^ Z.of_nat j + 1))).
  split; apply list_elem_of_fmap.
  - exists c. split; [done|]. apply elem_of_zseq.
    assert (0 < 10 ^ Z.of_nat j) by lia. lia.
  - exists j. split; [done|]. apply elem_of_seq. lia.
Qed.

(** A decidable property of every pair holds when its check over
    [fracs] evaluates to [true]. *)
Lemma fracs_forall_dec (P : nat → Z → Prop) `{∀ j c, Decision (P j c)} :
  forallb (λ jc, bool_decide (P jc.1 jc.2)) fracs = true →
  ∀ j c, (j ≤ 4)%nat → 0 ≤ c ≤ 10 ^ Z.of_nat j → P j c.
Proof.
  intros HP j c Hj Hc. pose proof (fracs_forall (λ j c, bool_decide (P j c)) HP j c Hj Hc) as Hb.
  by apply bool_decide_eq_true in Hb.
Qed.

Ltac decide_fracs := eapply fracs_forall_dec; vm_compute; reflexivity.

(** *** Rounding leaves a 53-bit integer unchanged *)

Lemma digits2_pos_size p : digits2_pos p = Pos.size p.
Proof. induction p; simpl; congruence. Qed.

(** A mantissa of exactly 53 bits at an exponent of the normal range is
    a float already: rounding it returns it. *)
Lemma round_aux_exact s m e :
  Pos.size m = 53%positive → -1074 ≤ e ≤ emax - prec →
  binary_round_aux prec emax s (Zpos m) e loc_Exact = S754_finite s m e.
Proof.
  intros Hm He. unfold binary_round_aux, shr_fexp, Zdigits2.
  rewrite digits2_pos_size, Hm. unfold fexp, emin, prec, emax in *.
  rewrite Z.max_l by lia. replace (53 + e - 53 - e) with 0 by lia. simpl.
  rewrite digits2_pos_size, Hm, Z.max_l by lia. replace (53 + e - 53 - e) with 0 by lia. simpl.
  by rewrite (proj2 (Z.leb_le _ _)) by lia.
Qed.

Lemma iter_xO_size p k : Pos.size (Pos.iter xO p k) = (Pos.size p + k)%positive.
Proof.
  induction k using Pos.peano_ind; [simpl; lia|].
  rewrite Pos.iter_succ. simpl. rewrite IHk. lia.
Qed.

Lemma iter_xO_val p k : Zpos (Pos.iter xO p k) = Zpos p * 2 ^ Zpos k.
Proof.
  induction k using Pos.peano_ind; [simpl; lia|].
  rewrite Pos.iter_succ, Pos2Z.inj_succ, Z.pow_succ_r by lia.
  change (Zpos (Pos.iter xO p k)~0) with (2 * Zpos (Pos.iter xO p k)). rewrite IHk. lia.
Qed.

Lemma size_53 p : Zpos p < 2 ^ 53 → (Pos.size p <= 53)%positive.
Proof.
  intros Hp. pose proof (Pos.size_le p) as Hle.
  apply Pos2Z.pos_le_pos in Hle. rewrite Pos2Z.inj_pow in Hle.
  apply Pos.le_nlt. intros Hgt.
  assert (2 ^ 54 <= 2 ^ Zpos (Pos.size p)) by (apply Z.pow_le_mono_r; lia).
  change (Zpos p~0) with (2 * Zpos p) in Hle. lia.
Qed.

(** [p < 2^53] converts to its bits shifted up to 53. *)
Lemma binary_round_shift s p :
  Zpos p < 2 ^ 53 →
  ∃ m, binary_round prec emax s p 0 = S754_finite s m (- (53 - Zdigits2 (Zpos p))) ∧
       Zpos m = Zpos p * 2 ^ (53 - Zdigits2 (Zpos p)) ∧ Zdigits2 (Zpos p) ≤ 53.
Proof.
  intros Hp. apply size_53 in Hp. unfold Zdigits2. rewrite digits2_pos_size.
  unfold binary_round. rewrite digits2_pos_size. unfold fexp, emin, prec, emax.
  rewrite Z.max_l by lia. unfold shl_align.
  destruct (Pos.lt_total (Pos.size p) 53) as [Hs|[Hs|Hs]];
    [|rewrite Hs; change (Zpos 53 + 0 - 53) with 0; change (0 - 0) with 0; cbv beta iota|lia].
  - replace (Zpos (Pos.size p) + 0 - 53) with (Zneg (53 - Pos.size p)) by lia.
    rewrite Z.sub_0_r. cbv beta iota.
    change (binary_round_aux 53 1024) with (binary_round_aux prec emax).
    rewrite round_aux_exact by (rewrite ?iter_xO_size; unfold prec, emax; lia).
    eexists; split; [do 2 f_equal; lia|]. rewrite iter_xO_val. split; [|lia]. do 2 f_equal. lia.
  - change (binary_round_aux 53 1024) with (binary_round_aux prec emax).
    rewrite round_aux_exact by (unfold prec, emax; done || lia).
    eexists; split; [done|]. simpl. lia.
Qed.

(** [p < 2^53] converts to a finite float of value [p]. *)
Lemma binary_round_small s p :
  Zpos p < 2 ^ 53 →
  ∃ m e, binary_round prec emax s p 0 = S754_finite s m e ∧
         (inject_Z (Zpos m) * Qpower (2 # 1) e == inject_Z (Zpos p))%Q.
Proof.
  intros Hp. destruct (binary_round_shift s p Hp) as (m & -> & Hm & Hd).
  do 2 eexists; split; [done|]. rewrite Hm. change (2 # 1) with (inject_Z 2).
  rewrite inject_Z_mult, Zpower_Qpower, Qpower_opp by lia. field. apply Qpower_not_0. discriminate.
Qed.

(** A non-zero [int64] below [2^53] in magnitude converts to a finite
    float of its sign and magnitude. *)
Lemma of_int64_finite z :
  z ≠ 0 → Z.abs z < 2 ^ 53 →
  ∃ m e, of_int64 z = S754_finite (bool_decide (z < 0)) m e ∧
         (inject_Z (Zpos m) * Qpower (2 # 1) e == inject_Z (Z.abs z))%Q.
Proof.
  intros Hz Hb. destruct z as [|p|p]; [done| |]; simpl in Hb.
  - rewrite bool_decide_false by lia. by apply (binary_round_small false p).
  - rewrite bool_decide_true by lia. by apply (binary_round_small true p).
Qed.

(** *** Dividing converted integers *)

Lemma compare_scale (a b c : Z) : 0 < c → Z.compare (a * c) (b * c) = Z.compare a b.
Proof.
  intros Hc. destruct (Z.compare_spec a b) as [->|H|H].
  - apply Z.compare_refl.
  - apply Z.compare_lt_iff. by apply Z.mul_lt_mono_pos_r.
  - apply Z.compare_gt_iff. by apply Z.mul_lt_mono_pos_r.
Qed.

Lemma new_location_scale (m r k : Z) :
  0 < m → 0 ≤ r < m → 0 ≤ k →
  new_location (m * 2 ^ k) (r * 2 ^ k) = new_location m r.
Proof.
  intros Hm Hr Hk.
  assert (0 < 2 ^ k) by lia.
  destruct (Z.eq_dec k 0) as [->|Hk0]; [by rewrite !Z.mul_1_r|].
  assert (Z.even (m * 2 ^ k) = true) as He.
  { rewrite Z.even_mul. replace (2 ^ k) with (2 * 2 ^ (k - 1)) by (rewrite <- Z.pow_succ_r by lia; f_equal; lia).
    rewrite Z.even_mul. simpl. by rewrite orb_true_r. }
  unfold new_location. rewrite He. unfold new_location_even, new_location_odd.
  assert ((r * 2 ^ k =? 0) = (r =? 0)) as Hr0.
  { assert (r * 2 ^ k = 0 ↔ r = 0) by (rewrite Z.mul_eq_0; lia).
    destruct (Z.eqb_spec r 0), (Z.eqb_spec (r * 2 ^ k) 0); naive_solver. }
  rewrite Hr0. destruct (Z.even m) eqn:Em; cbv beta; destruct (Z.eqb_spec r 0); try done;
  replace (2 * (r * 2 ^ k)) with ((2 * r) * 2 ^ k) by ring;
  rewrite compare_scale by lia; [done|]. f_equal.
  assert (2 * r ≠ m) by (intros <-; rewrite Z.even_mul in Em; done).
  destruct (Z.compare_spec (2 * r) m), (Z.compare_spec (2 * r + 1) m); (reflexivity || (exfalso; lia)).
Qed.

Lemma Zdigits2_log2 (m : Z) : 0 < m → Zdigits2 m = Z.log2 m + 1.
Proof.
  intros Hm. destruct m as [|p|p]; try lia. unfold Zdigits2. rewrite digits2_pos_size.
  destruct p; simpl; lia.
Qed.

Lemma shift_match (m s : Z) :
  0 ≤ s → match s with Zpos _ => Z.shiftl m s | Z0 => m | Zneg _ => 0 end = m * 2 ^ s.
Proof. intros Hs. destruct s; [lia| |lia]. by rewrite Z.shiftl_mul_pow2. Qed.

Lemma div_eucl_pair (a b : Z) : Z.div_eucl a b = (a / b, a mod b).
Proof. unfold Z.div, Z.modulo. by destruct (Z.div_eucl a b). Qed.

(** The division core sees only the values [m * 2^e] of its operands:
    shifting the mantissas up changes neither the quotient, nor the
    exponent, nor the location of the remainder. *)
Lemma div_core_shift (m1 e1 m2 e2 k1 k2 : Z) :
  0 < m1 → 0 < m2 → 0 ≤ k1 → 0 ≤ k2 →
  fexp prec emax (Zdigits2 m1 + e1 - (Zdigits2 m2 + e2)) ≤ e1 - k1 - (e2 - k2) →
  fexp prec emax (Zdigits2 m1 + e1 - (Zdigits2 m2 + e2)) ≤ e1 - e2 →
  SFdiv_core_binary prec emax (m1 * 2 ^ k1) (e1 - k1) (m2 * 2 ^ k2) (e2 - k2) =
  SFdiv_core_binary prec emax m1 e1 m2 e2.
Proof.
  intros Hm1 Hm2 Hk1 Hk2 Hf1 Hf2. unfold SFdiv_core_binary.
  assert (0 < m1 * 2 ^ k1) by (apply Z.mul_pos_pos; lia).
  assert (0 < m2 * 2 ^ k2) by (apply Z.mul_pos_pos; lia).
  rewrite (Zdigits2_log2 (m1 * 2 ^ k1)), (Zdigits2_log2 (m2 * 2 ^ k2)), !Z.log2_mul_pow2 by lia.
  rewrite (Zdigits2_log2 m1), (Zdigits2_log2 m2) in Hf1, Hf2 |- * by lia.
  assert (k1 + Z.log2 m1 + 1 + (e1 - k1) - (k2 + Z.log2 m2 + 1 + (e2 - k2)) =
          Z.log2 m1 + 1 + e1 - (Z.log2 m2 + 1 + e2)) as -> by lia.
  set (f := fexp prec emax (Z.log2 m1 + 1 + e1 - (Z.log2 m2 + 1 + e2))) in *.
  rewrite !Z.min_l by lia.
  rewrite !shift_match by lia.
  replace (m1 * 2 ^ k1 * 2 ^ (e1 - k1 - (e2 - k2) - f)) with (m1 * 2 ^ (e1 - e2 - f) * 2 ^ k2)
    by (rewrite <- !Z.mul_assoc, <- !Z.pow_add_r by lia; do 2 f_equal; lia).
  rewrite !div_eucl_pair, Z.div_mul_cancel_r, Z.mul_mod_distr_r, new_location_scale by
    first [lia | apply Z.mod_pos_bound; lia].
  done.
Qed.

Lemma binary_round_aux_negb s m e l :
  binary_round_aux prec emax (negb s) m e l = SFopp (binary_round_aux prec emax s m e l).
Proof.
  unfold binary_round_aux.
  destruct (shr_fexp prec emax m e l) as [mrs' e'].
  destruct (shr_fexp prec emax _ e' loc_Exact) as [mrs'' e''].
  destruct (shr_m mrs''); [done| |done]. by destruct (e'' <=? _).
Qed.

(** Dividing the converted operands is dividing the integers. *)
Lemma SFdiv_of_int64 s (a b : positive) :
  Zpos a < 2 ^ 53 → Zpos b < 2 ^ 53 →
  SFdiv prec emax (binary_round prec emax s a 0) (binary_round prec emax false b 0) =
  SFdiv prec emax (S754_finite s a 0) (S754_finite false b 0).
Proof.
  intros Ha Hb.
  destruct (binary_round_shift s a Ha) as (ma & -> & Hma & Hda).
  destruct (binary_round_shift false b Hb) as (mb & -> & Hmb & Hdb).
  pose proof (Zdigits2_log2 (Zpos a)). pose proof (Zdigits2_log2 (Zpos b)).
  pose proof (Z.log2_nonneg (Zpos a)). pose proof (Z.log2_nonneg (Zpos b)).
  unfold SFdiv.
  replace (- (53 - Zdigits2 (Zpos a))) with (0 - (53 - Zdigits2 (Zpos a))) by lia.
  replace (- (53 - Zdigits2 (Zpos b))) with (0 - (53 - Zdigits2 (Zpos b))) by lia.
  rewrite Hma, Hmb, div_core_shift; [done|lia..| |]; unfold fexp, emin, prec, emax; lia.
Qed.

Lemma Q_div_pos_pos (a b : positive) : (inject_Z (Zpos a) / inject_Z (Zpos b))%Q = Zpos a # b.
Proof. unfold Qdiv, Qinv, Qmult, inject_Z. simpl. rewrite ?Pos.mul_1_r, ?Z.mul_1_r. reflexivity. Qed.

Lemma Q_div_neg_pos (a b : positive) : (inject_Z (Zneg a) / inject_Z (Zpos b))%Q = Zneg a # b.
Proof. unfold Qdiv, Qinv, Qmult, inject_Z. simpl. rewrite ?Pos.mul_1_r, ?Z.mul_1_r. reflexivity. Qed.

(** numpy's division of two integers below [2^53] is the exact quotient
    rounded once. *)
Lemma np_true_divide_round (x : Z) (n : nat) :
  0 < Z.of_nat n < 2 ^ 53 → Z.abs x < 2 ^ 53 →
  np_true_divide x n = f64_round (true_divide x n).
Proof.
  intros Hn Hx. rewrite true_divide_pos by lia. unfold np_true_divide, f64_round.
  destruct (Z.of_nat n) as [|pn|pn]; [lia| |lia].
  unfold of_int64 at 2, binary_normalize.
  destruct x as [|px|px]; unfold of_int64, binary_normalize.
  - destruct (binary_round_shift false pn) as (mb & -> & _); [lia|]. reflexivity.
  - rewrite SFdiv_of_int64, Q_div_pos_pos by (simpl in Hx; lia). reflexivity.
  - rewrite SFdiv_of_int64, Q_div_neg_pos by (simpl in Hx; lia). unfold round_Q, round_frac. simpl Qnum.
    unfold SFdiv. destruct (SFdiv_core_binary _ _ _ _ _ _) as [[mz ez] lz].
    change (xorb true false) with (negb (xorb false false)). apply binary_round_aux_negb.
Qed.

Lemma Z_of_nat_pow10 j : Z.of_nat (10 ^ j) = 10 ^ Z.of_nat j.
Proof. by rewrite Nat2Z.inj_pow. Qed.

Lemma np_true_divide_pow10 c j :
  np_true_divide c (10 ^ j) = SFdiv prec emax (of_int64 c) (of_int64 (10 ^ Z.of_nat j)).
Proof. unfold np_true_divide. by rewrite Z_of_nat_pow10. Qed.

(** [repr] of the quotient of every pair, checked pair by pair. *)
Lemma float_repr_fracs j c :
  (j ≤ 4)%nat → 0 ≤ c ≤ 10 ^ Z.of_nat j → float_repr (np_true_divide c (10 ^ j)) = dec_text j c.
Proof. rewrite np_true_divide_pow10. revert j c. decide_fracs. Qed.

(** C17: numpy's conversion of an [int64] of magnitude below [2^53] to
    [float64] is exact: the float stands for the integer itself.  Both
    operands of line 29 (a count of at most [n_test] and [n_test]) are
    such integers. *)
Theorem of_int64_exact (z : Z) :
  Z.abs z < 2 ^ 53 → ∃ q, sf_Q (of_int64 z) = Some q ∧ (q == inject_Z z)%Q.
Proof.
  intros Hb. destruct (decide (z = 0)) as [->|Hz]; [by exists 0%Q|].
  destruct (of_int64_finite z Hz Hb) as (m & e & -> & Hv). eexists; split; [done|].
  rewrite <- Qmult_assoc, Hv.
  destruct (decide (z < 0)).
  - rewrite bool_decide_true, Z.abs_neq, inject_Z_opp by lia. ring.
  - rewrite bool_decide_false, Z.abs_eq by lia. ring.
Qed.

(** C18: Dividing by an empty test set (line 29 with [sim.shape[0] = 0]):
    numpy's float division gives NaN for [0 / 0] and an infinity of the
    numerator's sign otherwise, the special values [Ufunc.true_divide]
    gives. *)
Theorem np_true_divide_by_zero (x : Z) :
  Z.abs x < 2 ^ 53 → np_true_divide x 0 = f64_round (true_divide x 0).
Proof.
  intros Hb. unfold np_true_divide, true_divide.
  change (of_int64 (Z.of_nat 0)) with (S754_zero false).
  case_decide as Hx; [by subst|].
  destruct (of_int64_finite x Hx Hb) as (m & e & -> & _). simpl. f_equal.
  destruct (decide (x < 0)).
  - by rewrite bool_decide_true, bool_decide_false by lia.
  - by rewrite bool_decide_false, bool_decide_true by lia.
Qed.

(** C13: numpy's true division of line 29 refines the exact quotient of
    [Ufunc.true_divide]: for every numerator and positive denominator
    below [2^53] (a count and the test split size), converting both to
    [float64] and dividing gives the exact quotient rounded to the nearest
    float: the conversions are exact and the division rounds once. *)
Theorem np_true_divide_refines (x : Z) (n : nat) :
  0 < Z.of_nat n < 2 ^ 53 → Z.abs x < 2 ^ 53 →
  np_true_divide x n = f64_round (true_divide x n).
Proof. apply np_true_divide_round. Qed.

(** C15: The float line 29 computes from [c] correct predictions out of
    [10^j] samples ([j ≤ 4]) lies in [0, 1] and within a relative error
    of [2^-53] of [c / 10^j]. *)
Theorem np_true_divide_error_bound (j : nat) (c : Z) :
  (j ≤ 4)%nat → 0 ≤ c ≤ 10 ^ Z.of_nat j →
  ∃ r, sf_Q (np_true_divide c (10 ^ j)) = Some r ∧ (0 <= r <= 1)%Q ∧
       (Qabs (r - inject_Z c / inject_Z (10 ^ Z.of_nat j)) <=
          inject_Z c / inject_Z (10 ^ Z.of_nat j) / inject_Z (2 ^ 53))%Q.
Proof.
  rewrite np_true_divide_pow10. intros Hj Hc.
  pose proof (fracs_forall (λ j c,
      let d := inject_Z (10 ^ Z.of_nat j) in
      match sf_Q (SFdiv prec emax (of_int64 c) (of_int64 (10 ^ Z.of_nat j))) with
      | Some r => Qle_bool 0 r && Qle_bool r 1 &&
                  Qle_bool (Qabs (r - inject_Z c / d)) (inject_Z c / d / inject_Z (2 ^ 53))
      | None => false end) ltac:(vm_compute; reflexivity) j c Hj Hc) as Hchk.
  cbv beta zeta in Hchk. destruct (sf_Q _) as [r|]; [|done].
  apply andb_prop in Hchk as [[H0 H1]%andb_prop H2].
  apply Qle_bool_iff in H0, H1, H2. eauto.
Qed.

(** C14: The line [print(accuracy)] writes for [c] correct predictions
    out of [10^j] samples ([j ≤ 4]) is [c / 10^j] in decimal with at most
    [j] decimals and no trailing zero ([0.0], [0.0123], [0.5], [1.0]):
    the shortest text of the float is the decimal the count gives. *)
Theorem float_repr_count (j : nat) (c : Z) :
  (j ≤ 4)%nat → 0 ≤ c ≤ 10 ^ Z.of_nat j → float_repr (np_true_divide c (10 ^ j)) = dec_text j c.
Proof. apply float_repr_fracs. Qed.

(** C16: The printed accuracy reads back as the float line 29 computed:
    [float(str(accuracy)) == accuracy] for every such quotient. *)
Theorem float_repr_count_roundtrip (j : nat) (c : Z) :
  (j ≤ 4)%nat → 0 ≤ c ≤ 10 ^ Z.of_nat j →
  read_float (float_repr (np_true_divide c (10 ^ j))) = Some (np_true_divide c (10 ^ j)).
Proof.
  intros Hj Hc. rewrite float_repr_fracs by done. rewrite np_true_divide_pow10. revert j c Hj Hc.
  decide_fracs.
Qed.

(** ** Instances *)

Lemma of_int64_exact_witness : ∃ q, sf_Q (of_int64 10000) = Some q ∧ (q == inject_Z 10000)%Q.
Proof. apply of_int64_exact. vm_compute. reflexivity. Defined.

Lemma np_true_divide_by_zero_witness : np_true_divide 7 0 = f64_round (true_divide 7 0).
Proof. apply np_true_divide_by_zero. vm_compute. reflexivity. Defined.

Lemma np_true_divide_refines_witness :
  np_true_divide (-9123) 10000 = f64_round (true_divide (-9123) 10000).
Proof. apply np_true_divide_refines; vm_compute; [split|]; reflexivity. Defined.

Lemma np_true_divide_error_bound_witness :
  ∃ r, sf_Q (np_true_divide 9123 (10 ^ 4)) = Some r ∧ (0 <= r <= 1)%Q ∧
       (Qabs (r - inject_Z 9123 / inject_Z (10 ^ Z.of_nat 4)) <=
          inject_Z 9123 / inject_Z (10 ^ Z.of_nat 4) / inject_Z (2 ^ 53))%Q.
Proof. apply np_true_divide_error_bound; [lia|vm_compute; split; discriminate]. Defined.

Lemma float_repr_count_witness : float_repr (np_true_divide 9120 (10 ^ 4)) = dec_text 4 9120.
Proof. apply float_repr_count; [lia|vm_compute; split; discriminate]. Defined.

Lemma float_repr_count_roundtrip_witness :
  read_float (float_repr (np_true_divide 9123 (10 ^ 4))) = Some (np_true_divide 9123 (10 ^ 4)).
Proof. apply float_repr_count_roundtrip; [lia|vm_compute; split; discriminate]. Defined.

End Float.
