(* ===== verification/Dtype.v ===== *)
(** * numpy dtypes of the scoring expressions (lines 25-29 of [main.py])

    The values of lines 25-29 are modelled as integers ([Z]) wrapped at 64
    bits and as exact rationals.  This file justifies those choices from
    numpy's typing: the dtypes, the promotion of two dtypes in a binary
    operation ([np.promote_types]), the dtype of a sum, and a typing
    judgement for the expressions of lines 25-29, with Python's integer
    literals as weak scalars (NEP 50, numpy 2) and the default integer of
    64 bits (Linux and macOS).  The scores' dtype and the
    labels' dtype are parameters: the network returns floats, and the loader
    (modelled from the specification) returns integer labels. *)

From stdpp Require Import base list.
From Stdlib Require Import ZArith Lia.
From S2P Require Import Prelude NdArray Ufunc.

Module Dtype.
Import Ufunc.

Inductive dtype : Type :=
  | Bool
  | Int8 | Int16 | Int32 | Int64
  | UInt8 | UInt16 | UInt32 | UInt64
  | Float32 | Float64.

#[export] Instance dtype_eq_dec : EqDecision dtype.
Proof. solve_decision. Defined.

Inductive kind : Type := KBool | KSigned | KUnsigned | KFloat.

Definition kind_of (d : dtype) : kind :=
  match d with
  | Bool => KBool
  | Int8 | Int16 | Int32 | Int64 => KSigned
  | UInt8 | UInt16 | UInt32 | UInt64 => KUnsigned
  | Float32 | Float64 => KFloat
  end.

Definition bits (d : dtype) : nat :=
  match d with
  | Bool => 8
  | Int8 | UInt8 => 8
  | Int16 | UInt16 => 16
  | Int32 | UInt32 | Float32 => 32
  | Int64 | UInt64 | Float64 => 64
  end.

(** The values of an integer dtype ([np.iinfo]). *)
Definition in_range (d : dtype) (z : Z) : Prop :=
  match d with
  | Bool => (0 ≤ z ≤ 1)%Z
  | Int8 => (- 2 ^ 7 ≤ z < 2 ^ 7)%Z
  | Int16 => (- 2 ^ 15 ≤ z < 2 ^ 15)%Z
  | Int32 => (- 2 ^ 31 ≤ z < 2 ^ 31)%Z
  | Int64 => (- 2 ^ 63 ≤ z < 2 ^ 63)%Z
  | UInt8 => (0 ≤ z < 2 ^ 8)%Z
  | UInt16 => (0 ≤ z < 2 ^ 16)%Z
  | UInt32 => (0 ≤ z < 2 ^ 32)%Z
  | UInt64 => (0 ≤ z < 2 ^ 64)%Z
  | Float32 | Float64 => False
  end.

Definition signed_of_bits (b : nat) : dtype :=
  if decide (b ≤ 8) then Int8 else if decide (b ≤ 16) then Int16
  else if decide (b ≤ 32) then Int32 else Int64.

Definition unsigned_of_bits (b : nat) : dtype :=
  if decide (b ≤ 8) then UInt8 else if decide (b ≤ 16) then UInt16
  else if decide (b ≤ 32) then UInt32 else UInt64.

(** [np.promote_types]: [bool] gives way to any type; two integers of the
    same signedness give the wider; an unsigned and a signed integer give a
    signed integer wide enough for both, or [float64] when the unsigned one
    has 64 bits; an integer of at most 16 bits fits [float32], a wider one
    needs [float64]. *)
Definition promote (d1 d2 : dtype) : dtype :=
  match kind_of d1, kind_of d2 with
  | KBool, _ => d2
  | _, KBool => d1
  | KSigned, KSigned => signed_of_bits (bits d1 `max` bits d2)
  | KUnsigned, KUnsigned => unsigned_of_bits (bits d1 `max` bits d2)
  | KUnsigned, KSigned =>
      if decide (bits d1 < bits d2) then d2
      else if decide (bits d1 = 64) then Float64 else signed_of_bits (2 * bits d1)
  | KSigned, KUnsigned =>
      if decide (bits d2 < bits d1) then d1
      else if decide (bits d2 = 64) then Float64 else signed_of_bits (2 * bits d2)
  | KFloat, KFloat => if decide (d1 = Float64 ∨ d2 = Float64) then Float64 else Float32
  | KFloat, _ => if decide (d1 = Float32 ∧ bits d2 ≤ 16) then Float32 else Float64
  | _, KFloat => if decide (d2 = Float32 ∧ bits d1 ≤ 16) then Float32 else Float64
  end.

(** The dtype of [np.sum] of an array: booleans and signed integers
    narrower than the default integer are summed as [int64], unsigned ones
    as [uint64]; other dtypes keep theirs. *)
Definition sum_dtype (d : dtype) : dtype :=
  match kind_of d with
  | KBool | KSigned => Int64
  | KUnsigned => UInt64
  | KFloat => d
  end.

(** The dtype of a numpy scalar of dtype [d] divided by a Python [int]
    (true division, the [int] a weak scalar under NEP 50): a float keeps
    its dtype, a boolean or an integer gives [float64]. *)
Definition div_dtype (d : dtype) : dtype :=
  match kind_of d with
  | KFloat => d
  | _ => Float64
  end.

(** The types of the values of lines 25-29: an array, a numpy scalar, and
    a Python [int] ([sim.shape[0]]). *)
Inductive ty : Type :=
  | TArr (d : dtype)
  | TScalar (d : dtype)
  | TPyInt.

(** The expressions of lines 25-29, over the two arrays they start from. *)
Inductive expr : Type :=
  | ELabels                 (* test_labels *)
  | EScores                 (* res, the network's output *)
  | EArgmax (e : expr)      (* np.argmax(e, axis=1) *)
  | ESub (e1 e2 : expr)     (* e1 - e2 *)
  | EEqZero (e : expr)      (* e == 0 *)
  | EWhere01 (e : expr)     (* np.where(e, 1, 0) *)
  | ESum (e : expr)         (* np.sum(e) *)
  | EShape0 (e : expr)      (* e.shape[0] *)
  | EDiv (e1 e2 : expr).    (* e1 / e2 *)

(** Lines 25-29 as written. *)
Definition sim_expr : expr := EWhere01 (EEqZero (ESub ELabels (EArgmax EScores))).
Definition accuracy_expr : expr := EDiv (ESum sim_expr) (EShape0 sim_expr).

Section typing.
Context (labels_dt scores_dt : dtype).

(** numpy's typing of the expressions.  [argmax] returns [intp] ([int64]);
    subtraction promotes its operands and is refused on two booleans;
    comparing with the literal [0] gives booleans; [np.where] with the
    literals [1] and [0] gives the default integer; dividing a numpy
    scalar by a Python [int] gives [div_dtype]. *)
Inductive typed : expr → ty → Prop :=
  | T_labels : typed ELabels (TArr labels_dt)
  | T_scores : typed EScores (TArr scores_dt)
  | T_argmax e d : typed e (TArr d) → typed (EArgmax e) (TArr Int64)
  | T_sub e1 e2 d1 d2 :
      typed e1 (TArr d1) → typed e2 (TArr d2) → ¬ (d1 = Bool ∧ d2 = Bool) →
      typed (ESub e1 e2) (TArr (promote d1 d2))
  | T_eqzero e d : typed e (TArr d) → typed (EEqZero e) (TArr Bool)
  | T_where e : typed e (TArr Bool) → typed (EWhere01 e) (TArr Int64)
  | T_sum e d : typed e (TArr d) → typed (ESum e) (TScalar (sum_dtype d))
  | T_shape0 e d : typed e (TArr d) → typed (EShape0 e) TPyInt
  | T_div e1 e2 d :
      typed e1 (TScalar d) → typed e2 TPyInt →
      typed (EDiv e1 e2) (TScalar (div_dtype d)).
End typing.

(** ** Properties *)

Section typing_properties.
Context (labels_dt scores_dt : dtype).

(** The typing of lines 25-29 is deterministic: an expression has at
    most one type. *)
Theorem typed_unique e τ1 τ2 :
  typed labels_dt scores_dt e τ1 → typed labels_dt scores_dt e τ2 → τ1 = τ2.
Proof.
  intros H1. revert τ2.
  induction H1; intros τ2 H2; inversion H2; subst; try done;
    repeat match goal with
    | IH : ∀ τ, typed _ _ ?e τ → _ = τ, H : typed _ _ ?e _ |- _ =>
        apply IH in H; simplify_eq
    end; done.
Qed.

(** Lines 25-29 are well typed for every dtype of the labels and of
    the scores, and the accuracy is a [float64] scalar. *)
Theorem accuracy_expr_typed : typed labels_dt scores_dt accuracy_expr (TScalar Float64).
Proof.
  unfold accuracy_expr, sim_expr.
  assert (∀ d, typed labels_dt scores_dt (ESub ELabels (EArgmax EScores)) (TArr d) →
               typed labels_dt scores_dt (EWhere01 (EEqZero (ESub ELabels (EArgmax EScores)))) (TArr Int64))
    as Hsim by (intros d Hd; econstructor; econstructor; exact Hd).
  assert (typed labels_dt scores_dt (ESub ELabels (EArgmax EScores)) (TArr (promote labels_dt Int64)))
    as Hsub by (econstructor; [constructor|econstructor; constructor|naive_solver]).
  change (TScalar Float64) with (TScalar (div_dtype (sum_dtype Int64))).
  apply T_div; [constructor; exact (Hsim _ Hsub)|econstructor; exact (Hsim _ Hsub)].
Qed.

(** C21: The difference of line 27 is an [int64] array exactly when the
    labels are booleans or integers other than [uint64]: then numpy's
    subtraction is the 64-bit wrapping one of [Ufunc.sub_int64]; [uint64]
    and floating labels make it a [float64] or float array. *)
Theorem diff_dtype_int64 d :
  typed labels_dt scores_dt (ESub ELabels (EArgmax EScores)) (TArr d) →
  (d = Int64 ↔ kind_of labels_dt ≠ KFloat ∧ labels_dt ≠ UInt64).
Proof.
  inversion 1 as [| | |? ? d1 d2 H1 H2 _| | | | |]; subst.
  inversion H1; subst. inversion H2; subst.
  match goal with |- promote ?l _ = _ ↔ _ => destruct l end;
    simpl; unfold signed_of_bits; simpl; split; try done; intros [? ?]; done.
Qed.
End typing_properties.

(** C22: For non-negative labels (class ids) of any integer dtype numpy
    subtracts as [int64] (not [uint64], see [diff_dtype_int64]), and predictions of
    [np.argmax] (non-negative [int64]), the subtraction of line 27 never
    wraps around.  Negative labels can wrap against predictions near
    [2^63]. *)
Theorem sub_labels_no_wrap (d : dtype) (y p : Z) :
  d ≠ UInt64 → in_range d y → (0 ≤ y)%Z → (0 ≤ p < 2 ^ 63)%Z →
  sub_int64 y p = (y - p)%Z.
Proof.
  intros Hu Hy Hy0 Hp. unfold sub_int64. apply wrap_signed_small; [lia|].
  change (64 - 1)%Z with 63%Z.
  destruct d; try done; simpl in Hy; lia.
Qed.

Lemma sub_labels_no_wrap_witness : sub_int64 250 7 = (250 - 7)%Z.
Proof. apply (sub_labels_no_wrap UInt8); simpl; [done|lia|lia|lia]. Defined.

Lemma diff_dtype_int64_witness :
  Int64 = Int64 ↔ kind_of UInt8 ≠ KFloat ∧ UInt8 ≠ UInt64.
Proof.
  apply (diff_dtype_int64 UInt8 Float32).
  change (TArr Int64) with (TArr (promote UInt8 Int64)). econstructor; [constructor|econstructor; constructor|naive_solver].
Defined.

Lemma typed_unique_witness : TArr Int64 = TArr Int64.
Proof.
  apply (typed_unique UInt8 Float32 (EArgmax EScores)); econstructor; constructor.
Defined.

End Dtype.
