(* ===== verification/Argmax.v ===== *)
(** * [np.argmax(res, axis=1)]: line 25 of [main.py]

    numpy's argmax on floating-point data scans each slice once, keeps the
    running maximum [mp] and its index, replaces it when [!(x <= mp)] and
    stops at the first NaN (numpy/_core/src/multiarray/argfunc.dispatch.c,
    the scalar loop).  The loop is modelled over an abstract score type with
    its [<=] and [isnan] ([Section Scan]); [np.argmax(a, axis=1)] applies it
    to every slice along axis 1.  The scores the network returns are modelled
    by [fscore]: a finite value (the rational it denotes) or NaN. *)

From stdpp Require Import base list.
From Stdlib Require Import ZArith QArith Lia Lqa.
From S2P Require Import Prelude NdArray.
Local Open Scope nat_scope.

Module Argmax.
Import NdArray.

Section Scan.
Context {T : Type} (le : T → T → bool) (isnan : T → bool).

(** The loop from index [i] on, with running maximum [mp] found at
    [best]. *)
Fixpoint argmax_loop (i : nat) (mp : T) (best : nat) (l : list T) : nat :=
  match l with
  | [] => best
  | x :: l' =>
      if negb (le x mp) then
        if isnan x then i else argmax_loop (S i) x i l'
      else argmax_loop (S i) mp best l'
  end.

(** argmax of one slice; [None] for an empty slice, on which numpy
    raises. *)
Definition argmax_list (l : list T) : option nat :=
  match l with
  | [] => None
  | x :: l' => Some (if isnan x then 0 else argmax_loop 1 x 0 l')
  end.

(** [np.argmax(a, axis=1)] for an array of shape [(d0, d1, rest...)]:
    the result has shape [(d0, rest...)] and element [(i, r)] is the
    argmax of [a[i, :, r]]. *)
Definition argmax_axis1 `{Inhabited T} (a : ndarray T) : result np_error (ndarray nat) :=
  match shape a with
  | d0 :: d1 :: rest =>
      if decide (d1 = 0) then raise EmptyArgmaxError
      else
        let R := shape_size rest in
        Ok (mk (d0 :: rest)
              ((λ f, default 0 (argmax_list
                  ((λ j, data a !!! (f / R * (d1 * R) + j * R + f mod R)) <$> seq 0 d1)))
               <$> seq 0 (d0 * R)))
  | _ => raise (AxisError 1 (length (shape a)))
  end.

(** Reference specification: [i] is the first position of a maximum. *)
Definition first_max (l : list T) (i : nat) : Prop :=
  ∃ m, l !! i = Some m ∧
       (∀ j x, l !! j = Some x → le x m = true) ∧
       (∀ j x, j < i → l !! j = Some x → le m x = false).
End Scan.

(** ** Network scores *)

(** A score as the network produces it: a finite value or NaN. *)
Inductive fscore : Type :=
  | Fin (q : Q)
  | NaN.

#[export] Instance fscore_inhabited : Inhabited fscore := populate NaN.

(** IEEE [<=]: false as soon as one side is NaN. *)
Definition fle (x y : fscore) : bool :=
  match x, y with
  | Fin a, Fin b => Qle_bool a b
  | _, _ => false
  end.

Definition fisnan (x : fscore) : bool :=
  match x with NaN => true | Fin _ => false end.

(** ** The scan against its specification *)

Section ScanProofs.
Context {T : Type} (le : T → T → bool) (isnan : T → bool).
Local Abbreviation nn x := (isnan x = false).
(** [<=] is a total preorder on the values that are not NaN ... *)
Hypothesis le_total : ∀ x y, nn x → nn y → le x y = true ∨ le y x = true.
Hypothesis le_trans : ∀ x y z, nn x → nn y → nn z →
  le x y = true → le y z = true → le x z = true.
(** ... and every comparison with NaN on the left is false. *)
Hypothesis le_nan_l : ∀ x y, isnan x = true → le x y = false.

Lemma nn_lookup (p : list T) (j : nat) (y : T) :
  Forall (λ y, nn y) p → p !! j = Some y → nn y.
Proof. intros H Hj. exact (Forall_lookup_1 _ _ _ _ H Hj). Qed.

Lemma first_max_unique (l : list T) (i j : nat) :
  first_max le l i → first_max le l j → i = j.
Proof.
  intros (mi & Hi & Hmi & Hfi) (mj & Hj & Hmj & Hfj).
  destruct (Nat.lt_total i j) as [Hlt|[->|Hlt]]; [|done|].
  - pose proof (Hfj i mi Hlt Hi). pose proof (Hmi j mj Hj). congruence.
  - pose proof (Hfi j mj Hlt Hj). pose proof (Hmj i mi Hi). congruence.
Qed.

Lemma first_max_snoc_le (p : list T) (b : nat) (m x : T) :
  first_max le p b → p !! b = Some m → le x m = true → first_max le (p ++ [x]) b.
Proof.
  intros (m' & Hb & Hm & Hf) Hb' Hx. rewrite Hb' in Hb. injection Hb as <-.
  exists m. split; [by apply lookup_app_l_Some|]. split.
  - intros j y [[_ Hy]|[_ <-]]%lookup_snoc_Some; eauto.
  - intros j y Hj Hy. apply (Hf j); [done|].
    apply lookup_snoc_Some in Hy as [[_ Hy]|[-> _]]; [done|].
    apply lookup_lt_Some in Hb'. lia.
Qed.

Lemma first_max_snoc_gt (p : list T) (b : nat) (m x : T) :
  Forall (λ y, nn y) p → nn x →
  first_max le p b → p !! b = Some m → le x m = false →
  first_max le (p ++ [x]) (length p).
Proof.
  intros Hnn Hx (m' & Hb & Hm & Hf) Hb' Hxm. rewrite Hb' in Hb. injection Hb as <-.
  assert (nn m) as Hnm by (eapply nn_lookup; eauto).
  assert (le m x = true) as Hmx by (destruct (le_total x m); congruence).
  exists x. split; [by apply lookup_snoc_Some; right|]. split.
  - intros j y [[_ Hy]|[_ <-]]%lookup_snoc_Some.
    + assert (nn y) by (eapply nn_lookup; eauto). eauto.
    + by destruct (le_total x x).
  - intros j y Hj [[_ Hy]|[-> _]]%lookup_snoc_Some; [|lia].
    assert (nn y) by (eapply nn_lookup; eauto).
    destruct (le x y) eqn:Hxy; [|done].
    exfalso. assert (le x m = true) by eauto. congruence.
Qed.

(** Loop invariant: [best] is the first maximum of the prefix scanned so
    far and [mp] its value. *)
Lemma argmax_loop_first_max (p l : list T) (mp : T) (best : nat) :
  Forall (λ y, nn y) p → Forall (λ y, nn y) l →
  first_max le p best → p !! best = Some mp →
  first_max le (p ++ l) (argmax_loop le isnan (length p) mp best l).
Proof.
  revert p mp best; induction l as [|x l IH]; intros p mp best Hp Hl Hfm Hb; simpl.
  { by rewrite app_nil_r. }
  apply Forall_cons in Hl as [Hx Hl]. rewrite cons_middle, app_assoc.
  replace (S (length p)) with (length (p ++ [x])) by (rewrite length_app; simpl; lia).
  destruct (le x mp) eqn:Hxm; simpl.
  - apply IH; [apply Forall_app_2; [done|by repeat constructor]|done|eapply first_max_snoc_le; eauto|].
    by apply lookup_app_l_Some.
  - rewrite Hx. apply IH; [apply Forall_app_2; [done|by repeat constructor]|done|eapply first_max_snoc_gt; eauto|].
    by apply lookup_snoc_Some; right.
Qed.

(** On NaN-free data, numpy's argmax returns the first position of a
    maximum, and only that one. *)
Lemma argmax_list_first_max (l : list T) (i : nat) :
  Forall (λ y, nn y) l → argmax_list le isnan l = Some i ↔ first_max le l i.
Proof.
  intros Hl. destruct l as [|x l].
  { split; [done|]. intros (m & Hm & _). done. }
  apply Forall_cons in Hl as [Hx Hl'].
  assert (first_max le (x :: l) (argmax_loop le isnan 1 x 0 l)) as Hfm.
  { apply (argmax_loop_first_max [x] l x 0); auto.
    exists x. split; [done|]. split; [|lia].
    intros [|j] y Hy; simplify_list_eq; by destruct (le_total y y). }
  simpl. rewrite Hx. split; [by intros [= <-]|].
  intros Hi. f_equal. eapply first_max_unique; eauto.
Qed.

Lemma argmax_default_first_max (l : list T) :
  l ≠ [] → Forall (λ y, nn y) l → first_max le l (default 0 (argmax_list le isnan l)).
Proof.
  intros Hne Hl. destruct l as [|x l']; [done|].
  apply argmax_list_first_max; [done|]. simpl. by destruct (isnan x).
Qed.

(** With a NaN in the slice the loop stops there: the result is the
    position of the first NaN. *)
Lemma argmax_loop_nan (l : list T) (i k : nat) (mp : T) (best : nat) (x : T) :
  nn mp → Forall (λ y, nn y) (take k l) → l !! k = Some x → isnan x = true →
  argmax_loop le isnan i mp best l = i + k.
Proof.
  revert i k mp best; induction l as [|y l IH]; intros i k mp best Hmp Hpre Hk Hx;
    [done|].
  destruct k as [|k]; simpl in *.
  - simplify_eq. rewrite le_nan_l, Hx by done. simpl. lia.
  - apply Forall_cons in Hpre as [Hy Hpre].
    destruct (le y mp); simpl; [|rewrite Hy];
      rewrite (IH (S i) k) by done; lia.
Qed.

Lemma argmax_list_nan (l : list T) (k : nat) (x : T) :
  Forall (λ y, nn y) (take k l) → l !! k = Some x → isnan x = true →
  argmax_list le isnan l = Some k.
Proof.
  intros Hpre Hk Hx. destruct l as [|y l]; [done|]. simpl.
  destruct k as [|k]; simpl in *; [by simplify_eq; rewrite Hx|].
  apply Forall_cons in Hpre as [Hy Hpre]. rewrite Hy.
  by rewrite (argmax_loop_nan l 1 k y 0 x).
Qed.
End ScanProofs.

(** The index is always a position of the slice. *)
Lemma argmax_loop_bound {T} (le : T → T → bool) (isnan : T → bool)
    (l : list T) (i : nat) (mp : T) (best : nat) :
  best < i → argmax_loop le isnan i mp best l < i + length l.
Proof.
  revert i mp best; induction l as [|x l IH]; intros i mp best Hb; simpl; [lia|].
  destruct (negb (le x mp)); [destruct (isnan x); [lia|]|].
  - pose proof (IH (S i) x i ltac:(lia)). lia.
  - pose proof (IH (S i) mp best ltac:(lia)). lia.
Qed.

Lemma argmax_list_lt {T} (le : T → T → bool) (isnan : T → bool) (l : list T) (i : nat) :
  argmax_list le isnan l = Some i → i < length l.
Proof.
  destruct l as [|x l]; simpl; [done|]. intros [= <-].
  destruct (isnan x); [lia|]. pose proof (argmax_loop_bound le isnan l 1 x 0). lia.
Qed.

Lemma argmax_row_lt {T} (le : T → T → bool) (isnan : T → bool) (r : list T) :
  0 < length r → default 0 (argmax_list le isnan r) < length r.
Proof.
  intros Hr. destruct (argmax_list le isnan r) as [p|] eqn:Hp; simpl; [|done].
  by apply argmax_list_lt in Hp.
Qed.

(** ** [np.argmax(a, axis=1)] on a two-axis array *)

Section Axis1.
Context {T : Type} `{Inhabited T} (le : T → T → bool) (isnan : T → bool).

(** On an [(n, k)] array with [k > 0] the result has shape [(n,)] and
    holds the argmax of each row. *)
Lemma argmax_axis1_2d (a : ndarray T) (n k : nat) :
  wf a → shape a = [n; k] → k ≠ 0 →
  argmax_axis1 le isnan a =
    Ok (mk [n] ((λ r, default 0 (argmax_list le isnan r)) <$> rows n k (data a))).
Proof.
  intros Hwf Hs Hk. unfold argmax_axis1. rewrite Hs, decide_False by done.
  cbn -[Nat.div Nat.modulo]. rewrite !Nat.mul_1_r. do 2 f_equal.
  rewrite <- fmap_seq_rows. apply list_fmap_ext; intros i f Hf%lookup_seq.
  destruct Hf as [-> Hf]. cbv beta.
  rewrite Nat.div_1_r, Nat.mod_1_r. f_equal. f_equal.
  rewrite <- fmap_seq_lookup_total.
  - apply list_fmap_ext; intros j x _. f_equal. lia.
  - unfold wf, size in Hwf. rewrite Hs in Hwf. simpl in Hwf. nia.
Qed.

Lemma argmax_axis1_empty (a : ndarray T) (n : nat) :
  shape a = [n; 0] → argmax_axis1 le isnan a = raise EmptyArgmaxError.
Proof. intros Hs. unfold argmax_axis1. by rewrite Hs. Qed.

(** Every index [argmax(axis=1)] returns is a column index. *)
Lemma argmax_axis1_bound (a : ndarray T) (b : ndarray nat) (n k : nat) :
  wf a → shape a = [n; k] → argmax_axis1 le isnan a = Ok b →
  shape b = [n] ∧ length (data b) = n ∧ Forall (λ p, p < k) (data b).
Proof.
  intros Hwf Hs Hb. destruct (decide (k = 0)) as [->|Hk].
  { by rewrite (argmax_axis1_empty a n) in Hb. }
  rewrite (argmax_axis1_2d a n k) in Hb by done. injection Hb as <-; simpl.
  split; [done|]. split; [by rewrite length_fmap, length_rows|].
  apply Forall_fmap, Forall_forall. intros r Hr.
  assert (length r = k) as Hr'.
  { assert (Forall (λ r, length r = k) (rows n k (data a))) as Hall.
    { apply rows_length_each. unfold wf, size in Hwf. rewrite Hs in Hwf.
      simpl in Hwf. lia. }
    rewrite Forall_forall in Hall. by apply Hall. }
  cbv beta. rewrite <- Hr'. apply argmax_row_lt. lia.
Qed.
End Axis1.

(** ** The scores of the network *)

Lemma fle_total (x y : fscore) :
  fisnan x = false → fisnan y = false → fle x y = true ∨ fle y x = true.
Proof.
  destruct x as [a|], y as [b|]; simpl; try done. intros _ _.
  rewrite !Qle_bool_iff. destruct (Qlt_le_dec a b); [left; lra|right; lra].
Qed.

Lemma fle_trans (x y z : fscore) :
  fisnan x = false → fisnan y = false → fisnan z = false →
  fle x y = true → fle y z = true → fle x z = true.
Proof.
  destruct x as [a|], y as [b|], z as [c|]; simpl; try done. intros _ _ _.
  rewrite !Qle_bool_iff. lra.
Qed.

Lemma fle_nan_l (x y : fscore) : fisnan x = true → fle x y = false.
Proof. by destruct x. Qed.

(** C4: On finite scores, numpy's argmax is the first position of a maximum. *)
Theorem argmax_scores_first_max (l : list fscore) (i : nat) :
  Forall (λ x, fisnan x = false) l →
  argmax_list fle fisnan l = Some i ↔ first_max fle l i.
Proof. intros Hl. exact (argmax_list_first_max fle fisnan fle_total fle_trans l i Hl). Qed.

(** C36: A NaN score wins: the argmax is the position of the first NaN. *)
Theorem argmax_scores_nan (l : list fscore) (k : nat) :
  Forall (λ x, fisnan x = false) (take k l) → l !! k = Some NaN →
  argmax_list fle fisnan l = Some k.
Proof. intros Hpre Hk. by apply (argmax_list_nan fle fisnan fle_nan_l l k NaN). Qed.

(** The tie-break of the specification: [[0.5, 0.5, 0.1]] gives 0. *)
Example argmax_tie_lowest :
  argmax_list fle fisnan [Fin (1 # 2); Fin (1 # 2); Fin (1 # 10)] = Some 0.
Proof. reflexivity. Qed.

(** [np.argmax(scores, axis=1)] on NaN-free [(n, k)] scores: one
    first-maximum index per row. *)
Lemma argmax_axis1_first_max (a : ndarray fscore) (n k : nat) :
  wf a → shape a = [n; k] → k ≠ 0 → Forall (λ x, fisnan x = false) (data a) →
  ∃ preds, argmax_axis1 fle fisnan a = Ok (of_list preds) ∧ length preds = n ∧
           Forall (λ p, p < k) preds ∧ Forall2 (first_max fle) (rows n k (data a)) preds.
Proof.
  intros Hwf Hs Hk Hnan.
  pose proof (argmax_axis1_2d fle fisnan a n k Hwf Hs Hk) as Ha.
  destruct (argmax_axis1_bound fle fisnan a _ n k Hwf Hs Ha) as (_ & Hlp & HpK).
  simpl in Hlp, HpK. eexists. split; [rewrite Ha; unfold of_list; by rewrite Hlp|].
  split; [done|]. split; [done|].
  apply Forall2_fmap_r, Forall_Forall2_diag.
  assert (n * k ≤ length (data a)) as Hlen.
  { unfold wf, size in Hwf. rewrite Hs in Hwf. simpl in Hwf. lia. }
  pose proof (rows_length_each _ _ _ Hlen) as Hrl.
  pose proof (rows_Forall _ n k _ Hnan) as Hrn.
  apply Forall_forall. intros r Hr. rewrite Forall_forall in Hrl, Hrn.
  apply (argmax_default_first_max fle fisnan fle_total fle_trans); [|by apply Hrn].
  intros ->. specialize (Hrl [] Hr). simpl in Hrl. lia.
Qed.

(** ** Instances *)

Lemma argmax_scores_first_max_witness :
  argmax_list fle fisnan [Fin 1; Fin 3; Fin 3] = Some 1 ↔ first_max fle [Fin 1; Fin 3; Fin 3] 1.
Proof. apply argmax_scores_first_max. repeat constructor. Defined.

Lemma argmax_scores_nan_witness :
  argmax_list fle fisnan [Fin (1 # 2); NaN; Fin (9 # 10)] = Some 1.
Proof. apply (argmax_scores_nan _ 1); [repeat constructor|reflexivity]. Defined.

End Argmax.
