(* ===== verification/Loader.v ===== *)
(** * The CIFAR-10 dataset loader ([data_loading.cifar10], line 12)

    [main.py] imports [data_loading] from [python/experiments], which is not
    part of [src/]: this component is modelled from the specification (its
    sections 3, 4.1 and 6).  A shard file is a sequence of fixed-size
    records, one label byte followed by the channel-planar pixel bytes; the
    training split is the concatenation of the training shards in their
    configured order, the test split is one shard.  The file system is a
    finite map from paths to byte contents, read only. *)

From stdpp Require Import base list gmap strings.
From Stdlib Require Import ZArith Lia.
From S2P Require Import Prelude NdArray.
Local Open Scope nat_scope.

Module Loader.
Import NdArray.

(** The file layout of the dataset: the shard names and the image
    geometry. *)
Record layout : Type := {
  train_files : list string;
  test_file : string;
  channels : nat;
  height : nat;
  width : nat
}.

(** The standard binary distribution: five training shards and one test
    shard of 3 x 32 x 32 images. *)
Definition cifar10_layout : layout := {|
  train_files := ["data_batch_1.bin"; "data_batch_2.bin"; "data_batch_3.bin";
                  "data_batch_4.bin"; "data_batch_5.bin"]%string;
  test_file := "test_batch.bin";
  channels := 3; height := 32; width := 32
|}.

Definition pixel_count (ly : layout) : nat := channels ly * height ly * width ly.
Definition record_size (ly : layout) : nat := 1 + pixel_count ly.

(** The directory tree the loader reads: path to file contents. *)
Abbreviation fs := (gmap string (list Byte.byte)).

Inductive load_error : Type :=
  | DatasetNotFoundError (path : string)
  | CorruptShardError (path : string).

(** A byte read as a uint8 array element. *)
Definition byte_val (b : Byte.byte) : Z := Z.of_N (Byte.to_N b).

(** One decoded record: its label and its pixel payload. *)
Abbreviation record := (Z * list Z)%type.

Definition read_file (files : fs) (path : string) : result load_error (list Byte.byte) :=
  match files !! path with
  | Some bytes => Ok bytes
  | None => raise (DatasetNotFoundError path)
  end.

(** Cut the shard into records; the first byte of each is the label. *)
Definition decode_shard (ly : layout) (path : string) (bytes : list Byte.byte)
    : result load_error (list record) :=
  let rs := record_size ly in
  if decide (length bytes mod rs = 0) then
    Ok ((λ r, (default 0%Z (head r), drop 1 r))
          <$> rows (length bytes / rs) rs (byte_val <$> bytes))
  else raise (CorruptShardError path).

(** Read and decode the shards in order and concatenate their records;
    the first missing or corrupt file stops the load. *)
Fixpoint load_files (ly : layout) (files : fs) (dir : string) (names : list string)
    : result load_error (list record) :=
  match names with
  | [] => Ok []
  | name :: names' =>
      let path := os_path_join dir [name] in
      bytes ← read_file files path;
      recs ← decode_shard ly path bytes;
      rest ← load_files ly files dir names';
      Ok (recs ++ rest)
  end.

(** The images as an [(N, pixels)] array of flat per-sample buffers and
    the labels as an [(N,)] array. *)
Definition to_arrays (ly : layout) (recs : list record) : ndarray Z * ndarray Z :=
  (mk [length recs; pixel_count ly] (mjoin (snd <$> recs)), of_list (fst <$> recs)).

(** [cifar10(path) -> (train_images, train_labels, test_images, test_labels)] *)
Definition cifar10 (ly : layout) (files : fs) (path : string)
    : result load_error (ndarray Z * ndarray Z * ndarray Z * ndarray Z) :=
  train ← load_files ly files path (train_files ly);
  test ← load_files ly files path [test_file ly];
  let '(train_images, train_labels) := to_arrays ly train in
  let '(test_images, test_labels) := to_arrays ly test in
  Ok (train_images, train_labels, test_images, test_labels).

(** A record as it is written in a shard. *)
Definition encode_record (label : Byte.byte) (pixels : list Byte.byte) : list Byte.byte :=
  label :: pixels.

(** A shard file built from records, as the specification's round-trip
    property writes it, and the values the loader should read from it. *)
Definition encode_shard (recs : list (Byte.byte * list Byte.byte)) : list Byte.byte :=
  mjoin ((λ r : Byte.byte * list Byte.byte, encode_record r.1 r.2) <$> recs).

Definition decoded (recs : list (Byte.byte * list Byte.byte)) : list record :=
  (λ r : Byte.byte * list Byte.byte, (byte_val r.1, byte_val <$> r.2)) <$> recs.

(** A small dataset: two training shards, one test shard, images of
    1 x 1 x 2 pixels.  Used to instantiate the theorems below. *)
Module Sample.
Definition ly : layout := {|
  train_files := ["a"; "b"]%string; test_file := "t";
  channels := 1; height := 1; width := 2
|}.
Definition recs_a : list (Byte.byte * list Byte.byte) :=
  [(Byte.x01, [Byte.x0a; Byte.x0b]); (Byte.x02, [Byte.x0c; Byte.x0d])].
Definition recs_b : list (Byte.byte * list Byte.byte) := [(Byte.x03, [Byte.x0e; Byte.x0f])].
Definition recs_t : list (Byte.byte * list Byte.byte) :=
  [(Byte.x04, [Byte.x10; Byte.x11]); (Byte.x05, [Byte.x12; Byte.x13])].
Definition files : fs :=
  <["d/a" := encode_shard recs_a]> (<["d/b" := encode_shard recs_b]>
    (<["d/t" := encode_shard recs_t]> ∅)).
End Sample.

(** ** Invariants of the loaded data *)

(** A decoded record: [pixel_count] pixels; label and pixels are uint8
    values. *)
Definition record_ok (ly : layout) (r : record) : Prop :=
  length r.2 = pixel_count ly ∧ (0 ≤ r.1 < 256)%Z ∧ Forall (λ v, 0 ≤ v < 256)%Z r.2.

(** A split as [cifar10] returns it: [(n, pixels)] images and [(n,)]
    labels, well-formed arrays of uint8 values. *)
Definition split_ok (ly : layout) (images labels : ndarray Z) : Prop :=
  ∃ n, shape images = [n; pixel_count ly] ∧ shape labels = [n] ∧
       wf images ∧ wf labels ∧
       Forall (λ v, 0 ≤ v < 256)%Z (data images) ∧ Forall (λ v, 0 ≤ v < 256)%Z (data labels).

(** The file [name] of the directory is present and decodes to [recs]. *)
Definition shard_loads (ly : layout) (files : fs) (dir name : string) (recs : list record) : Prop :=
  ∃ bytes, files !! os_path_join dir [name] = Some bytes ∧
           decode_shard ly (os_path_join dir [name]) bytes = Ok recs.

(** The paths [cifar10] reads, in order. *)
Definition expected_paths (ly : layout) (dir : string) : list string :=
  (λ name, os_path_join dir [name]) <$> train_files ly ++ [test_file ly].

(** A file the loader can decode: present, and a whole number of records. *)
Definition file_ok (ly : layout) (files : fs) (path : string) : Prop :=
  ∃ bytes, files !! path = Some bytes ∧ length bytes mod record_size ly = 0.

(** What each error of the loader says about the file it names. *)
Definition error_justified (ly : layout) (files : fs) (e : load_error) : Prop :=
  match e with
  | DatasetNotFoundError p => files !! p = None
  | CorruptShardError p => ∃ bytes, files !! p = Some bytes ∧ length bytes mod record_size ly ≠ 0
  end.

Definition error_path (e : load_error) : string :=
  match e with DatasetNotFoundError p | CorruptShardError p => p end.

(** ** Shards *)

Lemma byte_val_range (b : Byte.byte) : (0 ≤ byte_val b < 256)%Z.
Proof. unfold byte_val. pose proof (Byte.to_N_bounded b). lia. Qed.

Lemma read_file_Ok (files : fs) (path : string) (bytes : list Byte.byte) :
  read_file files path = Ok bytes ↔ files !! path = Some bytes.
Proof. unfold read_file. destruct (files !! path); split; congruence. Qed.

Section shard.
Context (ly : layout).
Local Abbreviation rs := (record_size ly).
Local Abbreviation P := (pixel_count ly).

Lemma decode_shard_Ok (p : string) (bytes : list Byte.byte) (recs : list record) :
  decode_shard ly p bytes = Ok recs ↔
    length bytes mod rs = 0 ∧
    recs = (λ r, (default 0%Z (head r), drop 1 r))
             <$> rows (length bytes / rs) rs (byte_val <$> bytes).
Proof.
  unfold decode_shard. case_decide; split.
  - by intros [= <-].
  - by intros [_ ->].
  - done.
  - by intros [? _].
Qed.

Lemma decode_shard_Err (p : string) (bytes : list Byte.byte) (e : load_error) :
  decode_shard ly p bytes = Err e ↔
    length bytes mod rs ≠ 0 ∧ e = CorruptShardError p.
Proof.
  unfold decode_shard. case_decide; split.
  - done.
  - by intros [? _].
  - by intros [= <-].
  - by intros [_ ->].
Qed.

Lemma decode_shard_length (p : string) (bytes : list Byte.byte) (recs : list record) :
  decode_shard ly p bytes = Ok recs → length bytes = length recs * rs.
Proof.
  intros [Hm ->]%decode_shard_Ok. rewrite length_fmap, length_rows.
  pose proof (Nat.div_mod_eq (length bytes) rs). lia.
Qed.

Lemma decode_shard_records_ok (p : string) (bytes : list Byte.byte) (recs : list record) :
  decode_shard ly p bytes = Ok recs → Forall (record_ok ly) recs.
Proof.
  intros Hd. pose proof (decode_shard_length _ _ _ Hd) as Hlen.
  apply decode_shard_Ok in Hd as [_ ->].
  assert (Forall (λ v, 0 ≤ v < 256)%Z (byte_val <$> bytes)) as Hv.
  { apply Forall_fmap, Forall_forall. intros b _. apply byte_val_range. }
  pose proof (rows_length_each (length bytes / rs) rs (byte_val <$> bytes)) as Hr.
  pose proof (rows_Forall _ (length bytes / rs) rs _ Hv) as Hr'.
  rewrite length_fmap, length_rows in Hlen. rewrite length_fmap in Hr.
  specialize (Hr ltac:(lia)).
  apply Forall_fmap, Forall_forall. intros r Hin.
  rewrite Forall_forall in Hr, Hr'. specialize (Hr r Hin). specialize (Hr' r Hin).
  unfold record_ok; simpl. split; [|split].
  - rewrite length_drop, Hr. unfold record_size. lia.
  - apply (Forall_head_default (λ v, 0 ≤ v < 256)%Z); [done|lia].
  - by apply Forall_drop.
Qed.

(** Decoding a shard written record by record gives the records back. *)
Lemma decode_encode_shard (p : string) (recs : list (Byte.byte * list Byte.byte)) :
  Forall (λ r, length r.2 = P) recs →
  decode_shard ly p (encode_shard recs) = Ok (decoded recs).
Proof.
  intros Hl. unfold encode_shard, decoded.
  assert (Forall (λ l, length l = rs)
            (fmap byte_val <$> ((λ r, encode_record r.1 r.2) <$> recs))) as Hls.
  { apply Forall_fmap, Forall_fmap. eapply Forall_impl; [exact Hl|].
    intros [l px] H; simpl in *. rewrite length_fmap, H. unfold record_size. lia. }
  assert (length (mjoin ((λ r, encode_record r.1 r.2) <$> recs)) = length recs * rs) as Hlen.
  { rewrite <- (length_fmap byte_val), fmap_mjoin, (length_join_rows rs) by done.
    by rewrite !length_fmap. }
  apply decode_shard_Ok. rewrite Hlen. split; [apply Nat.Div0.mod_mul|].
  rewrite Nat.div_mul by (unfold record_size; lia).
  rewrite fmap_mjoin.
  replace (length recs)
    with (length (fmap byte_val <$> ((λ r : Byte.byte * list Byte.byte,
            encode_record r.1 r.2) <$> recs))) by (by rewrite !length_fmap).
  rewrite rows_join by done.
  rewrite <- !list_fmap_compose. apply list_fmap_ext. by intros i [l px] _.
Qed.

(** Where the decoded values sit in the shard: pixel [j] of sample [s]
    is byte [s * rs + 1 + j], the label of sample [s] byte [s * rs]. *)
Lemma decode_shard_lookup (p : string) (bytes : list Byte.byte) (recs : list record)
    (s j : nat) :
  decode_shard ly p bytes = Ok recs → s < length recs → j < P →
  mjoin (snd <$> recs) !! (s * P + j) = byte_val <$> bytes !! (s * rs + 1 + j) ∧
  (fst <$> recs) !! s = byte_val <$> bytes !! (s * rs).
Proof.
  intros Hd Hs Hj.
  pose proof (decode_shard_records_ok _ _ _ Hd) as Hok.
  assert (Forall (λ r, length r = P) (snd <$> recs)) as Hlen.
  { apply Forall_fmap. eapply Forall_impl; [exact Hok|]. by intros r [? _]. }
  pose proof (decode_shard_length _ _ _ Hd) as Hbl.
  assert (s * rs < length bytes) as Hb by (unfold record_size in *; nia).
  rewrite lookup_join_rows by done.
  apply decode_shard_Ok in Hd as [_ Hrecs]. rewrite Hrecs in Hs |- *.
  rewrite length_fmap, length_rows in Hs.
  rewrite !list_lookup_fmap, lookup_rows by done. simpl.
  split.
  - rewrite lookup_drop, lookup_take_lt, lookup_drop by (unfold record_size; lia).
    rewrite list_lookup_fmap. do 2 f_equal. lia.
  - destruct (lookup_lt_is_Some_2 bytes (s * rs)) as [b Hbyte]; [done|].
    rewrite head_lookup, lookup_take_lt, lookup_drop, Nat.add_0_r
      by (unfold record_size; lia).
    by rewrite list_lookup_fmap, Hbyte.
Qed.
End shard.

(** ** Loading the splits *)

Section load.
Context (ly : layout) (files : fs) (dir : string).

(** The records of a list of shards are the concatenation, in file
    order, of the records of each shard. *)
Lemma load_files_Ok (names : list string) (recs : list record) :
  load_files ly files dir names = Ok recs ↔
    ∃ chunks, Forall2 (shard_loads ly files dir) names chunks ∧ recs = mjoin chunks.
Proof.
  revert recs; induction names as [|name names IH]; intros recs; cbn [load_files].
  { split; [intros [= <-]; by exists []|].
    intros (chunks & Hc & ->). by apply Forall2_nil_inv_l in Hc as ->. }
  split.
  - destruct (read_file files _) as [bytes|] eqn:Hr; [|done]. cbn.
    destruct (decode_shard ly _ bytes) as [c|] eqn:Hd; [|done]. cbn.
    destruct (load_files ly files dir names) as [rest|] eqn:Hl; [|done]. cbn.
    intros [= <-]. destruct (proj1 (IH rest) eq_refl) as (chunks & Hc & ->).
    exists (c :: chunks). split; [|done]. constructor; [|done].
    exists bytes. split; [by apply read_file_Ok|done].
  - intros (chunks & Hc & ->).
    apply Forall2_cons_inv_l in Hc as (c & chunks' & (bytes & Hb & Hd) & Hc & ->).
    rewrite (proj2 (read_file_Ok _ _ _) Hb), bind_Ok, Hd, bind_Ok.
    by rewrite (proj2 (IH _) (ex_intro _ chunks' (conj Hc eq_refl))), bind_Ok.
Qed.

Lemma load_files_records_ok (names : list string) (recs : list record) :
  load_files ly files dir names = Ok recs → Forall (record_ok ly) recs.
Proof.
  intros (chunks & Hc & ->)%load_files_Ok. apply Forall_join.
  induction Hc as [|name c names chunks (bytes & _ & Hd) _ IH]; constructor; [|done].
  by eapply decode_shard_records_ok.
Qed.

Lemma to_arrays_split_ok (recs : list record) :
  Forall (record_ok ly) recs → split_ok ly (to_arrays ly recs).1 (to_arrays ly recs).2.
Proof.
  intros Hok. exists (length recs). simpl. split; [done|].
  split; [by rewrite length_fmap|].
  assert (Forall (λ r, length r = pixel_count ly) (snd <$> recs)) as Hlen.
  { apply Forall_fmap. eapply Forall_impl; [exact Hok|]. by intros r [? _]. }
  split; [|split; [|split]].
  - unfold wf, size, shape_size; simpl.
    rewrite (length_join_rows (pixel_count ly)), length_fmap by done. nia.
  - unfold wf, size, shape_size; simpl. rewrite length_fmap. lia.
  - apply Forall_join, Forall_fmap. eapply Forall_impl; [exact Hok|].
    by intros r (_ & _ & ?).
  - apply Forall_fmap. eapply Forall_impl; [exact Hok|]. by intros r (_ & ? & _).
Qed.

Lemma load_files_split_ok (names : list string) (recs : list record) :
  load_files ly files dir names = Ok recs →
  split_ok ly (to_arrays ly recs).1 (to_arrays ly recs).2.
Proof. intros H. by apply to_arrays_split_ok, (load_files_records_ok names). Qed.

Lemma cifar10_Ok (ti tl si sl : ndarray Z) :
  cifar10 ly files dir = Ok (ti, tl, si, sl) ↔
    ∃ train test,
      load_files ly files dir (train_files ly) = Ok train ∧
      load_files ly files dir [test_file ly] = Ok test ∧
      (ti, tl) = to_arrays ly train ∧ (si, sl) = to_arrays ly test.
Proof.
  unfold cifar10. split.
  - destruct (load_files ly files dir (train_files ly)) as [train|] eqn:Htr; [|done].
    destruct (load_files ly files dir [test_file ly]) as [test|] eqn:Hte; [|done].
    cbn. intros [= <- <- <- <-]. by exists train, test.
  - intros (train & test & -> & -> & Htr & Hte).
    by rewrite !bind_Ok, <- Htr, <- Hte.
Qed.

Lemma load_files_is_ok (names : list string) :
  is_ok (load_files ly files dir names) = true ↔
    Forall (λ name, file_ok ly files (os_path_join dir [name])) names.
Proof.
  induction names as [|name names IH]; cbn [load_files]; [by split|].
  rewrite Forall_cons, <- IH. unfold read_file, file_ok.
  destruct (files !! _) as [bytes|]; rewrite ?bind_Ok; [|split; [done|naive_solver]].
  destruct (decode_shard ly _ bytes) as [c|e] eqn:Hd; rewrite ?bind_Ok.
  - pose proof (proj1 (decode_shard_Ok _ _ _ _) Hd) as [Hm _].
    destruct (load_files ly files dir names); naive_solver.
  - apply decode_shard_Err in Hd as [Hm _]. naive_solver.
Qed.

Lemma load_files_Err (names : list string) (e : load_error) :
  load_files ly files dir names = Err e →
    error_path e ∈ (λ name, os_path_join dir [name]) <$> names ∧
    error_justified ly files e.
Proof.
  induction names as [|name names IH]; cbn [load_files]; [done|].
  unfold read_file. destruct (files !! _) as [bytes|] eqn:Hf; rewrite ?bind_Ok.
  2: { intros [= <-]. split; [by left|done]. }
  destruct (decode_shard ly _ bytes) as [c|e'] eqn:Hd; rewrite ?bind_Ok.
  - destruct (load_files ly files dir names) as [rest|e'] eqn:Hl; rewrite ?bind_Ok; [done|].
    intros [= <-]. destruct (IH eq_refl) as [Hin Hj]. split; [by right|done].
  - intros [= <-]. apply decode_shard_Err in Hd as [Hm ->].
    split; [by left|]. by exists bytes.
Qed.
End load.

(** ** What [cifar10] guarantees *)

(** A shard is either cut into whole records, nothing dropped or added,
    or rejected as corrupt. *)
Theorem shard_decode_exact (ly : layout) (p : string) (bytes : list Byte.byte) :
  (∃ recs, decode_shard ly p bytes = Ok recs ∧
           length bytes = length recs * record_size ly ∧ Forall (record_ok ly) recs) ∨
  (length bytes mod record_size ly ≠ 0 ∧ decode_shard ly p bytes = raise (CorruptShardError p)).
Proof.
  destruct (decode_shard ly p bytes) as [recs|e] eqn:Hd.
  - left. exists recs. split; [done|]. split.
    + by eapply decode_shard_length.
    + by eapply decode_shard_records_ok.
  - right. apply decode_shard_Err in Hd as [Hm ->]. done.
Qed.

(** C27: Every array [data_loading.cifar10] hands to line 12 is well formed:
    one label per image, [pixel_count] pixels per image, all uint8. *)
Theorem cifar10_splits_ok (ly : layout) (files : fs) (dir : string) (ti tl si sl : ndarray Z) :
  cifar10 ly files dir = Ok (ti, tl, si, sl) → split_ok ly ti tl ∧ split_ok ly si sl.
Proof.
  intros (train & test & Htr & Hte & Ht & Hs)%cifar10_Ok.
  pose proof (load_files_split_ok ly files dir _ _ Htr) as H1.
  pose proof (load_files_split_ok ly files dir _ _ Hte) as H2.
  rewrite <- Ht in H1. rewrite <- Hs in H2. done.
Qed.

Theorem cifar10_is_ok (ly : layout) (files : fs) (dir : string) :
  is_ok (cifar10 ly files dir) = true ↔ Forall (file_ok ly files) (expected_paths ly dir).
Proof.
  unfold cifar10, expected_paths. rewrite Forall_fmap, Forall_app.
  pose proof (load_files_is_ok ly files dir (train_files ly)) as H1.
  pose proof (load_files_is_ok ly files dir [test_file ly]) as H2.
  unfold compose.
  destruct (load_files ly files dir (train_files ly)) as [tr|e1];
    destruct (load_files ly files dir [test_file ly]) as [te|e2];
    rewrite ?bind_Ok; cbn in *; naive_solver.
Qed.

Theorem cifar10_Err (ly : layout) (files : fs) (dir : string) (e : load_error) :
  cifar10 ly files dir = Err e →
    error_path e ∈ expected_paths ly dir ∧ error_justified ly files e.
Proof.
  unfold cifar10, expected_paths. rewrite fmap_app.
  destruct (load_files ly files dir (train_files ly)) as [tr|e1] eqn:H1; rewrite ?bind_Ok.
  - destruct (load_files ly files dir [test_file ly]) as [te|e2] eqn:H2; rewrite ?bind_Ok.
    + by destruct (to_arrays ly tr), (to_arrays ly te).
    + intros [= <-]. apply load_files_Err in H2 as [Hin Hj].
      split; [|done]. apply elem_of_app. by right.
  - intros [= <-]. apply load_files_Err in H1 as [Hin Hj].
    split; [|done]. apply elem_of_app. by left.
Qed.

(** The training split received at line 12 is the concatenation of the
    training shards, in the order of the layout. *)
Theorem cifar10_train_concat (ly : layout) (files : fs) (dir : string) (ti tl si sl : ndarray Z) :
  cifar10 ly files dir = Ok (ti, tl, si, sl) →
    ∃ chunks, Forall2 (shard_loads ly files dir) (train_files ly) chunks ∧
              (ti, tl) = to_arrays ly (mjoin chunks).
Proof.
  intros (train & test & Htr & _ & Ht & _)%cifar10_Ok.
  apply load_files_Ok in Htr as (chunks & Hc & ->). by exists chunks.
Qed.

(** C8: After the reshape of line 14, element [[s, c, h, w]] of the test
    images is byte [s*record_size + 1 + c*H*W + h*W + w] of the test shard,
    and label [s] is its byte [s*record_size]. *)
Theorem cifar10_test_layout (ly : layout) (files : fs) (dir : string)
    (ti tl si sl t : ndarray Z) (bytes : list Byte.byte) (s c h w : nat) :
  cifar10 ly files dir = Ok (ti, tl, si, sl) →
  files !! os_path_join dir [test_file ly] = Some bytes →
  reshape si [length (data sl); channels ly; height ly; width ly] = Ok t →
  s < length (data sl) → c < channels ly → h < height ly → w < width ly →
  item t [s; c; h; w] =
    byte_val <$> bytes !! (s * record_size ly + 1 + c * (height ly * width ly) + h * width ly + w) ∧
  data sl !! s = byte_val <$> bytes !! (s * record_size ly).
Proof.
  intros (train & test & _ & Hte & _ & Hsplit)%cifar10_Ok Hb Hr Hs Hc Hh Hw.
  apply load_files_Ok in Hte as (chunks & Hch & ->).
  apply Forall2_cons_inv_l in Hch as (recs & ? & (bytes' & Hb' & Hd) & Hnil & ->).
  apply Forall2_nil_inv_l in Hnil as ->. rewrite Hb in Hb'. injection Hb' as <-.
  simpl in Hsplit. rewrite app_nil_r in Hsplit. injection Hsplit as -> ->.
  simpl in *. rewrite length_fmap in *.
  rewrite (item_reshape _ _ _ _ Hr) by (apply in_bounds_4d; lia).
  rewrite ravel_4d. simpl.
  destruct (decode_shard_lookup ly _ _ _ s (c * (height ly * width ly) + h * width ly + w) Hd)
    as [Hpx Hlbl]; [done|by apply offset3_lt|].
  split; [|done].
  replace (s * (channels ly * height ly * width ly) + c * (height ly * width ly) +
           h * width ly + w)
    with (s * pixel_count ly + (c * (height ly * width ly) + h * width ly + w))
    by (unfold pixel_count; lia).
  rewrite Hpx. do 2 f_equal. lia.
Qed.

Lemma encoded_shards_load (ly : layout) (files : fs) (dir : string) names trs :
  Forall2 (λ name recs, files !! os_path_join dir [name] = Some (encode_shard recs)) names trs →
  Forall (Forall (λ r, length r.2 = pixel_count ly)) trs →
  Forall2 (shard_loads ly files dir) names (decoded <$> trs).
Proof.
  induction 1 as [|name recs names trs Hf _ IH]; intros Hl; [constructor|].
  apply Forall_cons in Hl as [Hr Hl]. constructor; [|by apply IH].
  exists (encode_shard recs). split; [done|]. by apply decode_encode_shard.
Qed.

(** C9: Round trip: shards written record by record load as the arrays of
    their records, the training shards concatenated in file order. *)
Theorem cifar10_roundtrip (ly : layout) (files : fs) (dir : string)
    (train_recs : list (list (Byte.byte * list Byte.byte)))
    (test_recs : list (Byte.byte * list Byte.byte)) :
  Forall2 (λ name recs, files !! os_path_join dir [name] = Some (encode_shard recs))
    (train_files ly) train_recs →
  files !! os_path_join dir [test_file ly] = Some (encode_shard test_recs) →
  Forall (Forall (λ r, length r.2 = pixel_count ly)) (test_recs :: train_recs) →
  cifar10 ly files dir =
    Ok ((to_arrays ly (decoded (mjoin train_recs))).1, (to_arrays ly (decoded (mjoin train_recs))).2,
        (to_arrays ly (decoded test_recs)).1, (to_arrays ly (decoded test_recs)).2).
Proof.
  intros Htr Hte Hlen. apply Forall_cons in Hlen as [Hlt Hlr].
  apply cifar10_Ok. exists (decoded (mjoin train_recs)), (decoded test_recs).
  split; [|split; [|done]].
  - apply load_files_Ok. exists (decoded <$> train_recs). split.
    + by apply encoded_shards_load.
    + unfold decoded. by rewrite fmap_mjoin.
  - apply load_files_Ok. exists [decoded test_recs]. split; [|simpl; by rewrite (right_id_L [] (++))].
    constructor; [|constructor]. exists (encode_shard test_recs).
    split; [done|]. by apply decode_encode_shard.
Qed.

(** ** Instances *)

Lemma decode_encode_shard_witness :
  decode_shard Sample.ly "d/t" (encode_shard Sample.recs_t) = Ok (decoded Sample.recs_t).
Proof. apply decode_encode_shard. repeat constructor. Defined.

Lemma cifar10_splits_ok_witness :
  split_ok Sample.ly (to_arrays Sample.ly (decoded (Sample.recs_a ++ Sample.recs_b))).1
                     (to_arrays Sample.ly (decoded (Sample.recs_a ++ Sample.recs_b))).2 ∧
  split_ok Sample.ly (to_arrays Sample.ly (decoded Sample.recs_t)).1
                     (to_arrays Sample.ly (decoded Sample.recs_t)).2.
Proof.
  apply (cifar10_splits_ok Sample.ly Sample.files "d"). vm_compute. reflexivity.
Defined.

Lemma cifar10_Err_witness :
  error_path (DatasetNotFoundError "d/t") ∈ expected_paths Sample.ly "d" ∧
  error_justified Sample.ly (delete "d/t" Sample.files) (DatasetNotFoundError "d/t").
Proof. apply cifar10_Err. vm_compute. reflexivity. Defined.

Lemma cifar10_train_concat_witness :
  ∃ chunks, Forall2 (shard_loads Sample.ly Sample.files "d") (train_files Sample.ly) chunks ∧
    ((to_arrays Sample.ly (decoded (Sample.recs_a ++ Sample.recs_b))).1,
     (to_arrays Sample.ly (decoded (Sample.recs_a ++ Sample.recs_b))).2) = to_arrays Sample.ly (mjoin chunks).
Proof.
  apply (cifar10_train_concat _ _ _ _ _
           (to_arrays Sample.ly (decoded Sample.recs_t)).1 (to_arrays Sample.ly (decoded Sample.recs_t)).2).
  vm_compute. reflexivity.
Defined.

Lemma cifar10_test_layout_witness :
  item (mk [2; 1; 1; 2] (data (to_arrays Sample.ly (decoded Sample.recs_t)).1)) [1; 0; 0; 1] =
    byte_val <$> encode_shard Sample.recs_t !! (1 * 3 + 1 + 0 * (1 * 2) + 0 * 2 + 1) ∧
  data (to_arrays Sample.ly (decoded Sample.recs_t)).2 !! 1 =
    byte_val <$> encode_shard Sample.recs_t !! (1 * 3).
Proof.
  apply (cifar10_test_layout Sample.ly Sample.files "d"
           (to_arrays Sample.ly (decoded (Sample.recs_a ++ Sample.recs_b))).1
           (to_arrays Sample.ly (decoded (Sample.recs_a ++ Sample.recs_b))).2
           (to_arrays Sample.ly (decoded Sample.recs_t)).1
           (to_arrays Sample.ly (decoded Sample.recs_t)).2).
  all: try (vm_compute; reflexivity).
  all: vm_compute; lia.
Defined.

Lemma cifar10_roundtrip_witness :
  cifar10 Sample.ly Sample.files "d" =
    Ok ((to_arrays Sample.ly (decoded (mjoin [Sample.recs_a; Sample.recs_b]))).1,
        (to_arrays Sample.ly (decoded (mjoin [Sample.recs_a; Sample.recs_b]))).2,
        (to_arrays Sample.ly (decoded Sample.recs_t)).1, (to_arrays Sample.ly (decoded Sample.recs_t)).2).
Proof.
  apply cifar10_roundtrip.
  - solve_Forall; vm_compute; reflexivity.
  - vm_compute. reflexivity.
  - solve_Forall; reflexivity.
Defined.

End Loader.
