(* ===== verification/Collaborator.v ===== *)
(** * The model collaborator [cifar_nn_py] (lines 6-7, 16-23 of main.py)

    [cifar_nn_py] is a C++ extension built outside [src/]; [main.py] only
    calls it.  Its interface is modelled from the specification (section 6)
    as a type class: the operations [main.py] calls ([CifarNN]) and the
    contract the harness relies on ([CifarNNLaws]).  The main harness is
    proved against the class, for every instance.  [train] mutates the
    network object in place; since [main.py] keeps using the same [net]
    afterwards, the model returns the updated network and threads it to
    [forward].  A test double ([Mock]) shows the contract is satisfiable and
    runs the specification's end-to-end scenario. *)

From stdpp Require Import base list strings.
From Stdlib Require Import ZArith QArith Lia.
From S2P Require Import Prelude NdArray Argmax.
Local Open Scope nat_scope.

Module Collaborator.
Import NdArray Argmax.

Class CifarNN : Type := {
  nn_dataset : Type;
  nn_net : Type;
  (** [cifar_nn_py.Dataset(images, labels)] *)
  Dataset : ndarray Z → ndarray Z → result string nn_dataset;
  (** [cifar_nn_py.SimpleNet()] *)
  SimpleNet : nn_net;
  (** [cifar_nn_py.train(net, ds, epochs)]: the network after training *)
  train : nn_net → nn_dataset → nat → result string nn_net;
  (** [net.forward(images)]: one row of class scores per image *)
  forward : nn_net → ndarray Z → result string (ndarray fscore);
  (** [str(ds)], [str(net)] as [print] shows them *)
  repr_dataset : nn_dataset → string;
  repr_net : nn_net → string
}.

(** The contract: [forward] returns a well-formed [(n, classes)] array for
    [n] input samples; like every numpy dimension, the number of classes
    is below [2^63]. *)
Class CifarNNLaws `{CifarNN} : Prop := {
  forward_shape : ∀ net x r n rest,
    shape x = n :: rest → forward net x = Ok r →
    ∃ k, shape r = [n; k] ∧ wf r ∧ (Z.of_nat k < 2 ^ 63)%Z
}.

(** ** A test double *)

Module Mock.
(** A network that scores every image 1 for class [favored] and 0 for
    the other [classes - 1] classes. *)
Definition one_hot (classes favored : nat) : list fscore :=
  (λ j, if decide (j = favored) then Fin 1 else Fin 0) <$> seq 0 classes.

Definition mock_forward (classes favored : nat) (x : ndarray Z) : result string (ndarray fscore) :=
  match shape x with
  | n :: _ => Ok (mk [n; classes] (mjoin (replicate n (one_hot classes favored))))
  | [] => raise "forward expects a batch"%string
  end.

Definition mock_dataset (x y : ndarray Z) : result string unit :=
  if decide (head (shape x) = Some (length (data y))) then Ok ()
  else raise "images and labels differ in length"%string.

Definition mock_train (net : unit) (ds : unit) (epochs : nat) : result string unit :=
  if decide (epochs = 0) then raise "InvalidArgumentError"%string else Ok net.

#[export] Instance mock (classes favored : nat) : CifarNN := {
  nn_dataset := unit;
  nn_net := unit;
  Dataset := mock_dataset;
  SimpleNet := ();
  train := mock_train;
  forward := λ _, mock_forward classes favored;
  repr_dataset := λ _, "<Dataset>"%string;
  repr_net := λ _, "<SimpleNet>"%string
}.

Lemma length_one_hot (classes favored : nat) : length (one_hot classes favored) = classes.
Proof. unfold one_hot. by rewrite length_fmap, length_seq. Qed.

Lemma mock_laws (classes favored : nat) :
  (Z.of_nat classes < 2 ^ 63)%Z → @CifarNNLaws (mock classes favored).
Proof.
  intros Hc. constructor. intros net x r n rest Hs. simpl. unfold mock_forward. rewrite Hs.
  intros [= <-]. exists classes. split; [done|]. split; [|done].
  unfold wf, size, shape_size; simpl.
  rewrite (length_join_rows classes), length_replicate; [lia|].
  apply Forall_replicate, length_one_hot.
Qed.
End Mock.

End Collaborator.
