(* ===== verification/Imports.v ===== *)
(** * [sys.path] and the imports of [main.py] (lines 1-7)

    Before [main()] runs, the module-level statements of [main.py] import
    [python.experiments.data_loading], [sys], [os] and [numpy] (lines 1-4),
    append the build directory of the extension to [sys.path] (line 6) and
    import the extension [cifar_nn_py] (line 7).  This file models what
    those statements do in CPython's import system: [posixpath.normpath]
    and [abspath], the search of one [sys.path] directory
    ([importlib.machinery.FileFinder.find_spec]: a package directory, then
    a module file with each loader suffix, then a namespace portion), the
    search along a path ([PathFinder._get_spec]), dotted imports through the
    parents' search locations ([_find_and_load] and the [sys.modules]
    cache), [from pkg import name] ([_handle_fromlist]) and
    [sys.path.append].  The file system is the set of its files, given by
    absolute normalised paths. *)

From stdpp Require Import base list gmap strings.
From Stdlib Require Import Ascii Lia Wf_nat.
From S2P Require Import Prelude.

Module Imports.

(** ** [posixpath] *)

(** [s.split('/')] *)
Definition split_slash (s : string) : list string :=
  String.string_of_list_ascii <$> split_on "/"%char (String.list_ascii_of_string s).

(** The component loop of [posixpath.normpath]: drop empty and ['.']
    components; ['..'] removes the previous component, except at the start
    of a relative path or after another ['..'], and is dropped at the root. *)
Definition norm_step (initial : bool) (acc : list string) (c : string) : list string :=
  if String.eqb c "" || String.eqb c "." then acc
  else if negb (String.eqb c "..") || (negb initial && bool_decide (acc = []))
          || bool_decide (last acc = Some "..")
  then acc ++ [c]
  else removelast acc.

Definition norm_comps (initial : bool) (comps : list string) : list string :=
  foldl (norm_step initial) [] comps.

(** [posixpath.normpath]: POSIX keeps exactly two leading slashes, and
    turns three or more into one. *)
Definition normpath (p : string) : string :=
  if String.eqb p "" then "."
  else
    let slashes :=
      if String.prefix "/" p then
        if String.prefix "//" p && negb (String.prefix "///" p) then 2 else 1
      else 0 in
    let r := String.concat "/" (norm_comps (bool_decide (slashes ≠ 0)) (split_slash p)) in
    let r := String.concat "" (replicate slashes "/") +:+ r in
    if String.eqb r "" then "." else r.

(** [posixpath.abspath] relative to the working directory [cwd]. *)
Definition abspath (cwd p : string) : string := normpath (path_join2 cwd p).

(** ** Finding a module in one directory *)

(** What the import system knows of the machine: its files, the loader
    suffixes in [FileFinder]'s order (extension suffixes, then [.py], then
    [.pyc]) and the modules of the interpreter itself ([sys.builtin_module_names]
    and the frozen modules), which [BuiltinImporter] and [FrozenImporter]
    find before any path is searched. *)
Record env : Type := {
  files : gset string;
  suffixes : list string;
  builtins : list string
}.

Definition is_file (E : env) (p : string) : bool := bool_decide (p ∈ files E).

(** A directory exists when some file lies below it. *)
Definition is_dir (E : env) (p : string) : bool :=
  existsb (λ f, String.prefix (p +:+ "/") f) (elements (files E)).

(** A module spec: a module or package with its origin file and, for a
    package, its [submodule_search_locations]; a namespace package (its
    portions); a built-in module. *)
Inductive modspec : Type :=
  | ModSpec (origin : string) (search : option (list string))
  | NsSpec (search : list string)
  | BuiltinSpec.

(** The result of [FileFinder(dir).find_spec(tail)]. *)
Inductive dir_hit : Type :=
  | Hit (origin : string) (search : option (list string))
  | Portion (base : string).

#[export] Instance dir_hit_eq_dec : EqDecision dir_hit.
Proof. solve_decision. Defined.

Definition file_find (E : env) (dir tail : string) : option dir_hit :=
  let base := path_join2 dir tail in
  match list_find (λ s, is_file E (path_join2 base ("__init__" +:+ s)) = true) (suffixes E) with
  | Some (_, s) => Some (Hit (path_join2 base ("__init__" +:+ s)) (Some [base]))
  | None =>
      match list_find (λ s, is_file E (path_join2 dir (tail +:+ s)) = true) (suffixes E) with
      | Some (_, s) => Some (Hit (path_join2 dir (tail +:+ s)) None)
      | None => if is_dir E base then Some (Portion base) else None
      end
  end.

(** [PathFinder._get_spec]: the first directory with a module or package
    wins; namespace portions are collected along the way. *)
Fixpoint path_search (E : env) (dirs : list string) (tail : string) (ns : list string)
    : modspec :=
  match dirs with
  | [] => NsSpec ns
  | d :: ds =>
      match file_find E d tail with
      | Some (Hit o s) => ModSpec o s
      | Some (Portion p) => path_search E ds tail (ns ++ [p])
      | None => path_search E ds tail ns
      end
  end.

(** [PathFinder.find_spec]: a namespace package needs at least one portion. *)
Definition find_spec (E : env) (dirs : list string) (tail : string) : option modspec :=
  match path_search E dirs tail [] with
  | NsSpec [] => None
  | sp => Some sp
  end.

(** ** The import state *)

(** The exceptions of the import statements: [ModuleNotFoundError]
    ("No module named ..."; also "... is not a package" for a submodule of
    a plain module) and the [ImportError] "cannot import name" of
    [from pkg import name]. *)
Inductive import_error : Type :=
  | ModuleNotFoundError (name : list string)
  | NotAPackage (name : list string)
  | CannotImportName (pkg : list string) (name : string).

(** The interpreter state the statements of lines 1-7 read and change:
    the working directory, [sys.path] and [sys.modules] (dotted names as
    lists of components). *)
Record state : Type := {
  cwd : string;
  sys_path : list string;
  sys_modules : gmap (list string) modspec
}.

Definition with_modules (st : state) (m : gmap (list string) modspec) : state :=
  {| cwd := cwd st; sys_path := sys_path st; sys_modules := m |}.

(** The directories [PathFinder] searches for a top-level module: each
    [sys.path] entry, relative entries taken from the working directory. *)
Definition search_dirs (st : state) : list string := abspath (cwd st) <$> sys_path st.

(** The spec of [parent.c]: a top-level name is looked up among the
    interpreter's own modules, then along [sys.path]; a submodule along its
    parent's search locations, and only if the parent is a package. *)
Definition find_one (E : env) (st : state) (parent : list string) (c : string)
    : result import_error modspec :=
  match parent with
  | [] =>
      if decide (c ∈ builtins E) then Ok BuiltinSpec
      else match find_spec E (search_dirs st) c with
           | Some sp => Ok sp
           | None => raise (ModuleNotFoundError [c])
           end
  | _ =>
      match sys_modules st !! parent with
      | Some (ModSpec _ (Some locs)) | Some (NsSpec locs) =>
          match find_spec E locs c with
          | Some sp => Ok sp
          | None => raise (ModuleNotFoundError (parent ++ [c]))
          end
      | _ => raise (NotAPackage (parent ++ [c]))
      end
  end.

(** [_find_and_load] for each prefix of a dotted name, outermost first: a
    name already in [sys.modules] is not searched again. *)
Fixpoint import_from (E : env) (parent rest : list string) (st : state)
    : result import_error state :=
  match rest with
  | [] => Ok st
  | c :: rest' =>
      st' ← (match sys_modules st !! (parent ++ [c]) with
             | Some _ => Ok st
             | None =>
                 sp ← find_one E st parent c;
                 Ok (with_modules st (<[parent ++ [c] := sp]> (sys_modules st)))
             end);
      import_from E (parent ++ [c]) rest' st'
  end.

(** [import a.b.c] *)
Definition import_module (E : env) (name : list string) (st : state)
    : result import_error state :=
  import_from E [] name st.

Definition is_package (sp : option modspec) : bool :=
  match sp with
  | Some (ModSpec _ (Some _)) | Some (NsSpec _) => true
  | _ => false
  end.

(** [from pkg import x] ([_handle_fromlist]): after importing [pkg], a
    name that is not yet an attribute of a package is imported as its
    submodule; if no such submodule exists the statement raises
    "cannot import name".  The attributes the package's own code defines
    are not modelled: [x] is an attribute only once [pkg.x] is imported. *)
Definition from_import (E : env) (pkg : list string) (x : string) (st : state)
    : result import_error state :=
  st1 ← import_module E pkg st;
  match sys_modules st1 !! (pkg ++ [x]) with
  | Some _ => Ok st1
  | None =>
      if is_package (sys_modules st1 !! pkg) then
        match import_from E pkg [x] st1 with
        | Ok st2 => Ok st2
        | Err (ModuleNotFoundError n) =>
            if decide (n = pkg ++ [x]) then raise (CannotImportName pkg x)
            else raise (ModuleNotFoundError n)
        | Err e => Err e
        end
      else raise (CannotImportName pkg x)
  end.

(** ** The module-level statements of lines 1-7 *)

Inductive stmt : Type :=
  | SImport (name : list string)
  | SFromImport (pkg : list string) (x : string)
  | SPathAppend (p : string).

Definition exec_stmt (E : env) (s : stmt) (st : state) : result import_error state :=
  match s with
  | SImport name => import_module E name st
  | SFromImport pkg x => from_import E pkg x st
  | SPathAppend p =>
      Ok {| cwd := cwd st; sys_path := sys_path st ++ [p]; sys_modules := sys_modules st |}
  end.

(** Lines 1-7 of [main.py] ([import numpy as np] binds another name to
    the same module). *)
Definition main_py_imports : list stmt := [
  SFromImport ["python"; "experiments"] "data_loading";
  SImport ["sys"];
  SImport ["os"];
  SImport ["numpy"];
  SPathAppend "../../../cmake-build-debug/cpp/experiments/cifar_nn";
  SImport ["cifar_nn_py"]
].

Fixpoint exec_stmts (E : env) (ss : list stmt) (st : state) : result import_error state :=
  match ss with
  | [] => Ok st
  | s :: ss' => st' ← exec_stmt E s st; exec_stmts E ss' st'
  end.

(** The entries a list of statements appends to [sys.path]. *)
Definition appended (ss : list stmt) : list string :=
  mjoin ((λ s, match s with SPathAppend p => [p] | _ => [] end) <$> ss).

(** [python main.py] started in [cwd]: [sys.path] starts with the
    script's directory, then [PYTHONPATH], then the installation's
    directories; [sys.modules] holds nothing the statements import. *)
Definition script_start (cwd script_dir : string) (pythonpath site : list string) : state :=
  {| cwd := cwd; sys_path := script_dir :: pythonpath ++ site; sys_modules := ∅ |}.

(** The entry line 6 appends. *)
Definition ext_build_dir : string := "../../../cmake-build-debug/cpp/experiments/cifar_nn".

(** A checkout of the repository at [/repo] with numpy installed, used to
    instantiate the theorems below. *)
Module Layout.
Definition script_dir : string := "/repo/src/python/experiments/cifar_nn".
Definition site : string := "/usr/lib/python3/site-packages".
Definition E : env := {|
  files := {[ "/repo/src/python/experiments/data_loading.py";
              "/repo/src/python/experiments/cifar_nn/main.py";
              "/repo/src/cmake-build-debug/cpp/experiments/cifar_nn/cifar_nn_py.cpython-310-x86_64-linux-gnu.so";
              "/usr/lib/python3/site-packages/numpy/__init__.py" ]};
  suffixes := [".cpython-310-x86_64-linux-gnu.so"; ".abi3.so"; ".so"; ".py"; ".pyc"];
  builtins := ["sys"; "os"]
|}.
End Layout.

(** The same statements as a machine: the index of the next statement and
    the state, or the exception that ended the module. *)
Inductive config : Type :=
  | Running (pc : nat) (st : state)
  | Raised (e : import_error).

(** The final configuration of a run that ended with [r]. *)
Definition config_of (prog : list stmt) (r : result import_error state) : config :=
  match r with
  | Ok st => Running (length prog) st
  | Err e => Raised e
  end.

Inductive step (E : env) (prog : list stmt) : config → config → Prop :=
  | step_ok pc st s st' :
      prog !! pc = Some s → exec_stmt E s st = Ok st' →
      step E prog (Running pc st) (Running (S pc) st')
  | step_err pc st s e :
      prog !! pc = Some s → exec_stmt E s st = Err e →
      step E prog (Running pc st) (Raised e).

(** [sys.modules] holds the parents of every dotted name it holds. *)
Definition modules_closed (m : gmap (list string) modspec) : Prop :=
  ∀ name sp k, m !! name = Some sp → 0 < k < length name → is_Some (m !! take k name).

Definition config_ok (c : config) : Prop :=
  match c with
  | Running _ st => modules_closed (sys_modules st)
  | Raised _ => True
  end.

(** ** Searching a path *)

Section search.
Context (E : env) (tail : string).

Lemma path_search_app (dirs ds : list string) (ns : list string) :
  path_search E (dirs ++ ds) tail ns =
    match path_search E dirs tail ns with
    | NsSpec ns' => path_search E ds tail ns'
    | sp => sp
    end.
Proof.
  revert ns; induction dirs as [|d dirs IH]; intros ns; simpl; [done|].
  destruct (file_find E d tail) as [[o sp|p]|]; auto.
Qed.

Lemma path_search_not_builtin (dirs ns : list string) : path_search E dirs tail ns ≠ BuiltinSpec.
Proof.
  revert ns; induction dirs as [|d dirs IH]; intros ns; simpl; [done|].
  destruct (file_find E d tail) as [[o sp|p]|]; auto; done.
Qed.

(** No directory before the [i]-th holds a module or package [tail]. *)
Definition no_hit_before (dirs : list string) (i : nat) : Prop :=
  ∀ j d o s, j < i → dirs !! j = Some d → file_find E d tail ≠ Some (Hit o s).

Lemma no_hit_before_cons d dirs i :
  no_hit_before (d :: dirs) (S i) ↔
    (∀ o s, file_find E d tail ≠ Some (Hit o s)) ∧ no_hit_before dirs i.
Proof.
  split.
  - intros H. split; [intros o s; apply (H 0 d); [lia|done]|].
    intros j d' o s Hj Hd. apply (H (S j) d'); [lia|done].
  - intros [H0 H] [|j] d' o s Hj Hd; simpl in Hd; [by simplify_eq|].
    apply (H j d'); [lia|done].
Qed.

Lemma path_search_hit (dirs ns : list string) o sp :
  path_search E dirs tail ns = ModSpec o sp ↔
    ∃ i d, dirs !! i = Some d ∧ file_find E d tail = Some (Hit o sp) ∧ no_hit_before dirs i.
Proof.
  revert ns; induction dirs as [|d dirs IH]; intros ns; simpl.
  { split; [done|]. by intros (i & d & ? & _). }
  split.
  - destruct (file_find E d tail) as [[o' sp'|p]|] eqn:Hf.
    + intros [= <- <-]. exists 0, d. split; [done|]. split; [done|]. intros j; lia.
    + intros (i & d' & Hi & Hh & Hn)%IH. exists (S i), d'. split; [done|]. split; [done|].
      apply no_hit_before_cons. split; [|done]. intros ??; rewrite Hf; done.
    + intros (i & d' & Hi & Hh & Hn)%IH. exists (S i), d'. split; [done|]. split; [done|].
      apply no_hit_before_cons. split; [|done]. intros ??; rewrite Hf; done.
  - intros ([|i] & d' & Hi & Hh & Hn); simpl in Hi.
    + simplify_eq. by rewrite Hh.
    + apply no_hit_before_cons in Hn as [H0 Hn].
      destruct (file_find E d tail) as [[o' sp'|p]|] eqn:Hf; [by destruct (H0 o' sp')| |];
        apply IH; eauto.
Qed.
End search.

(** ** Running the statements *)

Section machine.
Context (E : env) (prog : list stmt).

Definition measure (c : config) : nat :=
  match c with
  | Running pc _ => S (length prog - pc)
  | Raised _ => 0
  end.

Lemma step_measure c c' : step E prog c c' → measure c' < measure c.
Proof.
  destruct 1 as [pc st s st' Hs _|pc st s e Hs _]; simpl; [|lia].
  apply lookup_lt_Some in Hs. lia.
Qed.

Lemma exec_stmts_drop pc st :
  pc ≤ length prog →
  ∀ r, exec_stmts E (drop pc prog) st = r →
  match r with
  | Ok st' => rtc (step E prog) (Running pc st) (Running (length prog) st')
  | Err e => rtc (step E prog) (Running pc st) (Raised e)
  end.
Proof.
  intros Hpc r <-. remember (length prog - pc) as n eqn:Hn.
  revert pc st Hpc Hn; induction n as [|n IH]; intros pc st Hpc Hn.
  - assert (pc = length prog) as -> by lia. rewrite drop_all. simpl. apply rtc_refl.
  - destruct (prog !! pc) as [s|] eqn:Hs; [|apply lookup_ge_None in Hs; lia].
    rewrite (drop_S _ _ _ Hs). simpl.
    destruct (exec_stmt E s st) as [st'|e] eqn:He; simpl.
    + specialize (IH (S pc) st' ltac:(lia) ltac:(lia)).
      destruct (exec_stmts E (drop (S pc) prog) st'); eapply rtc_l; eauto; by econstructor.
    + apply rtc_once. by eapply step_err.
Qed.
End machine.

(** ** The invariant of [sys.modules] *)

Lemma closed_insert (m : gmap (list string) modspec) name sp :
  modules_closed m → (∀ k, 0 < k < length name → is_Some (m !! take k name)) →
  modules_closed (<[name := sp]> m).
Proof.
  intros Hc Hp name' sp' k Hl Hk. rewrite lookup_insert_is_Some'. right.
  destruct (decide (name = name')) as [<-|Hne]; [by apply Hp|].
  rewrite lookup_insert_ne in Hl by done. eauto.
Qed.

Lemma closed_child (m : gmap (list string) modspec) parent c :
  modules_closed m → parent = [] ∨ is_Some (m !! parent) →
  ∀ k, 0 < k < length (parent ++ [c]) → is_Some (m !! take k (parent ++ [c])).
Proof.
  intros Hc Hp k Hk. rewrite length_app in Hk; simpl in Hk.
  rewrite take_app_le by lia.
  destruct Hp as [->|[sp Hsp]]; [simpl in Hk; lia|].
  destruct (decide (k = length parent)) as [->|Hne]; [rewrite take_ge by lia; by eexists|].
  eapply Hc; [exact Hsp|lia].
Qed.

Lemma import_from_closed E parent rest st st' :
  modules_closed (sys_modules st) → parent = [] ∨ is_Some (sys_modules st !! parent) →
  import_from E parent rest st = Ok st' → modules_closed (sys_modules st').
Proof.
  revert parent st; induction rest as [|c rest IH]; intros parent st Hc Hp; simpl; [by intros [= <-]|].
  destruct (sys_modules st !! (parent ++ [c])) as [sp|] eqn:Hl; simpl.
  - intros H. apply (IH (parent ++ [c]) st Hc); [right; by rewrite Hl|exact H].
  - destruct (find_one E st parent c) as [sp|e]; simpl; [|done].
    intros H. apply (IH (parent ++ [c]) (with_modules st (<[parent ++ [c] := sp]> (sys_modules st))));
      [exact (closed_insert _ _ _ Hc (closed_child _ _ _ Hc Hp))| |exact H].
    right. simpl. rewrite lookup_insert_is_Some'. by left.
Qed.

Lemma exec_stmt_closed E s st st' :
  modules_closed (sys_modules st) → exec_stmt E s st = Ok st' → modules_closed (sys_modules st').
Proof.
  intros Hc. destruct s as [name|pkg x|q]; simpl.
  - apply import_from_closed; auto.
  - unfold from_import. destruct (import_module E pkg st) as [st1|e] eqn:H1; [|done].
    rewrite bind_Ok.
    pose proof (import_from_closed _ _ _ _ _ Hc (or_introl eq_refl) H1) as Hc1.
    destruct (sys_modules st1 !! (pkg ++ [x])); [by intros [= <-]|].
    destruct (is_package (sys_modules st1 !! pkg)) eqn:Hpk; [|done].
    destruct (import_from E pkg [x] st1) as [st2|[n|n|n y]] eqn:H2;
      try (case_decide; done); try done.
    intros [= <-]. apply (import_from_closed E pkg [x] st1 st2 Hc1); [|done].
    right. unfold is_package in Hpk. destruct (sys_modules st1 !! pkg); [by eexists|done].
  - by intros [= <-].
Qed.

Section machine_properties.
Context (E : env) (prog : list stmt).

Lemma step_config_ok c c' : step E prog c c' → config_ok c → config_ok c'.
Proof. destruct 1; simpl; [|done]. intros Hc. by eapply exec_stmt_closed. Qed.

Lemma step_det c c1 c2 : step E prog c c1 → step E prog c c2 → c1 = c2.
Proof. destruct 1; inversion 1; simplify_eq; congruence. Qed.

Lemma config_of_nf r : nf (step E prog) (config_of prog r).
Proof.
  intros [c Hs]. destruct r; inversion Hs as [pc st s st' Hl|pc st s e' Hl]; simplify_eq;
    apply lookup_lt_Some in Hl; lia.
Qed.

Lemma rtc_nf_unique c c1 c2 :
  rtc (step E prog) c c1 → rtc (step E prog) c c2 →
  nf (step E prog) c1 → nf (step E prog) c2 → c1 = c2.
Proof.
  intros H1. revert c2. induction H1 as [c|c c' c1 Hs H1 IH]; intros c2 H2 Hn1 Hn2.
  - destruct H2 as [|c c'' c2 Hs' _]; [done|]. destruct Hn1. by eexists.
  - destruct H2 as [|c c'' c2 Hs' H2]; [destruct Hn2; by eexists|].
    rewrite (step_det _ _ _ Hs Hs') in IH. by apply IH.
Qed.
End machine_properties.

(** ** Properties *)

(** C20: [FileFinder]/[PathFinder] search: a module or package [tail] is
    found at origin [o] exactly when some directory of the path holds it
    there and no earlier directory holds a module or package [tail]. *)
Theorem find_spec_first (E : env) (dirs : list string) (tail o : string)
    (sp : option (list string)) :
  find_spec E dirs tail = Some (ModSpec o sp) ↔
    ∃ i d, dirs !! i = Some d ∧ file_find E d tail = Some (Hit o sp) ∧
           no_hit_before E tail dirs i.
Proof.
  rewrite <- path_search_hit with (ns := []). unfold find_spec.
  destruct (path_search E dirs tail []) as [| [|]|]; naive_solver.
Qed.

(** C25: Appending to [sys.path] (line 6) never changes what an earlier
    entry provides: a module found before the append is found at the same
    place after it. *)
Theorem sys_path_append_no_shadow (E : env) (dirs ds : list string) (tail o : string)
    (sp : option (list string)) :
  find_spec E dirs tail = Some (ModSpec o sp) →
  find_spec E (dirs ++ ds) tail = Some (ModSpec o sp).
Proof.
  unfold find_spec. rewrite path_search_app.
  destruct (path_search E dirs tail []) as [| [|]|]; naive_solver.
Qed.

(** The statements of a module run to an end: the converse of the
    step relation is well founded, whatever the statements do. *)
Theorem step_terminates (E : env) (prog : list stmt) :
  well_founded (λ c' c, step E prog c c').
Proof. apply (well_founded_lt_compat _ (measure prog)). intros c' c. apply step_measure. Qed.

(** Executing the statements one after the other ([exec_stmts])
    gives exactly the configuration the machine reaches: the final state,
    or the exception of the first statement that raised. *)
Theorem exec_stmts_machine (E : env) (prog : list stmt) (st : state) r :
  exec_stmts E prog st = r ↔ rtc (step E prog) (Running 0 st) (config_of prog r).
Proof.
  pose proof (exec_stmts_drop E prog 0 st ltac:(lia) _ eq_refl) as Hrun. rewrite drop_0 in Hrun.
  split.
  - intros <-. by destruct (exec_stmts E prog st).
  - intros Hr. assert (rtc (step E prog) (Running 0 st) (config_of prog (exec_stmts E prog st))) as Hr'
      by (by destruct (exec_stmts E prog st)).
    pose proof (rtc_nf_unique _ _ _ _ _ Hr Hr' (config_of_nf _ _ _) (config_of_nf _ _ _)) as Heq.
    destruct r, (exec_stmts E prog st); simpl in Heq; simplify_eq; done.
Qed.

(** C19: Every configuration the statements reach from a state whose
    [sys.modules] holds the parents of its dotted names has the same
    property: the imports never record [a.b] without [a]. *)
Theorem reachable_modules_closed (E : env) (prog : list stmt) (c c' : config) :
  rtc (step E prog) c c' → config_ok c → config_ok c'.
Proof. induction 1; eauto using step_config_ok. Qed.

Lemma path_search_none (E : env) (tail : string) (dirs ns : list string) :
  (∀ d, d ∈ dirs → file_find E d tail = None) → path_search E dirs tail ns = NsSpec ns.
Proof.
  revert ns; induction dirs as [|d dirs IH]; intros ns Hn; simpl; [done|].
  rewrite Hn by set_solver. apply IH. set_solver.
Qed.

Lemma import_from_frame E parent rest st st' :
  import_from E parent rest st = Ok st' → sys_path st' = sys_path st ∧ cwd st' = cwd st.
Proof.
  revert parent st; induction rest as [|c rest IH]; intros parent st; simpl; [by intros [= <-]|].
  destruct (sys_modules st !! (parent ++ [c])); simpl; [apply IH|].
  destruct (find_one E st parent c); simpl; [|done]. intros H. by apply IH in H.
Qed.

Lemma from_import_frame E pkg x st st' :
  from_import E pkg x st = Ok st' → sys_path st' = sys_path st ∧ cwd st' = cwd st.
Proof.
  unfold from_import. destruct (import_module E pkg st) as [st1|e] eqn:H1; [|done].
  rewrite bind_Ok. apply import_from_frame in H1 as [<- <-].
  destruct (sys_modules st1 !! (pkg ++ [x])); [by intros [= <-]|].
  destruct (is_package (sys_modules st1 !! pkg)); [|done].
  destruct (import_from E pkg [x] st1) as [st2|[n|n|n y]] eqn:H2; try (case_decide; done); try done.
  intros [= <-]. by apply import_from_frame in H2.
Qed.

Lemma exec_stmt_frame E s st st' :
  exec_stmt E s st = Ok st' → sys_path st' = sys_path st ++ appended [s] ∧ cwd st' = cwd st.
Proof.
  destruct s as [name|pkg x|p]; simpl.
  - intros H%import_from_frame. by rewrite app_nil_r.
  - intros H%from_import_frame. by rewrite app_nil_r.
  - by intros [= <-].
Qed.

Lemma exec_stmts_frame E ss st st' :
  exec_stmts E ss st = Ok st' → sys_path st' = sys_path st ++ appended ss ∧ cwd st' = cwd st.
Proof.
  revert st; induction ss as [|s ss IH]; intros st; simpl.
  - intros [= <-]. by rewrite app_nil_r.
  - destruct (exec_stmt E s st) as [st1|] eqn:H1; [|done]. rewrite bind_Ok.
    intros (P & C)%IH. apply exec_stmt_frame in H1 as [P1 C1].
    rewrite P, P1, C, C1, <-app_assoc. split; [|done]. f_equal.
    unfold appended; simpl. by rewrite app_nil_r.
Qed.

(** A top-level [import m] raises [ModuleNotFoundError] exactly when
    [m] is not yet imported, is not a module of the interpreter, and no
    directory of [sys.path] holds a module, package or namespace portion [m]. *)
Theorem import_top_not_found (E : env) (st : state) (m : string) :
  import_module E [m] st = Err (ModuleNotFoundError [m]) ↔
    sys_modules st !! [m] = None ∧ (m ∉ builtins E) ∧ find_spec E (search_dirs st) m = None.
Proof.
  unfold import_module; simpl.
  destruct (sys_modules st !! [m]) eqn:Hl; simpl; [naive_solver|].
  case_decide; simpl; [naive_solver|].
  destruct (find_spec E (search_dirs st) m); simpl; naive_solver.
Qed.

(** C26: Line 7 falls back on the entry line 6 appended: when no earlier
    [sys.path] directory holds anything named [tail], the search finds
    exactly what the appended directory holds. *)
Theorem sys_path_append_fallback (E : env) (dirs : list string) (d tail : string) :
  (∀ d', d' ∈ dirs → file_find E d' tail = None) →
  find_spec E (dirs ++ [d]) tail =
    match file_find E d tail with
    | Some (Hit o sp) => Some (ModSpec o sp)
    | Some (Portion p) => Some (NsSpec [p])
    | None => None
    end.
Proof.
  intros Hn. unfold find_spec. rewrite path_search_app, path_search_none by done. simpl.
  by destruct (file_find E d tail) as [[o sp|p]|].
Qed.

(** Lines 1-7 change [sys.path] only by the one entry of line 6,
    appended at the end, and do not change the working directory. *)
Theorem main_py_imports_sys_path (E : env) (st st' : state) :
  exec_stmts E main_py_imports st = Ok st' →
  sys_path st' = sys_path st ++ [ext_build_dir] ∧ cwd st' = cwd st.
Proof. apply exec_stmts_frame. Qed.

(** Line 1 runs before anything is appended to [sys.path]: when no
    directory of the initial [sys.path] holds a package or namespace
    portion [python], the module stops at line 1 with
    [ModuleNotFoundError], whatever the build directory holds. *)
Theorem main_py_needs_python_on_path (E : env) (st : state) :
  (∀ d, d ∈ search_dirs st → file_find E d "python" = None) →
  "python" ∉ builtins E → sys_modules st !! ["python"] = None →
  exec_stmts E main_py_imports st = Err (ModuleNotFoundError ["python"]).
Proof.
  intros Hn Hb Hl. simpl. unfold from_import, import_module. simpl. rewrite Hl. simpl.
  rewrite decide_False by done. unfold find_spec. rewrite path_search_none by done. done.
Qed.

(** In the repository's layout, started from the script's directory
    with [PYTHONPATH=/repo/src], lines 1-7 import [data_loading] from
    [src/python/experiments] (through two namespace packages) and the
    extension from the build directory line 6 appends. *)
Example main_py_imports_layout :
  (sys_modules <$> exec_stmts Layout.E main_py_imports
     (script_start Layout.script_dir Layout.script_dir ["/repo/src"] [Layout.site]))
    ≫= (λ m, Ok (m !! ["python"; "experiments"; "data_loading"], m !! ["cifar_nn_py"])) =
  Ok (Some (ModSpec "/repo/src/python/experiments/data_loading.py" None),
      Some (ModSpec "/repo/src/cmake-build-debug/cpp/experiments/cifar_nn/cifar_nn_py.cpython-310-x86_64-linux-gnu.so" None)).
Proof. vm_compute. reflexivity. Qed.

(** ** Instances *)

Lemma sys_path_append_no_shadow_witness :
  find_spec Layout.E ([Layout.site] ++ ["/repo/src"]) "numpy" =
    Some (ModSpec "/usr/lib/python3/site-packages/numpy/__init__.py"
            (Some ["/usr/lib/python3/site-packages/numpy"])).
Proof. apply sys_path_append_no_shadow. vm_compute. reflexivity. Defined.

Lemma reachable_modules_closed_witness :
  config_ok (config_of main_py_imports
    (exec_stmts Layout.E main_py_imports
       (script_start Layout.script_dir Layout.script_dir ["/repo/src"] [Layout.site]))).
Proof.
  apply (reachable_modules_closed Layout.E main_py_imports
           (Running 0 (script_start Layout.script_dir Layout.script_dir ["/repo/src"] [Layout.site]))).
  - pose proof (exec_stmts_drop Layout.E main_py_imports 0
                 (script_start Layout.script_dir Layout.script_dir ["/repo/src"] [Layout.site])
                 ltac:(lia) _ eq_refl) as H.
    vm_compute in H |- *. exact H.
  - simpl. intros name sp k. by rewrite lookup_empty.
Defined.

Lemma sys_path_append_fallback_witness :
  find_spec Layout.E
    (search_dirs (script_start Layout.script_dir Layout.script_dir ["/repo/src"] [Layout.site])
       ++ [abspath Layout.script_dir ext_build_dir]) "cifar_nn_py" =
    Some (ModSpec "/repo/src/cmake-build-debug/cpp/experiments/cifar_nn/cifar_nn_py.cpython-310-x86_64-linux-gnu.so" None).
Proof.
  rewrite sys_path_append_fallback; [vm_compute; reflexivity|].
  apply Forall_forall, (bool_decide_unpack (Forall _ _)). vm_compute. reflexivity.
Defined.

Lemma main_py_imports_sys_path_witness :
  match exec_stmts Layout.E main_py_imports
          (script_start Layout.script_dir Layout.script_dir ["/repo/src"] [Layout.site]) with
  | Ok st' => sys_path st' = [Layout.script_dir; "/repo/src"; Layout.site] ++ [ext_build_dir] ∧
              cwd st' = Layout.script_dir
  | Err _ => False
  end.
Proof.
  destruct (exec_stmts Layout.E main_py_imports _) as [st'|e] eqn:H; [|vm_compute in H; discriminate].
  exact (main_py_imports_sys_path _ _ _ H).
Defined.


End Imports.
