(* ===== verification/Main.v ===== *)
(** * [main()]: the experiment driver (src/python/experiments/cifar_nn/main.py)

    The whole body of [main] as one program that prints: load the dataset
    (line 12), reshape both image sets (13-14), build the dataset and the
    network and print them (16-19), train (21), run the network on the test
    images and print the shape of the scores (23-24), take the argmax of each
    row (25) and score the predictions (27-29), print the accuracy (31).
    Every exception ends the run; the lines already printed stay printed.
    The literal sizes of lines 13-14 and the epoch count of line 21 are the
    fields of [consts]; [main] is [main_with] at the literals of the code. *)

From stdpp Require Import base list gmap strings.
From Stdlib Require Import ZArith QArith Lia.
From S2P Require Import Prelude NdArray Ufunc Argmax Loader Collaborator.
Local Open Scope nat_scope.

Module Main.
Import NdArray Ufunc Argmax Loader Collaborator.

(** The exceptions that can end [main]. *)
Inductive exn : Type :=
  | NumpyError (e : np_error)
  | LoadError (e : load_error)
  | ExtensionError (msg : string).

(** The lines [main] prints. *)
Inductive output : Type :=
  | PrintRepr (s : string)
  | PrintShape (s : list nat)
  | PrintFloat (f : f64).

(** The literals of [main]: sample counts and image shape of lines 13-14,
    epochs of line 21. *)
Record consts : Type := {
  n_train : nat;
  n_test : nat;
  img_c : nat;
  img_h : nat;
  img_w : nat;
  epochs : nat
}.

Definition main_consts : consts := {|
  n_train := 50000; n_test := 10000; img_c := 3; img_h := 32; img_w := 32; epochs := 10
|}.

(** [os.path.curdir] *)
Definition os_curdir : string := ".".

(** Line 11. *)
Definition resources_path : string := os_path_join os_curdir ["../../resources"; "cifar10"].

(** Lines 27-29: [diff = test_labels - res], [sim = np.where(diff == 0, 1, 0)],
    [accuracy = np.sum(sim) / sim.shape[0]]. *)
Definition accuracy_of (test_labels : ndarray Z) (res : ndarray nat) : result np_error f64 :=
  diff ← subtract test_labels (map Z.of_nat res);
  let sim := where_eq0 diff in
  n ← shape0 sim;
  Ok (true_divide (sum sim) n).

(** The number of samples whose prediction equals the label. *)
Definition matches (labels : list Z) (preds : list nat) : nat :=
  length (filter (λ yp : Z * nat, yp.1 = Z.of_nat yp.2) (zip labels preds)).

(** The specification of lines 25-29 (section 4.2 of the spec): each
    sample is predicted the first class of maximal score, and the accuracy
    is the fraction of samples predicted right. *)
Definition spec_accuracy (labels : list Z) (score_rows : list (list fscore)) (q : Q) : Prop :=
  ∃ preds, Forall2 (first_max fle) score_rows preds ∧
           q == inject_Z (Z.of_nat (matches labels preds)) / inject_Z (Z.of_nat (length labels)).

Definition np {A} (r : result np_error A) : prog output exn A := lift (map_err NumpyError r).
Definition ext {A} (r : result string A) : prog output exn A := lift (map_err ExtensionError r).

Definition main_with `{CifarNN} (k : consts) (ly : layout) (files : fs) : prog output exn unit :=
  let path := resources_path in
  data ← lift (map_err LoadError (cifar10 ly files path));
  let '(train_images, train_labels, test_images, test_labels) := data in
  train_images ← np (reshape train_images [n_train k; img_c k; img_h k; img_w k]);
  test_images ← np (reshape test_images [n_test k; img_c k; img_h k; img_w k]);
  ds ← ext (Dataset train_images train_labels);
  _ ← emit (PrintRepr (repr_dataset ds));
  let net := SimpleNet in
  _ ← emit (PrintRepr (repr_net net));
  net ← ext (train net ds (epochs k));
  res ← ext (forward net test_images);
  _ ← emit (PrintShape (shape res));
  res ← np (argmax_axis1 fle fisnan res);
  accuracy ← np (accuracy_of test_labels res);
  emit (PrintFloat accuracy).

Definition main `{CifarNN} (files : fs) : prog output exn unit :=
  main_with main_consts cifar10_layout files.

(** The values a run computes up to line 25: [sl] the test labels loaded
    at line 12, [res] the scores [net.forward] returns at line 23 for the
    test images reshaped at line 14, the network trained at line 21 on the
    dataset of line 16, and [pred] their argmax (line 25).  Each step is a
    function of the ones before, so the files determine these values
    ([scored_run_det]). *)
Definition scored_run `{CifarNN} (k : consts) (ly : layout) (files : fs)
    (sl : ndarray Z) (res : ndarray fscore) (pred : ndarray nat) : Prop :=
  ∃ ti tl si ti' si' ds net,
    cifar10 ly files resources_path = Ok (ti, tl, si, sl) ∧
    reshape ti [n_train k; img_c k; img_h k; img_w k] = Ok ti' ∧
    reshape si [n_test k; img_c k; img_h k; img_w k] = Ok si' ∧
    Dataset ti' tl = Ok ds ∧
    train SimpleNet ds (epochs k) = Ok net ∧
    forward net si' = Ok res ∧
    argmax_axis1 fle fisnan res = Ok pred.

(** ** Sample inputs *)

Module Scenario.
(** The end-to-end scenario of the specification (section 8): a test
    shard of four records labelled 3, 3, 7, 1, here with images of
    1 x 1 x 2 pixels and two training records; the network favours
    class 3 of 10 ([Mock.mock 10 3]). *)
Definition ly : layout := {|
  train_files := ["a"]%string; test_file := "t"; channels := 1; height := 1; width := 2
|}.
Definition k : consts := {|
  n_train := 2; n_test := 4; img_c := 1; img_h := 1; img_w := 2; epochs := 10
|}.
Definition train_recs : list (Byte.byte * list Byte.byte) :=
  [(Byte.x01, [Byte.x0a; Byte.x0b]); (Byte.x02, [Byte.x0c; Byte.x0d])].
Definition test_recs : list (Byte.byte * list Byte.byte) :=
  [(Byte.x03, [Byte.x10; Byte.x11]); (Byte.x03, [Byte.x12; Byte.x13]);
   (Byte.x07, [Byte.x14; Byte.x15]); (Byte.x01, [Byte.x16; Byte.x17])].
Definition files : fs :=
  <[os_path_join resources_path ["a"] := encode_shard train_recs]>
    (<[os_path_join resources_path ["t"] := encode_shard test_recs]> ∅).

(** The standard layout with five empty training shards and a test
    shard of the same four labels, full-size images. *)
Definition cifar_test_recs : list (Byte.byte * list Byte.byte) :=
  (λ l, (l, replicate 3072 Byte.x00)) <$> [Byte.x03; Byte.x03; Byte.x07; Byte.x01].
Definition cifar_files : fs :=
  list_to_map ((λ name, (os_path_join resources_path [name], [])) <$> train_files cifar10_layout)
    ∪ {[os_path_join resources_path [test_file cifar10_layout] := encode_shard cifar_test_recs]}.
End Scenario.

(** ** How a run of [main] unfolds *)

(** Only the loader raises [LoadError]: the other steps' exceptions are
    wrapped as [NumpyError] or [ExtensionError], and [print] raises none. *)
Lemma bind_no_load {A} (p : prog output exn A) (f : A → prog output exn unit) :
  (∀ e, prog_res p ≠ Err (LoadError e)) →
  (∀ a e, prog_res (f a) ≠ Err (LoadError e)) →
  ∀ e, prog_res (p ≫= f) ≠ Err (LoadError e).
Proof. intros Hp Hf e. destruct p as [os [a|e']]; cbn; [apply Hf|]. intros [= ->]. by apply (Hp e). Qed.

Lemma np_no_load {A} (r : result np_error A) e : prog_res (np r) ≠ Err (LoadError e).
Proof. by destruct r. Qed.

Lemma ext_no_load {A} (r : result string A) e : prog_res (ext r) ≠ Err (LoadError e).
Proof. by destruct r. Qed.

Lemma emit_no_load (o : output) e : prog_res (emit (E:=exn) o) ≠ Err (LoadError e).
Proof. done. Qed.

#[export] Hint Resolve bind_no_load np_no_load ext_no_load emit_no_load : cifar.

Section run.
Context `{CifarNN} (k : consts) (ly : layout) (files : fs).

Abbreviation run := (main_with k ly files).

(** Once the dataset is loaded, the run never fails with [LoadError]. *)
Lemma main_with_after_load d :
  cifar10 ly files resources_path = Ok d → ∀ e, prog_res run ≠ Err (LoadError e).
Proof.
  intros Hd. unfold main_with. rewrite Hd. cbn [map_err]. rewrite lift_Ok_bind.
  destruct d as [[[ti tl] si] sl]. cbv zeta. auto 40 with cifar.
Qed.

(** A failed load ends the run at once, with nothing printed. *)
Lemma main_with_load_fails e :
  cifar10 ly files resources_path = Err e → run = Prog [] (Err (LoadError e)).
Proof. intros He. unfold main_with. by rewrite He. Qed.

(** A successful run went through every step of the code in order and
    printed exactly four lines, the accuracy last. *)
Lemma main_with_Ok_inv :
  prog_res run = Ok () →
  ∃ ti tl si sl ti' si' ds net res pred acc,
    cifar10 ly files resources_path = Ok (ti, tl, si, sl) ∧
    reshape ti [n_train k; img_c k; img_h k; img_w k] = Ok ti' ∧
    reshape si [n_test k; img_c k; img_h k; img_w k] = Ok si' ∧
    Dataset ti' tl = Ok ds ∧
    train SimpleNet ds (epochs k) = Ok net ∧
    forward net si' = Ok res ∧
    argmax_axis1 fle fisnan res = Ok pred ∧
    accuracy_of sl pred = Ok acc ∧
    prog_out run = [PrintRepr (repr_dataset ds); PrintRepr (repr_net SimpleNet);
                    PrintShape (shape res); PrintFloat acc].
Proof.
  unfold main_with, np, ext.
  destruct (cifar10 ly files resources_path) as [[[[ti tl] si] sl]|e]; [|done].
  cbn [map_err]. rewrite lift_Ok_bind.
  destruct (reshape ti _) as [ti'|e] eqn:E1; [|done]. cbn [map_err]. rewrite lift_Ok_bind.
  destruct (reshape si _) as [si'|e] eqn:E2; [|done]. cbn [map_err]. rewrite lift_Ok_bind.
  destruct (Dataset ti' tl) as [ds|e] eqn:E3; [|done]. cbn [map_err]. rewrite lift_Ok_bind, !emit_bind.
  destruct (train SimpleNet ds (epochs k)) as [net|e] eqn:E4; [|done]. cbn [map_err]. rewrite lift_Ok_bind.
  destruct (forward net si') as [res|e] eqn:E5; [|done]. cbn [map_err]. rewrite lift_Ok_bind, emit_bind.
  destruct (argmax_axis1 fle fisnan res) as [pred|e] eqn:E6; [|done]. cbn [map_err]. rewrite lift_Ok_bind.
  destruct (accuracy_of sl pred) as [acc|e] eqn:E7; [|done]. cbn [map_err]. rewrite lift_Ok_bind.
  intros _. do 11 eexists. repeat split; (eassumption || reflexivity).
Qed.

(** The labels, scores and predictions of a run are determined by its
    inputs. *)
Lemma scored_run_det sl res pred sl' res' pred' :
  scored_run k ly files sl res pred → scored_run k ly files sl' res' pred' →
  sl = sl' ∧ res = res' ∧ pred = pred'.
Proof.
  intros (ti & tl & si & ti' & si' & ds & net & H1 & H2 & H3 & H4 & H5 & H6 & H7)
         (ui & ul & ui2 & ui' & ui2' & ds' & net' & G1 & G2 & G3 & G4 & G5 & G6 & G7).
  rewrite H1 in G1. simplify_eq. rewrite H2 in G2. rewrite H3 in G3. simplify_eq.
  rewrite H4 in G4. simplify_eq. rewrite H5 in G5. simplify_eq. rewrite H6 in G6. simplify_eq.
  rewrite H7 in G7. by simplify_eq.
Qed.

Lemma scored_run_argmax sl res pred :
  scored_run k ly files sl res pred → argmax_axis1 fle fisnan res = Ok pred.
Proof. by intros (? & ? & ? & ? & ? & ? & ? & _ & _ & _ & _ & _ & _ & ?). Qed.

End run.

(** ** Loading the dataset *)

Section loading.
Context `{CifarNN} (k : consts) (ly : layout) (files : fs).

(** C6: The run gets past [data_loading.cifar10] (it never fails with a load
    error) exactly when every shard under the resources path of line 11
    exists and holds whole records. *)
Theorem main_with_loads_iff :
  (∀ e, prog_res (main_with k ly files) ≠ Err (LoadError e)) ↔
    Forall (file_ok ly files) (expected_paths ly resources_path).
Proof.
  rewrite <-cifar10_is_ok. split.
  - intros Hno. destruct (cifar10 ly files resources_path) as [d|e] eqn:Hc; [done|].
    exfalso. apply (Hno e). by rewrite (main_with_load_fails k ly files e Hc).
  - destruct (cifar10 ly files resources_path) as [d|e] eqn:Hc; [|done].
    intros _. by apply (main_with_after_load k ly files d).
Qed.

(** C7: A run that fails with a load error printed nothing, and the error
    names one of the shard paths under the resources path of line 11 and
    is justified by the files: that file is missing, or its length is not
    a multiple of the record size. *)
Theorem main_with_LoadError (e : load_error) :
  prog_res (main_with k ly files) = Err (LoadError e) →
  prog_out (main_with k ly files) = [] ∧
  error_path e ∈ expected_paths ly resources_path ∧ error_justified ly files e.
Proof.
  intros Hr. destruct (cifar10 ly files resources_path) as [d|e'] eqn:Hc.
  - by destruct (main_with_after_load k ly files d Hc e).
  - rewrite (main_with_load_fails k ly files e' Hc) in Hr |- *. simplify_eq/=.
    split; [done|]. by apply cifar10_Err.
Qed.
End loading.

(** ** Errors of the extension and the printed shape *)

Section collaborator.
Context `{CifarNN} (k : consts) (ly : layout) (files : fs).

(** C29: An exception of [cifar_nn_py.train] propagates unchanged: the
    run ends with it, having printed the dataset and the network (lines
    17 and 19) and nothing else. *)
Theorem main_with_train_error ti tl si sl ti' si' ds msg :
  cifar10 ly files resources_path = Ok (ti, tl, si, sl) →
  reshape ti [n_train k; img_c k; img_h k; img_w k] = Ok ti' →
  reshape si [n_test k; img_c k; img_h k; img_w k] = Ok si' →
  Dataset ti' tl = Ok ds →
  train SimpleNet ds (epochs k) = Err msg →
  main_with k ly files =
    Prog [PrintRepr (repr_dataset ds); PrintRepr (repr_net SimpleNet)] (Err (ExtensionError msg)).
Proof.
  intros H1 H2 H3 H4 H5. unfold main_with, np, ext.
  rewrite H1; cbn [map_err]; rewrite lift_Ok_bind.
  rewrite H2; cbn [map_err]; rewrite lift_Ok_bind.
  rewrite H3; cbn [map_err]; rewrite lift_Ok_bind.
  rewrite H4; cbn [map_err]; rewrite lift_Ok_bind, !emit_bind.
  by rewrite H5.
Qed.
End collaborator.

Section score_shape.
Context `{CifarNNLaws} (k : consts) (ly : layout) (files : fs).

(** C30: The shape a successful run prints (line 24) is [(n_test, K)]:
    one row of scores per test sample, the sample count of line 14. *)
Theorem main_with_prints_score_shape :
  prog_res (main_with k ly files) = Ok () →
  ∃ K d n a, prog_out (main_with k ly files) =
             [PrintRepr d; PrintRepr n; PrintShape [n_test k; K]; PrintFloat a].
Proof.
  intros (ti & tl & si & sl & ti' & si' & ds & net & res & pred & acc &
          _ & _ & Hsi & _ & _ & Hf & _ & _ & Hout)%main_with_Ok_inv.
  apply reshape_data in Hsi as [_ Hs].
  destruct (forward_shape net si' res (n_test k) _ Hs Hf) as (K & HK & _ & _).
  exists K, (repr_dataset ds), (repr_net SimpleNet), acc. by rewrite Hout, HK.
Qed.
End score_shape.

(** The dataset path of line 11. *)
Example resources_path_value : resources_path = "./../../resources/cifar10"%string.
Proof. reflexivity. Qed.

(** ** Scoring *)

Section scoring.
Local Abbreviation uint8 l := (Forall (λ y, 0 ≤ y < 256)%Z l).

Lemma matches_le (labels : list Z) (preds : list nat) :
  matches labels preds ≤ length labels.
Proof.
  unfold matches. etransitivity; [apply length_filter|].
  rewrite length_zip. lia.
Qed.

(** The int64 mask of line 28 counts exactly the matching samples. *)
Lemma mask_sum (labels : list Z) (preds : list nat) :
  length labels = length preds → uint8 labels →
  Forall (λ p, Z.of_nat p < 2 ^ 63)%Z preds →
  foldr Z.add 0%Z ((λ z, if decide (z = 0%Z) then 1%Z else 0%Z)
                     <$> zip_with sub_int64 labels (Z.of_nat <$> preds)) =
    Z.of_nat (matches labels preds).
Proof.
  revert preds; induction labels as [|y labels IH]; intros [|p preds] Hl Hy Hp;
    simpl in *; try done.
  apply Forall_cons in Hy as [Hy Hys]. apply Forall_cons in Hp as [Hp Hps].
  unfold matches in *; simpl. rewrite filter_cons.
  rewrite IH by (done || lia).
  pose proof (sub_int64_eq0 y (Z.of_nat p) ltac:(lia) ltac:(lia)).
  repeat case_decide; simpl; naive_solver lia.
Qed.

Lemma matches_self (preds : list nat) : matches (Z.of_nat <$> preds) preds = length preds.
Proof.
  unfold matches. induction preds as [|p preds IH]; [done|]. simpl.
  rewrite filter_cons, decide_True by done. simpl. f_equal. exact IH.
Qed.

Lemma matches_none (labels : list Z) (preds : list nat) :
  Forall2 (λ y p, y ≠ Z.of_nat p) labels preds → matches labels preds = 0.
Proof.
  unfold matches. induction 1 as [|y p labels preds Hyp _ IH]; [done|]. simpl.
  by rewrite filter_cons, decide_False.
Qed.

Lemma accuracy_of_1d (labels : list Z) (preds : list nat) :
  length labels = length preds → (Z.of_nat (length labels) < 2 ^ 63)%Z →
  uint8 labels → Forall (λ p, Z.of_nat p < 2 ^ 63)%Z preds →
  accuracy_of (of_list labels) (of_list preds) =
    Ok (true_divide (Z.of_nat (matches labels preds)) (length labels)).
Proof.
  intros Hl Hn Hy Hp. unfold accuracy_of, subtract.
  rewrite map_of_list, binop_1d_same by (rewrite length_fmap; lia). rewrite bind_Ok.
  unfold where_eq0, shape0, sum; simpl. rewrite length_zip_with, length_fmap.
  rewrite mask_sum by done. rewrite wrap_signed_small; [do 2 f_equal; lia|lia|].
  pose proof (matches_le labels preds). lia.
Qed.
End scoring.

(** ** Properties of the scoring *)

Section scoring_properties.
Local Abbreviation uint8 l := (Forall (λ y, 0 ≤ y < 256)%Z l).

(** C5: Lines 27-29 compute the fraction of samples whose label equals the
    prediction: for equal-length 1-d int64 labels and predictions (uint8
    labels, non-empty), the accuracy is [matches / n]. *)
Theorem accuracy_of_correct (labels : list Z) (preds : list nat) :
  length labels = length preds → length labels ≠ 0 →
  (Z.of_nat (length labels) < 2 ^ 63)%Z →
  uint8 labels → Forall (λ p, Z.of_nat p < 2 ^ 63)%Z preds →
  accuracy_of (of_list labels) (of_list preds) =
    Ok (F64 (inject_Z (Z.of_nat (matches labels preds)) / inject_Z (Z.of_nat (length labels)))).
Proof. intros. rewrite accuracy_of_1d by done. by rewrite true_divide_pos. Qed.

(** For equal-length, non-empty uint8 labels and int64 predictions, the
    accuracy of lines 27-29 is a number in [0, 1]. *)
Theorem accuracy_of_bounds (labels : list Z) (preds : list nat) :
  length labels = length preds → length labels ≠ 0 →
  (Z.of_nat (length labels) < 2 ^ 63)%Z →
  uint8 labels → Forall (λ p, Z.of_nat p < 2 ^ 63)%Z preds →
  ∃ q, accuracy_of (of_list labels) (of_list preds) = Ok (F64 q) ∧ (0 <= q <= 1)%Q.
Proof.
  intros. eexists. rewrite accuracy_of_1d by done. rewrite true_divide_pos by done.
  split; [done|]. apply Q_ratio_bounds; [apply matches_le|lia].
Qed.

(** Predictions that all equal their labels score accuracy 1. *)
Theorem accuracy_of_all_match (preds : list nat) :
  length preds ≠ 0 → (Z.of_nat (length preds) < 2 ^ 63)%Z →
  Forall (λ p, Z.of_nat p < 256)%Z preds →
  ∃ q, accuracy_of (of_list (Z.of_nat <$> preds)) (of_list preds) = Ok (F64 q) ∧ q == 1%Q.
Proof.
  intros Hn Hb Hp. eexists. pose proof uint8_lt_pow63.
  rewrite accuracy_of_1d; rewrite ?length_fmap; try done.
  2: { apply Forall_fmap. eapply Forall_impl; [exact Hp|]. intros x ?; cbn in *. lia. }
  2: { eapply Forall_impl; [exact Hp|]. intros x ?; cbn in *. lia. }
  rewrite true_divide_pos by done. split; [done|].
  rewrite matches_self. apply Q_ratio_one. lia.
Qed.

(** Predictions that all differ from their labels score accuracy 0. *)
Theorem accuracy_of_none_match (labels : list Z) (preds : list nat) :
  Forall2 (λ y p, y ≠ Z.of_nat p) labels preds → length labels ≠ 0 →
  (Z.of_nat (length labels) < 2 ^ 63)%Z →
  uint8 labels → Forall (λ p, Z.of_nat p < 2 ^ 63)%Z preds →
  ∃ q, accuracy_of (of_list labels) (of_list preds) = Ok (F64 q) ∧ q == 0%Q.
Proof.
  intros Hne Hn Hb Hy Hp. pose proof (Forall2_length _ _ _ Hne) as Hl.
  eexists. rewrite accuracy_of_1d by done. rewrite true_divide_pos by done.
  split; [done|]. rewrite matches_none by done. apply Q_ratio_zero.
Qed.

(** C34: A single prediction is broadcast against all the labels: lines
    27-29 then score it as if it had been repeated for every sample,
    instead of reporting the length mismatch. *)
Theorem accuracy_of_broadcast_single (labels : list Z) (p : nat) :
  accuracy_of (of_list labels) (of_list [p]) =
    accuracy_of (of_list labels) (of_list (replicate (length labels) p)).
Proof.
  destruct (decide (length labels = 1)) as [E|E]; [by rewrite E|].
  unfold accuracy_of, subtract. rewrite !map_of_list. simpl.
  rewrite binop_1d_scalar_r, binop_1d_same by (rewrite length_fmap, length_replicate; lia).
  rewrite fmap_replicate, zip_with_replicate_r_eq by done. done.
Qed.

(** C35: Predictions and labels of different lengths, neither of length one,
    raise numpy's broadcast ValueError at line 27. *)
Theorem accuracy_of_length_mismatch (labels : list Z) (preds : list nat) :
  length labels ≠ length preds → length labels ≠ 1 → length preds ≠ 1 →
  accuracy_of (of_list labels) (of_list preds) =
    raise (BroadcastError [length labels] [length preds]).
Proof.
  intros Hne H1 H2. unfold accuracy_of, subtract. rewrite map_of_list.
  rewrite binop_1d_Err; rewrite ?length_fmap; [done|]. by apply bcast_dim_None.
Qed.

(** With no test sample the accuracy is [0/0]: NaN, outside [0, 1]. *)
Theorem accuracy_of_empty : accuracy_of (of_list []) (of_list []) = Ok F64_nan.
Proof. reflexivity. Qed.

(** C2: Lines 25-29 implement the specification of the scoring: on NaN-free
    scores, the printed accuracy is the fraction of samples whose label
    is the first class of maximal score. *)
Theorem score_refines_spec (res : ndarray fscore) (labels : list Z) (K : nat) :
  wf res → shape res = [length labels; K] → K ≠ 0 → length labels ≠ 0 →
  (Z.of_nat (length labels) < 2 ^ 63)%Z → (Z.of_nat K < 2 ^ 63)%Z →
  uint8 labels → Forall (λ x, fisnan x = false) (data res) →
  ∃ pred q, argmax_axis1 fle fisnan res = Ok pred ∧
            accuracy_of (of_list labels) pred = Ok (F64 q) ∧
            spec_accuracy labels (rows (length labels) K (data res)) q.
Proof.
  intros Hwf Hs HK Hn Hb HbK Hy Hnan.
  destruct (argmax_axis1_first_max res _ K Hwf Hs HK Hnan) as (preds & Ha & Hlp & HpK & Hfm).
  exists (of_list preds). eexists. split; [done|].
  rewrite accuracy_of_1d, true_divide_pos
    by first [done | lia | eapply Forall_impl; [exact HpK|]; intros; simpl in *; lia].
  split; [done|]. by exists preds.
Qed.
End scoring_properties.

(** ** The whole run *)

(** The accuracy lines 25-29 compute from [n] uint8 labels and a
    well-formed [(n, K)] score array is the quotient of a count of at most
    [n] (the matching predictions) by [n]. *)
Lemma scored_accuracy_count (labels : list Z) (res : ndarray fscore) (pred : ndarray nat)
    (acc : f64) (n K : nat) :
  length labels = n → Forall (λ y, 0 ≤ y < 256)%Z labels → (Z.of_nat n < 2 ^ 63)%Z →
  shape res = [n; K] → wf res → (Z.of_nat K < 2 ^ 63)%Z →
  argmax_axis1 fle fisnan res = Ok pred → accuracy_of (of_list labels) pred = Ok acc →
  matches labels (data pred) ≤ n ∧ acc = true_divide (Z.of_nat (matches labels (data pred))) n.
Proof.
  intros Hl Hu8 Hn63 Hrs Hwr HK Ham Hacc.
  destruct (argmax_axis1_bound fle fisnan res pred _ K Hwr Hrs Ham) as (Hps & Hpl & HpK).
  rewrite (of_list_data pred n) in Hacc; [|unfold wf, size, shape_size; rewrite Hps; simpl; lia|done].
  rewrite accuracy_of_1d in Hacc
    by first [done | lia | eapply Forall_impl; [exact HpK|]; intros; simpl in *; lia].
  injection Hacc as <-. rewrite <- Hl. split; [apply matches_le|done].
Qed.

(** The accuracy lines 25-29 compute from [n > 0] uint8 labels and a
    well-formed [(n, K)] score array is a number in [0, 1]. *)
Lemma scored_accuracy_bounds (labels : list Z) (res : ndarray fscore) (pred : ndarray nat)
    (acc : f64) (n K : nat) :
  length labels = n → Forall (λ y, 0 ≤ y < 256)%Z labels → 0 < n → (Z.of_nat n < 2 ^ 63)%Z →
  shape res = [n; K] → wf res → (Z.of_nat K < 2 ^ 63)%Z →
  argmax_axis1 fle fisnan res = Ok pred → accuracy_of (of_list labels) pred = Ok acc →
  ∃ q, acc = F64 q ∧ (0 <= q <= 1)%Q.
Proof.
  intros Hl Hu8 Hn Hn63 Hrs Hwr HK Ham Hacc.
  destruct (scored_accuracy_count labels res pred acc n K) as (Hc & ->); try done.
  rewrite true_divide_pos by lia. eexists. split; [done|]. apply Q_ratio_bounds; lia.
Qed.

Section main_properties.
Context `{CifarNNLaws} (k : consts) (ly : layout) (files : fs).
(** The literals of lines 13-14 agree with the images of the dataset,
    which have at least one pixel, and the test split is not empty. *)
Hypothesis Hshape : img_c k * img_h k * img_w k = pixel_count ly.
Hypothesis Hpix : 0 < pixel_count ly.
Hypothesis Htest : 0 < n_test k.
Hypothesis Htest63 : (Z.of_nat (n_test k) < 2 ^ 63)%Z.

(** What a successful run scored: its [n_test] uint8 test labels against
    the argmax of the [(n_test, K)] scores its network returned, the
    accuracy printed last. *)
Lemma main_with_scoring_inputs :
  prog_res (main_with k ly files) = Ok () →
  ∃ sl res pred acc K,
    scored_run k ly files sl res pred ∧
    length (data sl) = n_test k ∧ Forall (λ y, 0 ≤ y < 256)%Z (data sl) ∧
    shape res = [n_test k; K] ∧ wf res ∧ (Z.of_nat K < 2 ^ 63)%Z ∧
    accuracy_of (of_list (data sl)) pred = Ok acc ∧
    last (prog_out (main_with k ly files)) = Some (PrintFloat acc).
Proof.
  intros (ti & tl & si & sl & ti' & si' & ds & net & res & pred & acc & Hload & Hti & Hsi
          & Hds & Htr & Hfw & Ham & Hacc & Hout)%main_with_Ok_inv.
  assert (scored_run k ly files sl res pred) as Hrun by (do 7 eexists; eauto 10).
  apply cifar10_Ok in Hload as (train & test & _ & Hte & _ & Hsplit).
  pose proof (load_files_split_ok ly files _ _ _ Hte) as (m & Hsis & Hsls & Hwsi & Hwsl & _ & Hu8).
  rewrite <- Hsplit in Hsis, Hsls, Hwsi, Hwsl, Hu8. simpl in Hsis, Hsls, Hwsi, Hwsl, Hu8.
  apply reshape_Ok_iff in Hsi as [Hsz ->].
  assert (m = n_test k) as ->.
  { unfold size, shape_size in Hsz. rewrite Hsis in Hsz. simpl in Hsz.
    apply (Nat.mul_cancel_r _ _ (pixel_count ly)); [lia|]. rewrite <- Hshape. lia. }
  destruct (forward_shape net (mk [n_test k; img_c k; img_h k; img_w k] (data si)) res (n_test k) _
            eq_refl Hfw) as (K & Hrs & Hwr & HK).
  rewrite (of_list_data sl (n_test k)) in Hacc by done.
  exists sl, res, pred, acc, K.
  unfold wf, size, shape_size in Hwsl. rewrite Hsls in Hwsl. simpl in Hwsl.
  repeat split; try done; [lia|]. by rewrite Hout.
Qed.

(** C3: Whatever the network computes, a successful run prints an
    accuracy in [0, 1]. *)
Theorem main_with_accuracy_bounds :
  prog_res (main_with k ly files) = Ok () →
  ∃ q, last (prog_out (main_with k ly files)) = Some (PrintFloat (F64 q)) ∧ (0 <= q <= 1)%Q.
Proof.
  intros (sl & res & pred & acc & K & Hrun & Hl & Hu8 & Hrs & Hwr & HK & Hacc & Hout)
    %main_with_scoring_inputs.
  destruct (scored_accuracy_bounds (data sl) res pred acc (n_test k) K) as (q & -> & Hq); try done.
  - by eapply scored_run_argmax.
  - by exists q.
Qed.

(** C1: A successful run prints the accuracy the specification defines
    for the test labels it loaded and the scores its network returned,
    whenever those scores are NaN-free: [sl], [res] and [pred] are the
    run's own values ([scored_run], determined by the inputs by
    [scored_run_det]). *)
Theorem main_with_refines_spec :
  prog_res (main_with k ly files) = Ok () →
  ∃ sl res pred acc K,
    scored_run k ly files sl res pred ∧ shape res = [n_test k; K] ∧
    last (prog_out (main_with k ly files)) = Some (PrintFloat acc) ∧
    (Forall (λ x, fisnan x = false) (data res) →
     ∃ q, acc = F64 q ∧ spec_accuracy (data sl) (rows (n_test k) K (data res)) q).
Proof.
  intros (sl & res & pred & acc & K & Hrun & Hl & Hu8 & Hrs & Hwr & HK & Hacc & Hout)
    %main_with_scoring_inputs.
  exists sl, res, pred, acc, K. do 3 (split; [done|]). intros Hnan.
  pose proof (scored_run_argmax _ _ _ _ _ _ Hrun) as Ham.
  assert (K ≠ 0) as HK0.
  { intros ->. by rewrite (argmax_axis1_empty fle fisnan res (n_test k)) in Ham. }
  destruct (argmax_axis1_first_max res _ K Hwr Hrs HK0 Hnan) as (preds & Ha & Hlp & HpK & Hfm).
  rewrite Ham in Ha. injection Ha as ->.
  rewrite accuracy_of_1d, true_divide_pos in Hacc
    by first [done | lia | eapply Forall_impl; [exact HpK|]; intros; simpl in *; lia].
  injection Hacc as <-. eexists. split; [done|]. exists preds. split; [done|].
  by rewrite Hl.
Qed.
End main_properties.

(** ** The output of a run *)

Section output.
Context `{CifarNN} (k : consts) (ly : layout) (files : fs).

(** A run that completes prints exactly four lines: the dataset, the
    network, the shape of the scores and the accuracy. *)
Theorem main_with_prints_four_lines :
  prog_res (main_with k ly files) = Ok () →
  ∃ d n s a, prog_out (main_with k ly files) =
             [PrintRepr d; PrintRepr n; PrintShape s; PrintFloat a].
Proof.
  intros (? & ? & ? & ? & ? & ? & ds & net & res & ? & acc & _ & _ & _ & _ & _ & _ & _ & _ & Hout)
    %main_with_Ok_inv.
  by exists (repr_dataset ds), (repr_net SimpleNet), (shape res), acc.
Qed.

(* A step that raised: the lines printed so far are a prefix of the
   first three, none an accuracy. *)
Local Ltac failed_step := intros _; split; [simpl; lia|by solve_Forall].

(** C28: A run that raises printed at most three lines (the dataset, the
    network, the shape of the scores), and never an accuracy. *)
Theorem main_with_Err_no_accuracy (e : exn) :
  prog_res (main_with k ly files) = Err e →
  length (prog_out (main_with k ly files)) ≤ 3 ∧
  Forall (λ o, ∀ a, o ≠ PrintFloat a) (prog_out (main_with k ly files)).
Proof.
  unfold main_with, np, ext.
  destruct (cifar10 ly files resources_path) as [[[[ti tl] si] sl]|e']; [|failed_step].
  cbn [map_err]. rewrite lift_Ok_bind.
  destruct (reshape ti _) as [ti'|e']; [|failed_step]. cbn [map_err]. rewrite lift_Ok_bind.
  destruct (reshape si _) as [si'|e']; [|failed_step]. cbn [map_err]. rewrite lift_Ok_bind.
  destruct (Dataset ti' tl) as [ds|e']; [|failed_step]. cbn [map_err]. rewrite lift_Ok_bind, !emit_bind.
  destruct (train SimpleNet ds (epochs k)) as [net|e']; [|failed_step].
  cbn [map_err]. rewrite lift_Ok_bind.
  destruct (forward net si') as [res|e']; [|failed_step].
  cbn [map_err]. rewrite lift_Ok_bind, emit_bind.
  destruct (argmax_axis1 fle fisnan res) as [pred|e']; [|failed_step].
  cbn [map_err]. rewrite lift_Ok_bind.
  destruct (accuracy_of sl pred) as [acc|e']; [|failed_step].
  cbn [map_err]. by rewrite lift_Ok_bind.
Qed.

(** A test split whose size is not the literal of line 14 stops the run
    at a reshape, before anything is printed. *)
Lemma main_with_test_count (ti tl si sl : ndarray Z) :
  img_c k * img_h k * img_w k = pixel_count ly → 0 < pixel_count ly →
  cifar10 ly files resources_path = Ok (ti, tl, si, sl) → length (data sl) ≠ n_test k →
  ∃ sz s, prog_res (main_with k ly files) = raise (NumpyError (ReshapeError sz s)) ∧
          prog_out (main_with k ly files) = [].
Proof.
  intros Hshape Hpix Hload Hlen.
  pose proof Hload as Hl. apply cifar10_Ok in Hl as (train & test & _ & Hte & _ & Hsplit).
  pose proof (load_files_split_ok ly files _ _ _ Hte) as (m & Hsis & Hsls & _ & Hwsl & _).
  rewrite <- Hsplit in Hsis, Hsls, Hwsl. simpl in Hsis, Hsls, Hwsl.
  unfold wf, size, shape_size in Hwsl. rewrite Hsls in Hwsl. simpl in Hwsl.
  unfold main_with, np, ext. rewrite Hload. cbn [map_err]. rewrite lift_Ok_bind.
  destruct (reshape ti _) as [ti'|e] eqn:Hti; cbn [map_err].
  2: { apply reshape_Err_iff in Hti as [_ ->]. by do 2 eexists. }
  rewrite lift_Ok_bind.
  destruct (reshape si _) as [si'|e] eqn:Hsi; cbn [map_err].
  - exfalso. apply reshape_Ok_iff in Hsi as [Hsz _].
    unfold size, shape_size in Hsz. rewrite Hsis in Hsz. simpl in Hsz.
    apply Hlen. rewrite Hwsl.
    apply (Nat.mul_cancel_r _ _ (pixel_count ly)); [lia|]. rewrite <- Hshape. lia.
  - apply reshape_Err_iff in Hsi as [_ ->]. by do 2 eexists.
Qed.
(** A training split of another size than [n_train] stops the run at
    the reshape of line 13, before anything is printed. *)
Lemma main_with_train_count (ti tl si sl : ndarray Z) :
  img_c k * img_h k * img_w k = pixel_count ly → 0 < pixel_count ly →
  cifar10 ly files resources_path = Ok (ti, tl, si, sl) → length (data tl) ≠ n_train k →
  ∃ sz s, prog_res (main_with k ly files) = raise (NumpyError (ReshapeError sz s)) ∧
          prog_out (main_with k ly files) = [].
Proof.
  intros Hshape Hpix Hload Hlen.
  pose proof Hload as Hl. apply cifar10_Ok in Hl as (train & test & Htr & _ & Hsplit & _).
  pose proof (load_files_split_ok ly files _ _ _ Htr) as (m & Htis & Htls & _ & Hwtl & _).
  rewrite <- Hsplit in Htis, Htls, Hwtl. simpl in Htis, Htls, Hwtl.
  unfold wf, size, shape_size in Hwtl. rewrite Htls in Hwtl. simpl in Hwtl.
  unfold main_with, np, ext. rewrite Hload. cbn [map_err]. rewrite lift_Ok_bind.
  destruct (reshape ti _) as [ti'|e] eqn:Hti; cbn [map_err].
  - exfalso. apply reshape_Ok_iff in Hti as [Hsz _].
    unfold size, shape_size in Hsz. rewrite Htis in Hsz. simpl in Hsz.
    apply Hlen. rewrite Hwtl.
    apply (Nat.mul_cancel_r _ _ (pixel_count ly)); [lia|]. rewrite <- Hshape. lia.
  - apply reshape_Err_iff in Hti as [_ ->]. by do 2 eexists.
Qed.
End output.

(** C31: [main] reshapes the test images to exactly 10000 samples (line 14):
    with any other number of test records it stops with numpy's
    ValueError and prints nothing. *)
Theorem main_literal_test_count_fails `{CifarNN} (files : fs) (ti tl si sl : ndarray Z) :
  cifar10 cifar10_layout files resources_path = Ok (ti, tl, si, sl) →
  length (data sl) ≠ 10000 →
  ∃ sz s, prog_res (main files) = raise (NumpyError (ReshapeError sz s)) ∧ prog_out (main files) = [].
Proof.
  intros Hload Hlen. apply (main_with_test_count _ _ _ ti tl si sl); try done.
  unfold pixel_count; simpl. lia.
Qed.

(** C32: The training split is reshaped with the literal 50000 (line 13):
    a dataset whose training split has any other number of samples makes
    [main()] raise numpy's ValueError at line 13, with nothing printed. *)
Theorem main_literal_train_count_fails `{CifarNN} (files : fs) (ti tl si sl : ndarray Z) :
  cifar10 cifar10_layout files resources_path = Ok (ti, tl, si, sl) →
  length (data tl) ≠ 50000 →
  ∃ sz s, prog_res (main files) = raise (NumpyError (ReshapeError sz s)) ∧ prog_out (main files) = [].
Proof.
  intros Hload Hlen. apply (main_with_train_count _ _ _ ti tl si sl); try done.
  unfold pixel_count; simpl. lia.
Qed.

(** ** A network that always predicts one class *)

Lemma one_hot_first_max (classes favored : nat) :
  favored < classes → first_max fle (Mock.one_hot classes favored) favored.
Proof.
  intros Hf. unfold Mock.one_hot. exists (Fin 1). split.
  - rewrite list_lookup_fmap, lookup_seq_lt by done. simpl. by rewrite decide_True.
  - split.
    + intros j x. rewrite list_lookup_fmap. destruct (seq 0 classes !! j); [|done].
      intros [= <-]. by case_decide.
    + intros j x Hj. rewrite list_lookup_fmap. destruct (seq 0 classes !! j) as [j'|] eqn:E; [|done].
      apply lookup_seq in E as [-> _]. intros [= <-]. by rewrite decide_False by lia.
Qed.

Lemma mock_scores_not_nan (n classes favored : nat) :
  Forall (λ x, fisnan x = false) (mjoin (replicate n (Mock.one_hot classes favored))).
Proof.
  induction n as [|n IH]; simpl; [constructor|]. apply Forall_app; split; [|done].
  unfold Mock.one_hot. apply Forall_fmap, Forall_forall. intros j _. simpl. by case_decide.
Qed.

Lemma matches_replicate (labels : list Z) (p : nat) :
  matches labels (replicate (length labels) p) = length (filter (λ y, y = Z.of_nat p) labels).
Proof.
  unfold matches. induction labels as [|y labels IH]; [done|]. simpl.
  rewrite !filter_cons. simpl. case_decide; simpl; by rewrite IH.
Qed.

Section constant_class.
Context (classes favored : nat) (k : consts) (ly : layout) (files : fs).
Hypothesis Hfav : favored < classes.
Hypothesis Hcl63 : (Z.of_nat classes < 2 ^ 63)%Z.
Hypothesis Hshape : img_c k * img_h k * img_w k = pixel_count ly.
Hypothesis Hpix : 0 < pixel_count ly.
Hypothesis Htest : 0 < n_test k.
Hypothesis Htest63 : (Z.of_nat (n_test k) < 2 ^ 63)%Z.

Abbreviation mock_run := (@main_with (Mock.mock classes favored) k ly files).

(** C33: With a network that scores every image highest for class
    [favored] (the specification's end-to-end scenario), a successful run
    prints the share of the loaded test labels equal to [favored].  For the
    labels 3, 3, 7, 1 and class 3 this is 2/4, where the specification
    states 0.25. *)
Theorem main_with_constant_class :
  prog_res mock_run = Ok () →
  ∃ ti tl si sl, cifar10 ly files resources_path = Ok (ti, tl, si, sl) ∧
    last (prog_out mock_run) =
      Some (PrintFloat (true_divide (Z.of_nat (length (filter (λ y, y = Z.of_nat favored) (data sl))))
                                    (n_test k))).
Proof.
  intros Hok.
  destruct (@main_with_scoring_inputs (Mock.mock classes favored) (Mock.mock_laws classes favored Hcl63)
              k ly files Hshape Hpix Htest Hok)
    as (sl & res & pred & acc & K & Hrun & Hl & Hu8 & Hrs & Hwr & HK & Hacc & Hout).
  destruct Hrun as (ti & tl & si & ti' & si' & ds & net & H1 & _ & H3 & _ & _ & H6 & H7).
  exists ti, tl, si, sl. split; [done|]. rewrite Hout.
  apply reshape_Ok_iff in H3 as [_ ->]. simpl in H6. unfold Mock.mock_forward in H6. simpl in H6.
  injection H6 as <-.
  assert (Forall (λ r, length r = classes) (replicate (n_test k) (Mock.one_hot classes favored)))
    as Hlen by (apply Forall_replicate, Mock.length_one_hot).
  destruct (argmax_axis1_first_max _ (n_test k) classes Hwr eq_refl ltac:(lia) (mock_scores_not_nan _ _ _))
    as (preds & Ha & Hlp & HpK & Hfm).
  rewrite H7 in Ha. injection Ha as ->. cbn [data] in Hfm.
  assert (rows (n_test k) classes (mjoin (replicate (n_test k) (Mock.one_hot classes favored))) =
          replicate (n_test k) (Mock.one_hot classes favored)) as Hrows.
  { rewrite <- (length_replicate (n_test k) (Mock.one_hot classes favored)) at 1. by apply rows_join. }
  rewrite Hrows in Hfm.
  assert (preds = replicate (n_test k) favored) as ->.
  { symmetry. apply replicate_as_Forall. split; [done|].
    apply Forall_lookup. intros i p Hi.
    destruct (Forall2_lookup_r _ _ _ i p Hfm Hi) as (r & Hr & Hp).
    apply lookup_replicate in Hr as [-> _].
    eapply first_max_unique; [by apply one_hot_first_max|exact Hp]. }
  rewrite accuracy_of_1d in Hacc.
  - injection Hacc as <-. by rewrite <- Hl, matches_replicate.
  - by rewrite length_replicate.
  - lia.
  - done.
  - apply Forall_replicate. lia.
Qed.
End constant_class.

(** The specification's scenario: labels 3, 3, 7, 1 against a network
    that always predicts 3.  The code prints 2/4; the specification
    states 0.25. *)
Example spec_scenario_accuracy :
  prog_out (@main_with (Mock.mock 10 3) Scenario.k Scenario.ly Scenario.files) =
    [PrintRepr "<Dataset>"; PrintRepr "<SimpleNet>"; PrintShape [4; 10];
     PrintFloat (F64 (2 # 4))].
Proof. vm_compute. reflexivity. Qed.

(** ** Instances *)

Abbreviation scenario_run := (@main_with (Mock.mock 10 3) Scenario.k Scenario.ly Scenario.files).

Lemma main_with_refines_spec_witness :
  ∃ sl res pred acc K,
    @scored_run (Mock.mock 10 3) Scenario.k Scenario.ly Scenario.files sl res pred ∧
    shape res = [n_test Scenario.k; K] ∧
    last (prog_out scenario_run) = Some (PrintFloat acc) ∧
    (Forall (λ x, fisnan x = false) (data res) →
     ∃ q, acc = F64 q ∧ spec_accuracy (data sl) (rows (n_test Scenario.k) K (data res)) q).
Proof.
  apply (@main_with_refines_spec (Mock.mock 10 3) (Mock.mock_laws 10 3 eq_refl)).
  all: try (vm_compute; reflexivity).
  all: vm_compute; lia.
Defined.

Lemma main_with_accuracy_bounds_witness :
  ∃ q, last (prog_out scenario_run) = Some (PrintFloat (F64 q)) ∧ (0 <= q <= 1)%Q.
Proof.
  apply (@main_with_accuracy_bounds (Mock.mock 10 3) (Mock.mock_laws 10 3 eq_refl)).
  all: try (vm_compute; reflexivity).
  all: vm_compute; lia.
Defined.

Lemma score_refines_spec_witness :
  ∃ pred q,
    argmax_axis1 fle fisnan (mk [2; 3] [Fin 1; Fin 3; Fin 2; Fin 5; Fin 4; Fin 5]) = Ok pred ∧
    accuracy_of (of_list [1; 2]%Z) pred = Ok (F64 q) ∧
    spec_accuracy [1; 2]%Z (rows 2 3 [Fin 1; Fin 3; Fin 2; Fin 5; Fin 4; Fin 5]) q.
Proof.
  apply (score_refines_spec (mk [2; 3] [Fin 1; Fin 3; Fin 2; Fin 5; Fin 4; Fin 5]) [1; 2]%Z 3).
  all: try reflexivity.
  all: simpl; solve_Forall; concrete.
Defined.

Lemma accuracy_of_correct_witness :
  accuracy_of (of_list [3; 3; 7; 1]%Z) (of_list [3; 3; 3; 3]) =
    Ok (F64 (inject_Z (Z.of_nat (matches [3; 3; 7; 1]%Z [3; 3; 3; 3])) / inject_Z (Z.of_nat 4))).
Proof.
  apply accuracy_of_correct; solve_Forall; concrete.
Defined.

Lemma accuracy_of_bounds_witness :
  ∃ q, accuracy_of (of_list [3; 3; 7; 1]%Z) (of_list [3; 3; 3; 3]) = Ok (F64 q) ∧ (0 <= q <= 1)%Q.
Proof.
  apply accuracy_of_bounds; solve_Forall; concrete.
Defined.

Lemma accuracy_of_all_match_witness :
  ∃ q, accuracy_of (of_list (Z.of_nat <$> [3; 7; 1])) (of_list [3; 7; 1]) = Ok (F64 q) ∧ q == 1%Q.
Proof.
  apply accuracy_of_all_match; solve_Forall; concrete.
Defined.

Lemma accuracy_of_none_match_witness :
  ∃ q, accuracy_of (of_list [3; 3; 7; 1]%Z) (of_list [2; 2; 2; 2]) = Ok (F64 q) ∧ q == 0%Q.
Proof.
  apply accuracy_of_none_match; solve_Forall; concrete.
Defined.

Lemma accuracy_of_length_mismatch_witness :
  accuracy_of (of_list [3; 3; 7; 1]%Z) (of_list [3; 3]) = raise (BroadcastError [4] [2]).
Proof. apply (accuracy_of_length_mismatch [3; 3; 7; 1]%Z [3; 3]); simpl; lia. Defined.

Lemma main_with_prints_four_lines_witness :
  ∃ d n s a, prog_out scenario_run = [PrintRepr d; PrintRepr n; PrintShape s; PrintFloat a].
Proof. apply main_with_prints_four_lines. vm_compute. reflexivity. Defined.

Lemma main_with_Err_no_accuracy_witness :
  length (prog_out (@main_with (Mock.mock 10 3)
            {| n_train := 2; n_test := 4; img_c := 1; img_h := 1; img_w := 2; epochs := 0 |}
            Scenario.ly Scenario.files)) ≤ 3 ∧
  Forall (λ o, ∀ a, o ≠ PrintFloat a) (prog_out (@main_with (Mock.mock 10 3)
            {| n_train := 2; n_test := 4; img_c := 1; img_h := 1; img_w := 2; epochs := 0 |}
            Scenario.ly Scenario.files)).
Proof.
  apply (main_with_Err_no_accuracy _ _ _ (ExtensionError "InvalidArgumentError")).
  vm_compute. reflexivity.
Defined.

Lemma main_literal_test_count_fails_witness :
  ∃ sz s, prog_res (@main (Mock.mock 10 3) Scenario.cifar_files) =
            raise (NumpyError (ReshapeError sz s)) ∧
          prog_out (@main (Mock.mock 10 3) Scenario.cifar_files) = [].
Proof.
  apply (main_literal_test_count_fails Scenario.cifar_files
           (to_arrays cifar10_layout []).1 (to_arrays cifar10_layout []).2
           (to_arrays cifar10_layout (decoded Scenario.cifar_test_recs)).1
           (to_arrays cifar10_layout (decoded Scenario.cifar_test_recs)).2).
  - vm_compute. reflexivity.
  - vm_compute. discriminate.
Defined.

Lemma main_with_loads_iff_witness :
  Forall (file_ok Scenario.ly Scenario.files) (expected_paths Scenario.ly resources_path).
Proof.
  apply (main_with_loads_iff (H:=Mock.mock 10 3) Scenario.k Scenario.ly Scenario.files).
  intros e. vm_compute. discriminate.
Defined.

Lemma main_with_LoadError_witness :
  prog_out (main_with (H:=Mock.mock 10 3) Scenario.k Scenario.ly (delete (os_path_join resources_path ["t"]) Scenario.files)) = [] ∧
  error_path (DatasetNotFoundError (os_path_join resources_path ["t"])) ∈ expected_paths Scenario.ly resources_path ∧
  error_justified Scenario.ly (delete (os_path_join resources_path ["t"]) Scenario.files)
    (DatasetNotFoundError (os_path_join resources_path ["t"])).
Proof. apply main_with_LoadError. vm_compute. reflexivity. Defined.

Lemma main_with_train_error_witness :
  @main_with (Mock.mock 10 3)
    {| n_train := 2; n_test := 4; img_c := 1; img_h := 1; img_w := 2; epochs := 0 |}
    Scenario.ly Scenario.files =
  Prog [PrintRepr "<Dataset>"; PrintRepr "<SimpleNet>"] (Err (ExtensionError "InvalidArgumentError")).
Proof. eapply (main_with_train_error (H:=Mock.mock 10 3)); reflexivity. Defined.

Lemma main_with_prints_score_shape_witness :
  ∃ K d n a, prog_out scenario_run =
             [PrintRepr d; PrintRepr n; PrintShape [n_test Scenario.k; K]; PrintFloat a].
Proof.
  apply (@main_with_prints_score_shape (Mock.mock 10 3) (Mock.mock_laws 10 3 eq_refl)).
  vm_compute. reflexivity.
Defined.

Lemma main_with_constant_class_witness :
  ∃ ti tl si sl, cifar10 Scenario.ly Scenario.files resources_path = Ok (ti, tl, si, sl) ∧
    last (prog_out scenario_run) =
      Some (PrintFloat (true_divide (Z.of_nat (length (filter (λ y, y = Z.of_nat 3) (data sl))))
                                    (n_test Scenario.k))).
Proof.
  apply (main_with_constant_class 10 3); try (vm_compute; reflexivity); vm_compute; lia.
Defined.

Lemma main_literal_train_count_fails_witness :
  ∃ sz s, prog_res (@main (Mock.mock 10 3) Scenario.cifar_files) =
            raise (NumpyError (ReshapeError sz s)) ∧
          prog_out (@main (Mock.mock 10 3) Scenario.cifar_files) = [].
Proof.
  apply (main_literal_train_count_fails Scenario.cifar_files
           (to_arrays cifar10_layout []).1 (to_arrays cifar10_layout []).2
           (to_arrays cifar10_layout (decoded Scenario.cifar_test_recs)).1
           (to_arrays cifar10_layout (decoded Scenario.cifar_test_recs)).2).
  - vm_compute. reflexivity.
  - change (length (data (to_arrays cifar10_layout []).2)) with 0. discriminate.
Defined.

End Main.
