(* ===== verification/Print.v ===== *)
(** * The text [print] writes (lines 17, 19, 24 and 31)

    [print(res.shape)] writes the tuple [res.shape] the way Python
    formats a tuple of ints: [()] for the empty tuple, [(n,)] for one
    element, [(a, b, ...)] otherwise, each int in decimal ([str]).  This
    file gives that text ([repr_shape]) and a parser for it
    ([parse_shape]), and proves that the printed line gives the shape back:
    a reader of the output recovers [(n_test, K)] exactly.  The accuracy
    (line 31) is written as [repr] of the float numpy computes
    ([Float.float_repr]). *)

From stdpp Require Import base list sets strings.
From Stdlib Require Import Ascii DecimalString DecimalNat Lia.
From S2P Require Import Prelude Ufunc Float Main.

Module Print.
Import Ufunc Float Main.

(** [str(n)] for a non-negative int: its decimal digits. *)
Definition str_nat (n : nat) : string := NilZero.string_of_uint (Nat.to_uint n).

(** [repr(t)] of a tuple of ints, which [print] writes for a shape. *)
Definition repr_shape (s : list nat) : string :=
  match s with
  | [] => "()"
  | [n] => "(" +:+ str_nat n +:+ ",)"
  | _ => "(" +:+ String.concat ", " (str_nat <$> s) +:+ ")"
  end.

(** The text of a printed line: the repr of the dataset and of the
    network is the extension's, the shape is formatted by Python, and the
    accuracy is [repr] of the float numpy computes, the exact quotient
    rounded to the nearest float ([Float.np_true_divide_refines]). *)
Definition line_text (o : output) : string :=
  match o with
  | PrintRepr s => s
  | PrintShape s => repr_shape s
  | PrintFloat v => float_repr (f64_round v)
  end.

(** ** Reading a printed shape back *)

Definition parse_nat (x : list ascii) : option nat :=
  Nat.of_uint <$> NilZero.uint_of_string (String.string_of_list_ascii x).

(** An element after the first: a space, then the digits. *)
Definition parse_item (y : list ascii) : option nat :=
  match y with
  | c :: y' => if Ascii.eqb c " " then parse_nat y' else None
  | [] => None
  end.

(** The text between the parentheses: nothing, [n,], or [a, b, ...]. *)
Definition parse_inner (inner : list ascii) : option (list nat) :=
  if bool_decide (inner = []) then Some []
  else
    match split_on "," inner with
    | x :: ys =>
        n ← parse_nat x;
        match ys with
        | [] => None
        | [[]] => Some [n]
        | _ => ns ← mapM parse_item ys; Some (n :: ns)
        end
    | [] => None
    end.

Definition parse_shape (s : string) : option (list nat) :=
  match String.list_ascii_of_string s with
  | c :: rest =>
      if Ascii.eqb c "(" && bool_decide (last rest = Some ")"%char)
      then parse_inner (removelast rest) else None
  | [] => None
  end.

(** ** Properties *)

Local Abbreviation chars := String.list_ascii_of_string.

Lemma chars_app (a b : string) : chars (a +:+ b) = chars a ++ chars b.
Proof. induction a as [|c a IH]; simpl; [done|]. by rewrite IH. Qed.

Lemma str_nat_no_comma n : ","%char ∉ chars (str_nat n).
Proof.
  unfold str_nat. generalize (Nat.to_uint n) as d.
  assert (∀ d, ","%char ∉ chars (NilEmpty.string_of_uint d)) as H.
  { induction d; simpl; [set_solver|..]; intros [Heq|Hin]%elem_of_cons; done. }
  intros []; [simpl; intros [?|?]%elem_of_cons; [done|set_solver]|apply H..].
Qed.

Lemma revapp_nonnil (d acc : Decimal.uint) : acc ≠ Decimal.Nil → Decimal.revapp d acc ≠ Decimal.Nil.
Proof. revert acc; induction d; intros acc Hacc; simpl; try done; apply IHd; done. Qed.

Lemma to_uint_nonnil n : Nat.to_uint n ≠ Decimal.Nil.
Proof.
  rewrite Unsigned.to_uint_alt. unfold Decimal.rev.
  destruct n as [|n]; simpl; [done|].
  destruct (Unsigned.to_lu n); simpl; first [discriminate | apply revapp_nonnil; discriminate].
Qed.

Lemma parse_nat_str n : parse_nat (chars (str_nat n)) = Some n.
Proof.
  unfold parse_nat, str_nat. rewrite String.string_of_list_ascii_of_string.
  rewrite NilZero.usu by apply to_uint_nonnil. simpl. by rewrite Unsigned.of_to.
Qed.

Lemma split_on_cons (sep c : ascii) (l : list ascii) :
  c ≠ sep → ∃ w r, split_on sep (c :: l) = (c :: w) :: r.
Proof.
  intros Hc. simpl. destruct (Ascii.eqb_spec c sep); [done|].
  destruct (split_on sep l) as [|w r]; eauto.
Qed.

Lemma chars_concat_cons (n : nat) (l : list nat) :
  l ≠ [] →
  chars (String.concat ", " (str_nat <$> n :: l)) =
    chars (str_nat n) ++ ","%char :: " "%char :: chars (String.concat ", " (str_nat <$> l)).
Proof. destruct l as [|m l]; [done|]. intros _. simpl. by rewrite !chars_app. Qed.

Lemma parse_item_str (m : nat) : parse_item (" "%char :: chars (str_nat m)) = Some m.
Proof. unfold parse_item. rewrite Ascii.eqb_refl. apply parse_nat_str. Qed.

Lemma parse_items_str (l : list nat) :
  l ≠ [] →
  mapM parse_item (split_on "," (" "%char :: chars (String.concat ", " (str_nat <$> l)))) = Some l.
Proof.
  induction l as [|m l IH]; intros Hl; [done|].
  destruct (decide (l = [])) as [->|Hne].
  - simpl. rewrite split_on_no_sep.
    + simpl. by rewrite parse_nat_str.
    + apply str_nat_no_comma.
  - rewrite chars_concat_cons by done. rewrite app_comm_cons, split_on_app.
    + cbn [mapM]. rewrite parse_item_str, IH by done. done.
    + intros [?|?]%elem_of_cons; [done|]. by apply (str_nat_no_comma m).
Qed.

(** C37: The line [print(res.shape)] writes (line 24) gives the shape back:
    parsing Python's text of a tuple of ints returns the tuple, so the
    printed line determines the shape. *)
Theorem repr_shape_roundtrip (s : list nat) : parse_shape (repr_shape s) = Some s.
Proof.
  destruct s as [|n [|m l]]; [done| |].
  - unfold parse_shape, repr_shape. rewrite !chars_app. simpl.
    change [","%char; ")"%char] with ([","%char] ++ [")"%char]).
    rewrite app_assoc, last_snoc, removelast_last, bool_decide_true by done.
    unfold parse_inner. rewrite bool_decide_false by (intros H; by apply app_nil in H as [_ ?]).
    rewrite split_on_app by apply str_nat_no_comma. simpl. by rewrite parse_nat_str.
  - unfold parse_shape, repr_shape. rewrite !chars_app, chars_concat_cons by done.
    remember (chars (String.concat ", " (str_nat <$> m :: l))) as T eqn:HT. simpl.
    rewrite last_snoc, removelast_last, bool_decide_true by done.
    unfold parse_inner.
    rewrite bool_decide_false by (intros H; by apply app_nil in H as [_ ?]).
    rewrite split_on_app by apply str_nat_no_comma. rewrite parse_nat_str.
    destruct (split_on_cons "," " " T) as (w & r & Hwr); [done|].
    rewrite Hwr. cbn [mbind option_bind]. rewrite <- Hwr, HT, parse_items_str by done. done.
Qed.

End Print.
