(* ===== verification/Script.v ===== *)
(** * Running [main.py]: the module body (lines 1-7 and 34-35)

    Executing [main.py] runs its module-level statements in order: the
    imports and the [sys.path] change of lines 1-7 ([Imports]), the
    definition of [main] (line 10), and, when the module is the program
    ([__name__ == "__main__"], line 34), the call [main()] of line 35
    ([Main]).  An exception of an import ends the module before [main] is
    defined or called; importing [main.py] from another module runs only
    lines 1-7. *)

From stdpp Require Import base list gmap strings.
From Stdlib Require Import ZArith QArith Lia.
From S2P Require Import Prelude NdArray Ufunc Float Argmax Loader Collaborator Imports Main Print.
Local Open Scope nat_scope.

Module Script.
Import NdArray Ufunc Float Argmax Imports Loader Collaborator Main Print.

(** The exceptions that end the module: one of an import, or one of
    [main()]. *)
Inductive script_exn : Type :=
  | ImportFailed (e : import_error)
  | MainFailed (e : exn).

(** The module body of [main.py], executed under the name [name] from
    the interpreter state [st0]; [files] is the dataset on disk and [k],
    [ly] the literals and the dataset layout [main] is run with. *)
Definition run_main_py_with `{CifarNN} (k : consts) (ly : layout) (E : env) (st0 : state)
    (name : string) (files : fs) : prog output script_exn unit :=
  match exec_stmts E main_py_imports st0 with
  | Err e => Prog [] (Err (ImportFailed e))
  | Ok _ =>
      if String.eqb name "__main__" then prog_map_err MainFailed (main_with k ly files)
      else Prog [] (Ok ())
  end.

(** [main.py] as written: [main()] with the literals of lines 13-21. *)
Definition run_main_py `{CifarNN} (E : env) (st0 : state) (name : string) (files : fs)
    : prog output script_exn unit :=
  run_main_py_with main_consts cifar10_layout E st0 name files.

(** ** Properties *)

Lemma run_main_py_with_main `{CifarNN} k ly E st0 st files :
  exec_stmts E main_py_imports st0 = Ok st →
  run_main_py_with k ly E st0 "__main__" files = prog_map_err MainFailed (main_with k ly files).
Proof. intros Hi. unfold run_main_py_with. by rewrite Hi. Qed.

(** C24: The guard of line 34: imported under another name than
    [__main__], [main.py] runs only lines 1-7; it prints nothing and never
    runs [main()]. *)
Theorem run_main_py_as_module `{CifarNN} k ly E st0 name files :
  name ≠ "__main__"%string →
  prog_out (run_main_py_with k ly E st0 name files) = [] ∧
  ∀ e, prog_res (run_main_py_with k ly E st0 name files) ≠ Err (MainFailed e).
Proof.
  intros Hn. unfold run_main_py_with.
  destruct (exec_stmts E main_py_imports st0); [|done].
  destruct (String.eqb_spec name "__main__"); done.
Qed.

(** C23: Lines 1-7 run before [main()]: started with no directory of
    [sys.path] holding the package [python], the program stops at line 1
    with [ModuleNotFoundError] and prints nothing, whatever the dataset
    and the extension. *)
Theorem run_main_py_needs_python `{CifarNN} k ly E st0 name files :
  (∀ d, d ∈ search_dirs st0 → file_find E d "python" = None) →
  "python" ∉ builtins E → sys_modules st0 !! ["python"] = None →
  run_main_py_with k ly E st0 name files =
    Prog [] (Err (ImportFailed (ModuleNotFoundError ["python"]))).
Proof. intros Hn Hb Hl. unfold run_main_py_with. by rewrite main_py_needs_python_on_path. Qed.

Section complete_run.
Context `{CifarNNLaws} (k : consts) (ly : layout).
Hypothesis Hshape : img_c k * img_h k * img_w k = pixel_count ly.
Hypothesis Hpix : 0 < pixel_count ly.
Hypothesis Htest : 0 < n_test k.
Hypothesis Htest63 : (Z.of_nat (n_test k) < 2 ^ 63)%Z.

(** C11: A run of the program that gets through its imports and
    completes prints exactly four lines: the dataset, the network, the
    shape [(n_test, K)] of the scores and an accuracy in [0, 1]. *)
Theorem run_main_py_complete E st0 st files :
  exec_stmts E main_py_imports st0 = Ok st →
  prog_res (run_main_py_with k ly E st0 "__main__" files) = Ok () →
  ∃ d n K q, prog_out (run_main_py_with k ly E st0 "__main__" files) =
               [PrintRepr d; PrintRepr n; PrintShape [n_test k; K]; PrintFloat (F64 q)] ∧
             (0 <= q <= 1)%Q.
Proof.
  intros Hi. rewrite (run_main_py_with_main k ly E st0 st files Hi). unfold prog_map_err; simpl.
  intros Hr. assert (prog_res (main_with k ly files) = Ok ()) as Hok
    by (destruct (prog_res (main_with k ly files)); simpl in Hr; congruence).
  pose proof (main_with_scoring_inputs k ly files) as Hsc.
  repeat specialize (Hsc ltac:(assumption)).
  destruct Hsc as (sl' & res' & pred' & acc' & K' & Hrun & Hl & Hu8 & Hrs' & Hwr' & HK' & Hacc' & Hlast).
  destruct (scored_accuracy_bounds (data sl') res' pred' acc' (n_test k) K') as (q & -> & Hq); try done.
  { by eapply scored_run_argmax. }
  destruct (main_with_Ok_inv k ly files Hok)
    as (ti & tl & si & sl & ti' & si' & ds & net & res & pred & acc & _ & _ & Hsi & _ & _ & Hf & _ & _ & Hout).
  apply reshape_data in Hsi as [_ Hs].
  destruct (forward_shape net si' res (n_test k) _ Hs Hf) as (K & HK & _ & _).
  rewrite Hout in Hlast |- *. simpl in Hlast. injection Hlast as ->.
  exists (repr_dataset ds), (repr_net SimpleNet), K, q. by rewrite HK.
Qed.
End complete_run.

Section accuracy_text.
Context `{CifarNNLaws} (k : consts) (ly : layout) (j : nat).
Hypothesis Hshape : img_c k * img_h k * img_w k = pixel_count ly.
Hypothesis Hpix : 0 < pixel_count ly.
(** The test split of line 14 holds [10^j] samples, [j ≤ 4]: 10000 in
    [main.py] ([main_consts]). *)
Hypothesis Hj : j ≤ 4.
Hypothesis Hpow : n_test k = 10 ^ j.

(** C12: A run that completes prints last the accuracy of its [c]
    correct predictions out of the [10^j] test samples (10000 in
    [main.py]): [c] is the number of loaded test labels equal to the
    argmax of the network's scores ([scored_run]), and the text of that
    line is [c / 10^j] in decimal with at most [j] decimals, the text of
    the float numpy computes. *)
Theorem run_main_py_accuracy_text E st0 st files :
  exec_stmts E main_py_imports st0 = Ok st →
  prog_res (run_main_py_with k ly E st0 "__main__" files) = Ok () →
  ∃ sl res pred, scored_run k ly files sl res pred ∧
    let c := Z.of_nat (matches (data sl) (data pred)) in
    (0 ≤ c ≤ 10 ^ Z.of_nat j)%Z ∧
    last (prog_out (run_main_py_with k ly E st0 "__main__" files)) =
      Some (PrintFloat (true_divide c (10 ^ j))) ∧
    line_text (PrintFloat (true_divide c (10 ^ j))) = dec_text j c.
Proof.
  intros Hi. rewrite (run_main_py_with_main k ly E st0 st files Hi).
  unfold prog_map_err; simpl. intros Hr.
  assert (prog_res (main_with k ly files) = Ok ()) as Hok
    by (destruct (prog_res (main_with k ly files)); simpl in Hr; congruence).
  assert (Z.of_nat (n_test k) = 10 ^ Z.of_nat j)%Z as Hn by (rewrite Hpow; apply Z_of_nat_pow10).
  assert (10 ^ Z.of_nat j ≤ 10 ^ 4)%Z by (apply Z.pow_le_mono_r; lia).
  pose proof (main_with_scoring_inputs k ly files) as Hsc.
  specialize (Hsc Hshape Hpix ltac:(rewrite Hpow; apply Nat.neq_0_lt_0, Nat.pow_nonzero; lia) Hok).
  destruct Hsc as (sl & res & pred & acc & K & Hrun & Hl & Hu8 & Hrs & Hwr & HK & Hacc & Hlast).
  destruct (scored_accuracy_count (data sl) res pred acc (n_test k) K) as (Hc & ->);
    try done; try (rewrite Hn; lia); [by eapply scored_run_argmax|].
  exists sl, res, pred. split; [done|]. cbv zeta.
  split; [split; [lia|rewrite <- Hn; lia]|].
  rewrite Hpow in Hlast. split; [exact Hlast|].
  assert (10 ^ Z.of_nat j < 2 ^ 53)%Z by lia.
  rewrite <- float_repr_fracs, np_true_divide_round by (done || rewrite ?Z_of_nat_pow10; lia).
  reflexivity.
Qed.
End accuracy_text.

(** ** Instances *)

(** A test split of 10 one-pixel images, the first seven labelled 3,
    and one training image. *)
Module Split10.
Definition ly : layout := {|
  train_files := ["a"]%string; test_file := "t"; channels := 1; height := 1; width := 1
|}.
Definition k : consts := {|
  n_train := 1; n_test := 10; img_c := 1; img_h := 1; img_w := 1; epochs := 10
|}.
Definition files : fs :=
  <[os_path_join resources_path ["a"] := encode_shard [(Byte.x01, [Byte.x00])]]>
    (<[os_path_join resources_path ["t"] :=
        encode_shard (replicate 7 (Byte.x03, [Byte.x00]) ++ replicate 3 (Byte.x05, [Byte.x00]))]> ∅).
End Split10.

Lemma run_main_py_accuracy_text_witness :
  ∃ sl res pred, @scored_run (Mock.mock 10 3) Split10.k Split10.ly Split10.files sl res pred ∧
    let c := Z.of_nat (matches (data sl) (data pred)) in
    (0 ≤ c ≤ 10 ^ Z.of_nat 1)%Z ∧
    last (prog_out (@run_main_py_with (Mock.mock 10 3) Split10.k Split10.ly Layout.E
            (script_start Layout.script_dir Layout.script_dir ["/repo/src"] [Layout.site])
            "__main__" Split10.files)) = Some (PrintFloat (true_divide c (10 ^ 1))) ∧
    line_text (PrintFloat (true_divide c (10 ^ 1))) = dec_text 1 c.
Proof.
  destruct (exec_stmts Layout.E main_py_imports
              (script_start Layout.script_dir Layout.script_dir ["/repo/src"] [Layout.site]))
    as [st|e] eqn:Hi; [|vm_compute in Hi; discriminate].
  apply (@run_main_py_accuracy_text (Mock.mock 10 3) (Mock.mock_laws 10 3 eq_refl)
           Split10.k Split10.ly 1 eq_refl ltac:(vm_compute; lia) ltac:(lia) eq_refl) with (st := st).
  - exact Hi.
  - vm_compute. reflexivity.
Defined.

Lemma run_main_py_as_module_witness :
  prog_out (@run_main_py_with (Mock.mock 10 3) Scenario.k Scenario.ly Layout.E
              (script_start Layout.script_dir Layout.script_dir ["/repo/src"] [Layout.site])
              "main" Scenario.files) = [] ∧
  ∀ e, prog_res (@run_main_py_with (Mock.mock 10 3) Scenario.k Scenario.ly Layout.E
              (script_start Layout.script_dir Layout.script_dir ["/repo/src"] [Layout.site])
              "main" Scenario.files) ≠ Err (MainFailed e).
Proof. apply run_main_py_as_module. done. Defined.

Lemma run_main_py_needs_python_witness :
  @run_main_py_with (Mock.mock 10 3) Scenario.k Scenario.ly Layout.E
    (script_start Layout.script_dir Layout.script_dir [] [Layout.site]) "__main__" Scenario.files =
  Prog [] (Err (ImportFailed (ModuleNotFoundError ["python"]))).
Proof.
  apply run_main_py_needs_python.
  - apply Forall_forall, (bool_decide_unpack (Forall _ _)). vm_compute. reflexivity.
  - apply (bool_decide_unpack ("python" ∉ builtins Layout.E)). vm_compute. reflexivity.
  - reflexivity.
Defined.

Lemma run_main_py_complete_witness :
  ∃ d n K q, prog_out (@run_main_py_with (Mock.mock 10 3) Scenario.k Scenario.ly Layout.E
                (script_start Layout.script_dir Layout.script_dir ["/repo/src"] [Layout.site])
                "__main__" Scenario.files) =
             [PrintRepr d; PrintRepr n; PrintShape [n_test Scenario.k; K]; PrintFloat (F64 q)] ∧
             (0 <= q <= 1)%Q.
Proof.
  destruct (exec_stmts Layout.E main_py_imports
              (script_start Layout.script_dir Layout.script_dir ["/repo/src"] [Layout.site]))
    as [st|e] eqn:Hi; [|vm_compute in Hi; discriminate].
  apply (@run_main_py_complete (Mock.mock 10 3) (Mock.mock_laws 10 3 eq_refl) Scenario.k Scenario.ly)
    with (st := st).
  all: first [exact Hi | vm_compute; reflexivity | vm_compute; lia].
Defined.

End Script.
